(** * Weekly planner: the storage layer and the attachment manager

    A shallow embedding of [data_manager.py] (class [DataManager]).

    The SQLite database seen through [self.conn] is a record of two tables
    (lists of rows in rowid order) with their AUTOINCREMENT counters.  Every
    [cursor.execute] is an action that returns, raises [sqlite3.Error] or,
    for an integer it cannot bind, raises [OverflowError]; [commit] returns
    or raises [sqlite3.Error] with the statement's effect kept; the methods
    of [DataManager] wrap these actions in the [try ... except
    sqlite3.Error] of the source.  The file system touched by [upload_file]
    is a finite map from paths to regular files. *)

From Stdlib Require Import ZArith String Ascii List DecimalString.
From Stdlib Require DecimalPos DecimalZ.
From stdpp Require Import base option list sorting gmap strings.

Local Open Scope string_scope.
Local Open Scope Z_scope.

(** ** Exceptions and actions *)

Inductive sqlite_error_kind :=
  | IntegrityError     (* a NOT NULL constraint failed *)
  | OperationalError.  (* disk I/O error, locked database, or SQLITE_FULL:
                          no rowid left for AUTOINCREMENT *)

Inductive exception :=
  | sqlite3_Error (k : sqlite_error_kind)
  | OverflowError      (* an [int] parameter that does not fit SQLite's
                          INTEGER; not a [sqlite3.Error] *)
  | OSError.

Inductive outcome (A : Type) :=
  | Return (a : A)
  | Raise (e : exception).
Arguments Return {A} a.
Arguments Raise {A} e.

(** A statement of the program: it runs on a state [S] and either returns
    a value or raises. *)
Definition action (S A : Type) : Type := S → outcome A * S.

Definition ret {S A} (a : A) : action S A := λ s, (Return a, s).
Definition raise {S A} (e : exception) : action S A := λ s, (Raise e, s).
Definition bind {S A B} (k : A → action S B) (m : action S A) : action S B :=
  λ s, match m s with
       | (Return a, s') => k a s'
       | (Raise e, s') => (Raise e, s')
       end.

Global Instance action_ret {S} : MRet (action S) := λ A, ret.
Global Instance action_bind {S} : MBind (action S) := λ A B, bind.

(** [try: body except sqlite3.Error: handler] -- any other exception
    propagates. *)
Definition try_except_sqlite3 {S A} (body : action S A)
    (handler : sqlite_error_kind → action S A) : action S A :=
  λ s, match body s with
       | (Return a, s') => (Return a, s')
       | (Raise (sqlite3_Error k), s') => handler k s'
       | (Raise e, s') => (Raise e, s')
       end.

(** [try: body except Exception: handler] *)
Definition try_except_Exception {S A} (body : action S A)
    (handler : exception → action S A) : action S A :=
  λ s, match body s with
       | (Return a, s') => (Return a, s')
       | (Raise e, s') => handler e s'
       end.

(** ** Data model *)

(** A row of table [tasks].  Columns [date] and [name] are [TEXT NOT NULL];
    [description], [time], [location] and [file_path] are nullable [TEXT]
    ([None] is SQL NULL). *)
Record task := Task {
  t_id : Z;
  t_date : string;
  t_name : string;
  t_description : option string;
  t_time : option string;
  t_location : option string;
  t_file_path : option string;
  t_is_completed : bool
}.

(** A row of table [schedule]. *)
Record schedule_entry := ScheduleEntry {
  s_id : Z;
  s_day_of_week : string;
  s_start_time : string;
  s_end_time : string;
  s_type : string;
  s_description : option string
}.

Global Instance task_eq_dec : EqDecision task.
Proof. solve_decision. Defined.
Global Instance schedule_entry_eq_dec : EqDecision schedule_entry.
Proof. solve_decision. Defined.

(** The database as seen through the connection and its cursor. *)
Record database := Database {
  tasks : list task;               (* rows in rowid order *)
  tasks_seq : Z;                   (* sqlite_sequence: largest rowid ever used *)
  schedule : list schedule_entry;
  schedule_seq : Z;
  lastrowid : option Z             (* cursor.lastrowid *)
}.

Definition empty_database : database :=
  {| tasks := []; tasks_seq := 0; schedule := []; schedule_seq := 0;
     lastrowid := None |}.

(** [self.conn] is [None] when the connection failed or was closed. *)
Record DataManager := {
  conn : option database;
  upload_dir : string
}.

Definition set_conn (self : DataManager) (c : option database) : DataManager :=
  {| conn := c; upload_dir := upload_dir self |}.

(** What the SQLite engine does while a method runs its statement and, for
    a method that writes, the [commit] after it.  The tables exist on an
    open connection, so a statement is always prepared; a failure comes
    when the statement runs, its parameters bound by then, or when the
    commit runs. *)
Inductive io_status :=
  | IoOk          (* statement and commit go through *)
  | IoFault       (* the statement fails (locked database, disk I/O error)
                     and changes nothing *)
  | CommitFault.  (* the statement goes through and the commit fails (a
                     reader holds the database): the transaction stays
                     open and this connection goes on seeing the change *)

Global Instance io_status_eq_dec : EqDecision io_status.
Proof. solve_decision. Defined.

(** Rowids, and every INTEGER bound to a statement, are signed 64-bit
    integers. *)
Definition max_rowid : Z := 9223372036854775807.
Definition min_rowid : Z := -9223372036854775808.

(** The Python [int]s the [sqlite3] module can bind to a parameter. *)
Definition int64 (n : Z) : Prop := min_rowid ≤ n ≤ max_rowid.

Global Instance int64_dec n : Decision (int64 n).
Proof. unfold int64. apply _. Defined.

Definition largest_rowid {A} (key : A → Z) (rows : list A) : Z :=
  foldr (λ r m, Z.max (key r) m) 0 rows.

(** The rowid AUTOINCREMENT picks: one more than the largest rowid ever
    used in the table. *)
Definition next_rowid {A} (key : A → Z) (rows : list A) (seq : Z) : Z :=
  Z.max (largest_rowid key rows) seq + 1.

(** ** Ordering of TEXT values (collation BINARY, NULL first) *)

Definition text_le (a b : option string) : Prop :=
  match a, b with
  | None, _ => True
  | Some _, None => False
  | Some x, Some y => String.le x y
  end.

Global Instance text_le_dec : RelDecision text_le.
Proof. intros [x|] [y|]; simpl; apply _. Defined.

(** [date BETWEEN ? AND ?] *)
Definition between (lo hi d : string) : Prop := String.le lo d ∧ String.le d hi.

Global Instance between_dec lo hi d : Decision (between lo hi d).
Proof. unfold between. apply _. Defined.

(** [ORDER BY date, time] *)
Definition order_by_date_time (r1 r2 : task) : Prop :=
  String.le (t_date r1) (t_date r2) ∧
  (t_date r1 = t_date r2 → text_le (t_time r1) (t_time r2)).

Global Instance order_by_date_time_dec : RelDecision order_by_date_time.
Proof. intros r1 r2. unfold order_by_date_time. apply _. Defined.

(** [ORDER BY start_time] *)
Definition order_by_start_time (e1 e2 : schedule_entry) : Prop :=
  String.le (s_start_time e1) (s_start_time e2).

Global Instance order_by_start_time_dec : RelDecision order_by_start_time.
Proof. intros e1 e2. unfold order_by_start_time. apply _. Defined.

(** ** The SQL statements run through [self.cursor.execute]

    Each statement raises [sqlite3.Error] and leaves the database as it was
    when the engine fails in it ([IoFault]) or a constraint is violated.
    The parameters are bound before the statement runs: an [int] outside
    the signed 64-bit range raises [OverflowError] there. *)

Definition update_rows {A} (key : A → Z) (f : A → A) (rowid : Z)
    (rows : list A) : list A :=
  (λ r, if decide (key r = rowid) then f r else r) <$> rows.

Definition set_tasks (db : database) (rows : list task) : database :=
  {| tasks := rows; tasks_seq := tasks_seq db; schedule := schedule db;
     schedule_seq := schedule_seq db; lastrowid := lastrowid db |}.

(** [INSERT INTO tasks (date, name, description, time, location, file_path,
    is_completed) VALUES (?, ?, ?, ?, ?, ?, ?)] *)
Definition execute_insert_task (io : io_status) (date name : option string)
    (description time location file_path : option string)
    (is_completed : bool) : action database () :=
  λ db,
    match io with
    | IoFault => (Raise (sqlite3_Error OperationalError), db)
    | IoOk | CommitFault =>
        match date, name with
        | Some d, Some n =>
            let rowid := next_rowid t_id (tasks db) (tasks_seq db) in
            if decide (max_rowid < rowid)
            then (Raise (sqlite3_Error OperationalError), db)
            else
              (Return (),
               {| tasks := (tasks db ++
                    [Task rowid d n description time location file_path
                          is_completed])%list;
                  tasks_seq := rowid;
                  schedule := schedule db;
                  schedule_seq := schedule_seq db;
                  lastrowid := Some rowid |})
        | _, _ => (Raise (sqlite3_Error IntegrityError), db)
        end
    end.

(** [SELECT id, date, name, description, time, location, file_path,
    is_completed FROM tasks WHERE date BETWEEN ? AND ? ORDER BY date, time],
    followed by [fetchall()].  SQL leaves the order of rows with equal keys
    open; the sort used here is one of the orders the engine may produce. *)
Definition execute_select_tasks (io : io_status)
    (start_date_str end_date_str : string) : action database (list task) :=
  λ db,
    match io with
    | IoFault => (Raise (sqlite3_Error OperationalError), db)
    | IoOk | CommitFault =>
        (Return (merge_sort order_by_date_time
                   (filter (λ r, between start_date_str end_date_str (t_date r))
                           (tasks db))),
         db)
    end.

(** [UPDATE tasks SET is_completed = ? WHERE id = ?] *)
Definition execute_update_status (io : io_status) (is_completed : bool)
    (task_id : Z) : action database () :=
  λ db,
    if decide (int64 task_id) then
      match io with
      | IoFault => (Raise (sqlite3_Error OperationalError), db)
      | IoOk | CommitFault =>
          (Return (),
           set_tasks db
             (update_rows t_id
                (λ r, Task (t_id r) (t_date r) (t_name r) (t_description r)
                           (t_time r) (t_location r) (t_file_path r)
                           is_completed)
                task_id (tasks db)))
      end
    else (Raise OverflowError, db).

(** [UPDATE tasks SET name = ?, description = ?, time = ?, location = ?,
    file_path = ? WHERE id = ?].  The NOT NULL constraint on [name] is only
    checked on rows the statement changes. *)
Definition execute_update_task (io : io_status) (name : option string)
    (description time location file_path : option string)
    (task_id : Z) : action database () :=
  λ db,
    if decide (int64 task_id) then
      match io with
      | IoFault => (Raise (sqlite3_Error OperationalError), db)
      | IoOk | CommitFault =>
          match name with
          | Some n =>
              (Return (),
               set_tasks db
                 (update_rows t_id
                    (λ r, Task (t_id r) (t_date r) n description time location
                               file_path (t_is_completed r))
                    task_id (tasks db)))
          | None =>
              if decide (Exists (λ r, t_id r = task_id) (tasks db))
              then (Raise (sqlite3_Error IntegrityError), db)
              else (Return (), db)
          end
      end
    else (Raise OverflowError, db).

(** [DELETE FROM tasks WHERE id = ?] *)
Definition execute_delete_task (io : io_status) (task_id : Z)
    : action database () :=
  λ db,
    if decide (int64 task_id) then
      match io with
      | IoFault => (Raise (sqlite3_Error OperationalError), db)
      | IoOk | CommitFault =>
          (Return (), set_tasks db (filter (λ r, t_id r ≠ task_id) (tasks db)))
      end
    else (Raise OverflowError, db).

(** [INSERT INTO schedule (day_of_week, start_time, end_time, type,
    description) VALUES (?, ?, ?, ?, ?)] *)
Definition execute_insert_schedule (io : io_status)
    (day_of_week start_time end_time entry_type : option string)
    (description : option string) : action database () :=
  λ db,
    match io with
    | IoFault => (Raise (sqlite3_Error OperationalError), db)
    | IoOk | CommitFault =>
        match day_of_week, start_time, end_time, entry_type with
        | Some d, Some s, Some e, Some ty =>
            let rowid := next_rowid s_id (schedule db) (schedule_seq db) in
            if decide (max_rowid < rowid)
            then (Raise (sqlite3_Error OperationalError), db)
            else
              (Return (),
               {| tasks := tasks db;
                  tasks_seq := tasks_seq db;
                  schedule :=
                    (schedule db ++
                     [ScheduleEntry rowid d s e ty description])%list;
                  schedule_seq := rowid;
                  lastrowid := Some rowid |})
        | _, _, _, _ => (Raise (sqlite3_Error IntegrityError), db)
        end
    end.

(** [SELECT id, day_of_week, start_time, end_time, type, description FROM
    schedule WHERE day_of_week = ? ORDER BY start_time] and [fetchall()]. *)
Definition execute_select_schedule (io : io_status) (day_of_week : string)
    : action database (list schedule_entry) :=
  λ db,
    match io with
    | IoFault => (Raise (sqlite3_Error OperationalError), db)
    | IoOk | CommitFault =>
        (Return (merge_sort order_by_start_time
                   (filter (λ e, s_day_of_week e = day_of_week) (schedule db))),
         db)
    end.

(** [self.conn.commit()]: when it fails, what the statement before it did
    stays in the transaction, which is still open. *)
Definition commit (io : io_status) : action database () :=
  match io with
  | CommitFault => raise (sqlite3_Error OperationalError)
  | IoOk | IoFault => ret ()
  end.

(** [self.cursor.lastrowid] *)
Definition cursor_lastrowid : action database (option Z) :=
  λ db, (Return (lastrowid db), db).

(** ** The methods of [DataManager] *)

(** Runs a block of statements on the open connection of [self]. *)
Definition on_conn {A} (db : database) (body : action database A)
    : action DataManager A :=
  λ self, let '(r, db') := body db in (r, set_conn self (Some db')).

(** [setdefault(task_data['date'], []).append(task_data)] *)
Definition setdefault_append (tasks_by_date : gmap string (list task))
    (task_data : task) : gmap string (list task) :=
  <[t_date task_data :=
      (default [] (tasks_by_date !! t_date task_data) ++ [task_data])%list]>
    tasks_by_date.

Definition add_task (io : io_status) (date name : option string)
    (description time location file_path : option string)
    : action DataManager (option Z) :=
  λ self,
    match conn self with
    | None => (Return None, self)
    | Some db =>
        try_except_sqlite3
          (on_conn db
             (execute_insert_task io date name description time location
                                  file_path false;;
              commit io;;
              cursor_lastrowid))
          (λ _, mret None) self
    end.

Definition get_tasks_for_week (io : io_status)
    (start_date_str end_date_str : string)
    : action DataManager (gmap string (list task)) :=
  λ self,
    match conn self with
    | None => (Return ∅, self)
    | Some db =>
        try_except_sqlite3
          (on_conn db
             (rows ← execute_select_tasks io start_date_str end_date_str;
              mret (foldl setdefault_append ∅ rows)))
          (λ _, mret ∅) self
    end.

Definition update_task_status (io : io_status) (task_id : Z)
    (is_completed : bool) : action DataManager () :=
  λ self,
    match conn self with
    | None => (Return (), self)
    | Some db =>
        try_except_sqlite3
          (on_conn db (execute_update_status io is_completed task_id;; commit io))
          (λ _, mret ()) self
    end.

Definition update_task (io : io_status) (task_id : Z) (name : option string)
    (description time location file_path : option string)
    : action DataManager () :=
  λ self,
    match conn self with
    | None => (Return (), self)
    | Some db =>
        try_except_sqlite3
          (on_conn db
             (execute_update_task io name description time location file_path
                                  task_id;;
              commit io))
          (λ _, mret ()) self
    end.

Definition delete_task (io : io_status) (task_id : Z) : action DataManager () :=
  λ self,
    match conn self with
    | None => (Return (), self)
    | Some db =>
        try_except_sqlite3
          (on_conn db (execute_delete_task io task_id;; commit io))
          (λ _, mret ()) self
    end.

Definition add_schedule_entry (io : io_status)
    (day_of_week start_time end_time entry_type : option string)
    (description : option string) : action DataManager (option Z) :=
  λ self,
    match conn self with
    | None => (Return None, self)
    | Some db =>
        try_except_sqlite3
          (on_conn db
             (execute_insert_schedule io day_of_week start_time end_time
                                      entry_type description;;
              commit io;;
              cursor_lastrowid))
          (λ _, mret None) self
    end.

Definition get_schedule_for_day (io : io_status) (day_of_week : string)
    : action DataManager (list schedule_entry) :=
  λ self,
    match conn self with
    | None => (Return [], self)
    | Some db =>
        try_except_sqlite3
          (on_conn db (execute_select_schedule io day_of_week))
          (λ _, mret []) self
    end.

Definition close : action DataManager () :=
  λ self,
    match conn self with
    | Some _ => (Return (), set_conn self None)
    | None => (Return (), self)
    end.

(** ** Paths, the clock and the file system *)

(** [s.rfind(c)]: index of the last occurrence of [c], or [-1]. *)
Fixpoint rfind_from (c : ascii) (s : string) (i : Z) : Z :=
  match s with
  | EmptyString => -1
  | String a s' =>
      let r := rfind_from c s' (i + 1) in
      if (0 <=? r)%Z then r else if Ascii.eqb a c then i else -1
  end.

Definition rfind (c : ascii) (s : string) : Z := rfind_from c s 0.

(** [p[i:]] and [p[:i]] for [0 <= i]. *)
Definition slice_from (p : string) (i : Z) : string :=
  String.substring (Z.to_nat i) (String.length p - Z.to_nat i)%nat p.
Definition slice_to (p : string) (i : Z) : string :=
  String.substring 0 (Z.to_nat i) p.

(** [os.path.basename] *)
Definition basename (p : string) : string :=
  slice_from p (rfind "/" p + 1).

(** The loop of [os.path.splitext] that skips the leading dots of the file
    name: [true] when a character other than a dot stands before the last
    dot. *)
Fixpoint skip_leading_dots (fuel : nat) (p : string) (filenameIndex dotIndex : Z)
    : bool :=
  match fuel with
  | O => false
  | S fuel' =>
      if (filenameIndex <? dotIndex)%Z then
        match String.get (Z.to_nat filenameIndex) p with
        | Some c =>
            if Ascii.eqb c "." then
              skip_leading_dots fuel' p (filenameIndex + 1) dotIndex
            else true
        | None => true
        end
      else false
  end.

(** [os.path.splitext] *)
Definition splitext (p : string) : string * string :=
  let sepIndex := rfind "/" p in
  let dotIndex := rfind "." p in
  if (sepIndex <? dotIndex)%Z
     && skip_leading_dots (String.length p) p (sepIndex + 1) dotIndex
  then (slice_to p dotIndex, slice_from p dotIndex)
  else (p, "").

Definition startswith (c : ascii) (s : string) : bool :=
  match s with
  | String a _ => Ascii.eqb a c
  | EmptyString => false
  end.

Fixpoint endswith (c : ascii) (s : string) : bool :=
  match s with
  | EmptyString => false
  | String a EmptyString => Ascii.eqb a c
  | String _ s' => endswith c s'
  end.

(** [os.path.join(a, b)] *)
Definition path_join (a b : string) : string :=
  if startswith "/" b then b
  else if bool_decide (a = "") || endswith "/" a then a ++ b
  else a ++ "/" ++ b.

(** [str(n)] for an integer. *)
Definition str_of_int (n : Z) : string := NilZero.string_of_int (Z.to_int n).

(** A reading of the clock, [datetime.now()]. *)
Record datetime := {
  year : nat; month : nat; day : nat;
  hour : nat; minute : nat; second : nat
}.

(** A decimal number padded with zeros to [width] digits. *)
Definition zero_padded (width : nat) (n : nat) : string :=
  let digits := NilZero.string_of_uint (Nat.to_uint n) in
  String.concat "" (replicate (width - String.length digits)%nat "0") ++ digits.

(** [strftime("%Y%m%d%H%M%S")] *)
Definition strftime (now : datetime) : string :=
  zero_padded 4 (year now) ++ zero_padded 2 (month now) ++
  zero_padded 2 (day now) ++ zero_padded 2 (hour now) ++
  zero_padded 2 (minute now) ++ zero_padded 2 (second now).

(** A regular file: its bytes and the metadata [copy2] preserves. *)
Record file := {
  content : list Byte.byte;
  mtime : Z
}.

(** Whether the operating system lets a copy go through (permissions, free
    space, the destination directory being there), and how far the copy
    gets when it does not. *)
Inductive os_status :=
  | OsOk
  | OsFault                  (* fails before the destination is opened *)
  | OsFaultMidway (written : nat) (written_at : Z).
                             (* fails after the destination was created or
                                truncated and the first [written] bytes of
                                the source were written to it, at time
                                [written_at] *)

(** [os.path.exists].  Only regular files are entries of the file system
    here; a directory given as source ends in the same result, the empty
    string, since [copy2] cannot read it. *)
Definition path_exists (fs : gmap string file) (p : string) : bool :=
  bool_decide (is_Some (fs !! p)).

(** [shutil.copy2(src, dst)]: raises when the source cannot be read, when
    source and destination are the same file, or when the operating system
    refuses; otherwise the destination holds the bytes and metadata of the
    source.  A copy that fails midway leaves the part it wrote at the
    destination. *)
Definition copy2 (os : os_status) (src dst : string)
    : action (gmap string file) () :=
  λ fs,
    match fs !! src with
    | None => (Raise OSError, fs)
    | Some f =>
        if decide (src = dst) then (Raise OSError, fs)
        else
          match os with
          | OsOk => (Return (), <[dst := f]> fs)
          | OsFault => (Raise OSError, fs)
          | OsFaultMidway written written_at =>
              (Raise OSError,
               <[dst := {| content := take written (content f);
                           mtime := written_at |}]> fs)
          end
    end.

(** [if task_id:] -- [None] and [0] are both false. *)
Definition truthy (task_id : option Z) : bool :=
  match task_id with
  | Some n => negb (n =? 0)%Z
  | None => false
  end.

(** The text an f-string puts for [{task_id}]. *)
Definition format_task_id (task_id : option Z) : string :=
  match task_id with
  | Some n => str_of_int n
  | None => "None"
  end.

Definition upload_file (os : os_status) (now : datetime) (self : DataManager)
    (source_path : string) (task_id : option Z)
    : action (gmap string file) string :=
  λ fs,
    if bool_decide (source_path = "") || negb (path_exists fs source_path)
    then (Return "", fs)
    else
      let filename := basename source_path in
      let unique_filename :=
        if truthy task_id then
          let '(base, ext) := splitext filename in
          base ++ "_" ++ format_task_id task_id ++ ext
        else
          let timestamp := strftime now in
          let '(base, ext) := splitext filename in
          base ++ "_" ++ timestamp ++ ext in
      let destination_path := path_join (upload_dir self) unique_filename in
      try_except_Exception
        (copy2 os source_path destination_path;;
         mret destination_path)
        (λ _, mret "") fs.

(** ** Definitions used to state the properties *)

(** The call comes back with a value: nothing was raised. *)
Definition returns {S A} (r : outcome A * S) : Prop :=
  ∃ a s, r = (Return a, s).

(** The rows of table [tasks] behind [self]; none without a connection. *)
Definition stored_tasks (self : DataManager) : list task :=
  match conn self with
  | Some db => tasks db
  | None => []
  end.

(** A manager connected to a database that was just created. *)
Definition new_manager : DataManager :=
  {| conn := Some empty_database; upload_dir := "/app/uploads" |}.

Definition time_ascending (x y : task) : Prop := text_le (t_time x) (t_time y).

(** The calls a client can make on the storage layer. *)
Inductive storage_op :=
  | AddTask (date name description time location file_path : option string)
  | GetTasksForWeek (start_date_str end_date_str : string)
  | UpdateTaskStatus (task_id : Z) (is_completed : bool)
  | UpdateTask (task_id : Z)
      (name description time location file_path : option string)
  | DeleteTask (task_id : Z)
  | AddScheduleEntry
      (day_of_week start_time end_time entry_type description : option string)
  | GetScheduleForDay (day_of_week : string)
  | Close.

(** The manager after one call, the engine behaving as [io] says. *)
Definition run_op (self : DataManager) (call : io_status * storage_op)
    : DataManager :=
  match call with
  | (io, AddTask date name description time location file_path) =>
      (add_task io date name description time location file_path self).2
  | (io, GetTasksForWeek a b) => (get_tasks_for_week io a b self).2
  | (io, UpdateTaskStatus task_id is_completed) =>
      (update_task_status io task_id is_completed self).2
  | (io, UpdateTask task_id name description time location file_path) =>
      (update_task io task_id name description time location file_path self).2
  | (io, DeleteTask task_id) => (delete_task io task_id self).2
  | (io, AddScheduleEntry day_of_week start_time end_time entry_type
           description) =>
      (add_schedule_entry io day_of_week start_time end_time entry_type
                          description self).2
  | (io, GetScheduleForDay day_of_week) =>
      (get_schedule_for_day io day_of_week self).2
  | (_, Close) => (close self).2
  end.

Definition run_ops (calls : list (io_status * storage_op))
    (self : DataManager) : DataManager :=
  foldl run_op self calls.

(** The store of the Dentist and Standup scenario. *)
Definition planner_with_two_tasks : DataManager :=
  run_ops
    [(IoOk, AddTask (Some "2024-06-10") (Some "Dentist") (Some "")
                    (Some "09:30") (Some "") (Some ""));
     (IoOk, AddTask (Some "2024-06-10") (Some "Standup") (Some "")
                    (Some "08:00") (Some "") (Some ""))]
    new_manager.

(** That store with a third task, on the day after the week queried in the
    scenario. *)
Definition planner_with_late_task : DataManager :=
  run_ops
    [(IoOk, AddTask (Some "2024-06-16") (Some "Laundry") (Some "")
                    (Some "") (Some "") (Some ""))]
    planner_with_two_tasks.

(** The name a call hands to the store, when it hands one. *)
Definition name_argument (op : storage_op) : option (option string) :=
  match op with
  | AddTask _ name _ _ _ _ => Some name
  | UpdateTask _ name _ _ _ _ => Some name
  | _ => None
  end.

(** The check the GUI makes before it calls the store: [if not name]. *)
Definition name_given (op : storage_op) : Prop :=
  name_argument op ≠ Some (Some "").

Definition names_nonempty (self : DataManager) : Prop :=
  Forall (λ r, t_name r ≠ "") (stored_tasks self).

(** The rows of table [schedule] behind [self]. *)
Definition stored_schedule (self : DataManager) : list schedule_entry :=
  match conn self with
  | Some db => schedule db
  | None => []
  end.

(** A row with its completion flag replaced and everything else kept. *)
Definition with_is_completed (r : task) (is_completed : bool) : task :=
  Task (t_id r) (t_date r) (t_name r) (t_description r) (t_time r)
       (t_location r) (t_file_path r) is_completed.

(** A row with the five editable fields replaced; identity, date and the
    completion flag are kept. *)
Definition with_details (r : task) (name : string)
    (description time location file_path : option string) : task :=
  Task (t_id r) (t_date r) name description time location file_path
       (t_is_completed r).

(** The part of the destination name that makes it unique: the task
    identity when it is there and not zero, the timestamp otherwise. *)
Definition unique_tag (now : datetime) (task_id : option Z) : string :=
  match task_id with
  | Some n => if decide (n = 0) then strftime now else str_of_int n
  | None => strftime now
  end.

(** The destination [upload_file] computes for an existing source. *)
Definition destination_path (now : datetime) (self : DataManager)
    (source_path : string) (task_id : option Z) : string :=
  let '(base, ext) := splitext (basename source_path) in
  path_join (upload_dir self) (base ++ "_" ++ unique_tag now task_id ++ ext).

(** The destination name as the specification words it: the identity
    whenever one is supplied. *)
Definition specified_destination_path (now : datetime) (self : DataManager)
    (source_path : string) (task_id : option Z) : string :=
  let '(base, ext) := splitext (basename source_path) in
  path_join (upload_dir self)
    (base ++ "_" ++ match task_id with
                    | Some n => str_of_int n
                    | None => strftime now
                    end ++ ext).

Definition sample_clock : datetime :=
  {| year := 2024; month := 6; day := 10; hour := 9; minute := 5; second := 0 |}.
Definition sample_file : file :=
  {| content := [Byte.x89; Byte.x50; Byte.x4e; Byte.x47]; mtime := 1718010300 |}.
Definition sample_fs : gmap string file :=
  {[ "/tmp/photo.png" := sample_file ]}.

(** No character of the string is the path separator. *)
Fixpoint slash_free (s : string) : bool :=
  match s with
  | EmptyString => true
  | String a s' => negb (Ascii.eqb a "/") && slash_free s'
  end.

Ltac leb_true :=
  repeat match goal with
         | |- context [0 <=? ?x] => rewrite (proj2 (Z.leb_le 0 x)) by lia
         end.

(** ** Definitions used to state further properties *)

(** How one call can change table [tasks] and its counter. *)
Inductive tasks_step (db db' : database) : Prop :=
  | step_insert row :
      tasks db' = (tasks db ++ [row])%list →
      t_id row = next_rowid t_id (tasks db) (tasks_seq db) →
      tasks_seq db' = t_id row →
      tasks_step db db'
  | step_update (f : task → task) :
      (∀ r, t_id (f r) = t_id r ∧ t_date (f r) = t_date r) →
      tasks db' = f <$> tasks db →
      tasks_seq db' = tasks_seq db →
      tasks_step db db'
  | step_delete (task_id : Z) :
      tasks db' = filter (λ r, t_id r ≠ task_id) (tasks db) →
      tasks_seq db' = tasks_seq db →
      tasks_step db db'.

(** The AUTOINCREMENT counter of table [tasks] behind [self]. *)
Definition stored_tasks_seq (self : DataManager) : Z :=
  match conn self with
  | Some db => tasks_seq db
  | None => 0
  end.

(** Identities of stored tasks are pairwise distinct and none is larger than
    the AUTOINCREMENT counter. *)
Definition well_formed (self : DataManager) : Prop :=
  NoDup (t_id <$> stored_tasks self) ∧
  Forall (λ r, t_id r ≤ stored_tasks_seq self) (stored_tasks self).

(** A store with three schedule entries, two of them on Monday, the later
    one entered first. *)
Definition planner_with_schedule : DataManager :=
  run_ops
    [(IoOk, AddScheduleEntry (Some "Monday") (Some "14:00") (Some "15:30")
                             (Some "Class") None);
     (IoOk, AddScheduleEntry (Some "Tuesday") (Some "08:00") (Some "12:00")
                             (Some "Work") None);
     (IoOk, AddScheduleEntry (Some "Monday") (Some "09:00") (Some "12:00")
                             (Some "Work") (Some "office"))]
    new_manager.

(** ** The planner window and its dialogs ([ui_planner.py])

    Widgets are left out; what is kept is the data the handlers read from
    them and hand to the storage layer: the date shown, the tasks put into
    each column of the week grid, the message boxes raised, and the file
    part of the task dialog.  The text a user leaves in the dialog is an
    input of the handlers, taken as [get_task_data] reads it. *)

(** A [QDate] is kept as Qt keeps it, as its Julian day number in a 64-bit
    integer: the days from [minJd] to [maxJd] are the valid dates, and
    [nullJd] is the date [QDate()] that is not valid. *)
Definition minJd : Z := -784350574879.
Definition maxJd : Z := 784354017364.
Definition nullJd : Z := -9223372036854775808.

(** [QDate.isValid] *)
Definition isValid (date : Z) : bool := (minJd <=? date) && (date <=? maxJd).

(** [QDate.dayOfWeek]: 1 for Monday to 7 for Sunday, 0 for a date that is
    not valid. *)
Definition dayOfWeek (date : Z) : Z :=
  if isValid date then date mod 7 + 1 else 0.

(** [QDate.addDays]: the date that is not valid when this one is not or
    when the result leaves the range.  The handlers pass it a day of the
    week, 6, a column number or 7, which fit the 64-bit argument. *)
Definition addDays (date ndays : Z) : Z :=
  if isValid date && isValid (date + ndays) then date + ndays else nullJd.

(** Year, month and day of a Julian day number in the Gregorian calendar,
    with Qt's rule that year 1 follows year -1. *)
Definition getDate (jd : Z) : Z * Z * Z :=
  let a := jd + 32044 in
  let b := (4 * a + 3) / 146097 in
  let c := a - (146097 * b) / 4 in
  let d := (4 * c + 3) / 1461 in
  let e := c - (1461 * d) / 4 in
  let m := (5 * e + 2) / 153 in
  let y := 100 * b + d - 4800 + m / 10 in
  (if 0 <? y then y else y - 1, m + 3 - 12 * (m / 10), e - (153 * m + 2) / 5 + 1).

(** [QDate.toString("yyyy-MM-dd")]: the empty string for a date that is not
    valid. *)
Definition toString_yyyy_MM_dd (date : Z) : string :=
  if isValid date then
    let '(y, m, d) := getDate date in
    (if y <? 0 then "-" else "") ++ zero_padded 4 (Z.to_nat (Z.abs y)) ++ "-" ++
    zero_padded 2 (Z.to_nat m) ++ "-" ++ zero_padded 2 (Z.to_nat d)
  else "".

(** A [QMessageBox] raised by a handler, with its title and text. *)
Inductive message_box :=
  | warning (title text : string)
  | information (title text : string)
  | critical (title text : string).

(** The planner window. *)
Record WeeklyPlannerApp := {
  data_manager : DataManager;
  current_date : Z;
  (* row 1 of the grid: per column the date of the day and the tasks handed
     to [_add_task_widget], in that order *)
  week_grid : list (string * list task);
  (* the message boxes raised so far, the latest last *)
  message_boxes : list message_box
}.

(** The window together with the files of the machine it runs on. *)
Record desktop := {
  planner : WeeklyPlannerApp;
  files : gmap string file
}.

Definition set_data_manager (w : desktop) (dm : DataManager) : desktop :=
  {| planner := {| data_manager := dm;
                   current_date := current_date (planner w);
                   week_grid := week_grid (planner w);
                   message_boxes := message_boxes (planner w) |};
     files := files w |}.

Definition set_current_date (w : desktop) (date : Z) : desktop :=
  {| planner := {| data_manager := data_manager (planner w);
                   current_date := date;
                   week_grid := week_grid (planner w);
                   message_boxes := message_boxes (planner w) |};
     files := files w |}.

Definition set_week_grid (w : desktop) (grid : list (string * list task))
    : desktop :=
  {| planner := {| data_manager := data_manager (planner w);
                   current_date := current_date (planner w);
                   week_grid := grid;
                   message_boxes := message_boxes (planner w) |};
     files := files w |}.

(** A call of a method of [self.data_manager]. *)
Definition on_data_manager {A} (m : action DataManager A) : action desktop A :=
  λ w, let '(r, dm) := m (data_manager (planner w)) in (r, set_data_manager w dm).

(** [self.data_manager.upload_file(source_path, task_id)] *)
Definition on_files (os : os_status) (now : datetime) (source_path : string)
    (task_id : option Z) : action desktop string :=
  λ w, let '(r, fs) := upload_file os now (data_manager (planner w))
                                   source_path task_id (files w) in
       (r, {| planner := planner w; files := fs |}).

(** [QMessageBox.warning], [.information], [.critical] *)
Definition show (box : message_box) : action desktop () :=
  λ w, (Return (),
        {| planner := {| data_manager := data_manager (planner w);
                         current_date := current_date (planner w);
                         week_grid := week_grid (planner w);
                         message_boxes :=
                           (message_boxes (planner w) ++ [box])%list |};
           files := files w |}).

(** The string of a Python value that is true in a condition: a string
    other than the empty one. *)
Definition if_true (value : option string) : option string :=
  match value with
  | Some s => if decide (s = "") then None else Some s
  | None => None
  end.

(** *** The task dialog *)

(** What [get_task_data] reads from the inputs of the dialog when the user
    is done: the name, description and location stripped, the time as
    ["HH:mm"]. *)
Record task_form := {
  name_text : string;
  description_text : string;
  time_text : string;
  location_text : string
}.

(** The attributes of [TaskDialog] that deal with the attachment. *)
Record TaskDialog := {
  original_file_path : option string;
  file_to_upload_path : option string;   (* [None]: the attribute is not set *)
  file_path_label : string
}.

(** [TaskDialog.__init__] with [_load_task_data]: [task_data] is [None] for
    a new task and the row of the task for an edit. *)
Definition TaskDialog_init (task_data : option task) : TaskDialog :=
  match task_data with
  | Some row =>
      {| original_file_path := t_file_path row;
         file_to_upload_path := None;
         file_path_label :=
           match if_true (t_file_path row) with
           | Some path => basename path
           | None => "No file selected."
           end |}
  | None =>
      {| original_file_path := Some "";
         file_to_upload_path := None;
         file_path_label := "No file selected." |}
  end.

(** [TaskDialog._select_file]: [file_path] is what the file dialog
    returned, the empty string when it was cancelled. *)
Definition select_file (dialog : TaskDialog) (file_path : string) : TaskDialog :=
  if decide (file_path = "") then
    {| original_file_path := original_file_path dialog;
       file_to_upload_path := Some "";
       file_path_label := "No file selected." |}
  else
    {| original_file_path := original_file_path dialog;
       file_to_upload_path := Some file_path;
       file_path_label := basename file_path |}.

(** The dictionary [get_task_data] returns. *)
Record task_data := {
  td_name : string;
  td_description : string;
  td_time : string;
  td_location : string;
  td_file_path : option string
}.

(** [TaskDialog.get_task_data] *)
Definition get_task_data (dialog : TaskDialog) (form : task_form) : task_data :=
  {| td_name := name_text form;
     td_description := description_text form;
     td_time := time_text form;
     td_location := location_text form;
     td_file_path :=
       match if_true (file_to_upload_path dialog) with
       | Some path => Some path
       | None => original_file_path dialog
       end |}.

Inductive DialogCode := Accepted | Rejected.

(** What the user does while [dialog.exec()] runs: the outcomes of the
    Browse button in order, the texts left in the inputs, and the button
    that closes the dialog. *)
Record dialog_session := {
  browsed : list string;
  entered : task_form;
  closed_with : DialogCode
}.

(** The dialog when [exec()] returns. *)
Definition dialog_after (dialog : TaskDialog) (session : dialog_session)
    : TaskDialog :=
  foldl select_file dialog (browsed session).

(** *** The handlers of the window *)

(** The first day of the week shown:
    [self.current_date.addDays(-self.current_date.dayOfWeek() + 1)]. *)
Definition monday_of (current_date : Z) : Z :=
  addDays current_date (- dayOfWeek current_date + 1).

(** Reading and writing [self.current_date] and the grid. *)
Definition read_current_date : action desktop Z :=
  λ w, (Return (current_date (planner w)), w).
Definition write_current_date (date : Z) : action desktop () :=
  λ w, (Return (), set_current_date w date).
Definition write_week_grid (grid : list (string * list task))
    : action desktop () :=
  λ w, (Return (), set_week_grid w grid).

(** [WeeklyPlannerApp._update_week_display], the grid it fills. *)
Definition update_week_display (io : io_status) : action desktop () :=
  current ← read_current_date;
  let start_of_week := monday_of current in
  let end_of_week := addDays start_of_week 6 in
  tasks_in_week ←
    on_data_manager
      (get_tasks_for_week io (toString_yyyy_MM_dd start_of_week)
                          (toString_yyyy_MM_dd end_of_week));
  write_week_grid
    ((λ i, let day_date_str :=
             toString_yyyy_MM_dd (addDays start_of_week i) in
           (day_date_str, default [] (tasks_in_week !! day_date_str)))
       <$> seqZ 0 7).

(** What the engine, the operating system and the clock do during
    [_open_add_task_dialog]. *)
Record add_environment := {
  add_first_copy : os_status;
  add_first_clock : datetime;
  add_insert : io_status;
  add_second_copy : os_status;
  add_second_clock : datetime;
  add_update : io_status;
  add_refresh : io_status
}.

(** [WeeklyPlannerApp._open_add_task_dialog] *)
Definition open_add_task_dialog (env : add_environment) (date_str : string)
    (session : dialog_session) : action desktop () :=
  let dialog := dialog_after (TaskDialog_init None) session in
  match closed_with session with
  | Accepted =>
      let task_data := get_task_data dialog (entered session) in
      let name := td_name task_data in
      let description := td_description task_data in
      let time := td_time task_data in
      let location := td_location task_data in
      let source_file_path := td_file_path task_data in
      if decide (name = "") then
        show (warning "Input Error" "Task Name cannot be empty.")
      else
        uploaded_file_path ←
          match if_true source_file_path with
          | Some source =>
              on_files (add_first_copy env) (add_first_clock env) source None
          | None => mret ""
          end;
        task_id ←
          on_data_manager
            (add_task (add_insert env) (Some date_str) (Some name)
                      (Some description) (Some time) (Some location)
                      (Some uploaded_file_path));
        match task_id with
        | Some rowid =>
            match if_true source_file_path with
            | Some source =>
                final_uploaded_path ←
                  on_files (add_second_copy env) (add_second_clock env) source
                           (Some rowid);
                if decide (final_uploaded_path ≠ uploaded_file_path) then
                  on_data_manager
                    (update_task (add_update env) rowid (Some name)
                                 (Some description) (Some time) (Some location)
                                 (Some final_uploaded_path));;
                  show (information "File Upload"
                          ("File saved as: " ++ basename final_uploaded_path))
                else mret ()
            | None => mret ()
            end;;
            update_week_display (add_refresh env)
        | None =>
            show (critical "Database Error" "Failed to add task to database.")
        end
  | Rejected => mret ()
  end.

(** What the engine, the operating system and the clock do during
    [_open_edit_task_dialog]. *)
Record edit_environment := {
  edit_copy : os_status;
  edit_clock : datetime;
  edit_update : io_status;
  edit_refresh : io_status
}.

(** [WeeklyPlannerApp._open_edit_task_dialog] *)
Definition open_edit_task_dialog (env : edit_environment) (task_id : Z)
    (current_task_data : task) (session : dialog_session) : action desktop () :=
  let dialog := dialog_after (TaskDialog_init (Some current_task_data)) session in
  match closed_with session with
  | Accepted =>
      let updated_data := get_task_data dialog (entered session) in
      let name := td_name updated_data in
      let description := td_description updated_data in
      let time := td_time updated_data in
      let location := td_location updated_data in
      if decide (name = "") then
        show (warning "Input Error" "Task Name cannot be empty.")
      else
        final_file_path ←
          match if_true (file_to_upload_path dialog) with
          | Some source =>
              uploaded_path ←
                on_files (edit_copy env) (edit_clock env) source (Some task_id);
              mret (Some uploaded_path)
          | None =>
              if bool_decide (file_path_label dialog = "No file selected.")
                 && bool_decide (is_Some (if_true (t_file_path current_task_data)))
              then mret (Some "")
              else mret (t_file_path current_task_data)
          end;
        on_data_manager
          (update_task (edit_update env) task_id (Some name) (Some description)
                       (Some time) (Some location) final_file_path);;
        update_week_display (edit_refresh env)
  | Rejected => mret ()
  end.

(** [WeeklyPlannerApp._toggle_task_completion] *)
Definition toggle_task_completion (io refresh : io_status) (task_id : Z)
    (is_completed : bool) : action desktop () :=
  on_data_manager (update_task_status io task_id is_completed);;
  update_week_display refresh.

(** [WeeklyPlannerApp._delete_task]: [yes] tells whether the Yes button of
    the confirmation box was clicked. *)
Definition confirm_delete_task (io refresh : io_status) (task_id : Z)
    (yes : bool) : action desktop () :=
  if yes then
    on_data_manager (delete_task io task_id);;
    update_week_display refresh
  else mret ().

(** [WeeklyPlannerApp._go_to_previous_week] *)
Definition go_to_previous_week (refresh : io_status) : action desktop () :=
  current ← read_current_date;
  write_current_date (addDays current (-7));;
  update_week_display refresh.

(** [WeeklyPlannerApp._go_to_next_week] *)
Definition go_to_next_week (refresh : io_status) : action desktop () :=
  current ← read_current_date;
  write_current_date (addDays current 7);;
  update_week_display refresh.

(** [WeeklyPlannerApp.closeEvent] *)
Definition closeEvent : action desktop () := on_data_manager close.

(** What a user can do with the window. *)
Inductive gui_event :=
  | AddTaskDialog (env : add_environment) (date_str : string)
                  (session : dialog_session)
  | EditTaskDialog (env : edit_environment) (task_id : Z)
                   (current_task_data : task) (session : dialog_session)
  | ToggleCompletion (io refresh : io_status) (task_id : Z)
                     (is_completed : bool)
  | DeleteClicked (io refresh : io_status) (task_id : Z) (yes : bool)
  | PreviousWeek (refresh : io_status)
  | NextWeek (refresh : io_status)
  | CloseWindow.

Definition handle (event : gui_event) : action desktop () :=
  match event with
  | AddTaskDialog env date_str session =>
      open_add_task_dialog env date_str session
  | EditTaskDialog env task_id current_task_data session =>
      open_edit_task_dialog env task_id current_task_data session
  | ToggleCompletion io refresh task_id is_completed =>
      toggle_task_completion io refresh task_id is_completed
  | DeleteClicked io refresh task_id yes =>
      confirm_delete_task io refresh task_id yes
  | PreviousWeek refresh => go_to_previous_week refresh
  | NextWeek refresh => go_to_next_week refresh
  | CloseWindow => closeEvent
  end.

(** The desktop after a series of events; an event whose handler raises
    ends the series. *)
Fixpoint handle_all (events : list gui_event) (w : desktop)
    : outcome () * desktop :=
  match events with
  | [] => (Return (), w)
  | event :: events' =>
      match handle event w with
      | (Return _, w') => handle_all events' w'
      | (Raise e, w') => (Raise e, w')
      end
  end.

(** A window on a new store showing the week of Wednesday 2024-06-12
    (Julian day 2460474). *)
Definition sample_desktop : desktop :=
  {| planner := {| data_manager := new_manager;
                   current_date := 2460474;
                   week_grid := [];
                   message_boxes := [] |};
     files := sample_fs |}.

(** The manager of [w'] is the manager of [w] after a series of calls of
    the storage layer that were each given a name. *)
Definition reached_by_calls (w w' : desktop) : Prop :=
  ∃ calls : list (io_status * storage_op),
    data_manager (planner w') = run_ops calls (data_manager (planner w)) ∧
    Forall (λ call, name_given call.2) calls.

(** Whatever it returns or raises, a handler reaches the store through such
    calls only. *)
Definition via_calls {A} (m : action desktop A) : Prop :=
  ∀ w, reached_by_calls w (m w).2.

(** ** Properties of the orders and of the grouping loop *)

Section orders.

Lemma text_le_refl a : text_le a a.
Proof. destruct a; simpl; done. Qed.

Lemma text_le_trans a b c : text_le a b → text_le b c → text_le a c.
Proof.
  destruct a, b, c; simpl; try done.
  intros; by etrans.
Qed.

Lemma text_le_total a b : text_le a b ∨ text_le b a.
Proof. destruct a, b; simpl; auto. apply (total String.le). Qed.

(** The empty string sorts before every populated value. *)
Lemma text_le_empty s : text_le (Some "") (Some s).
Proof. by destruct s. Qed.

(** Only NULL and the empty string sort at or before the empty string. *)
Lemma text_le_empty_inv a : text_le a (Some "") → a = None ∨ a = Some "".
Proof. destruct a as [[|c s]|]; simpl; auto. intros []. Qed.

Global Instance order_by_date_time_trans : Transitive order_by_date_time.
Proof.
  intros r1 r2 r3 [H12 T12] [H23 T23]. split; [by etrans|].
  intros E.
  assert (t_date r1 = t_date r2) as E12.
  { apply (anti_symm String.le); [done|]. by rewrite E. }
  eapply text_le_trans; [by apply T12|]. apply T23. congruence.
Qed.

Global Instance order_by_date_time_total : Total order_by_date_time.
Proof.
  intros r1 r2. unfold order_by_date_time.
  destruct (decide (t_date r1 = t_date r2)) as [E|N].
  - rewrite E. destruct (text_le_total (t_time r1) (t_time r2)); [left|right]; done.
  - destruct (total String.le (t_date r1) (t_date r2)); [left|right]; split; try done;
      intros; congruence.
Qed.

Global Instance order_by_start_time_trans : Transitive order_by_start_time.
Proof. intros e1 e2 e3. unfold order_by_start_time. by etrans. Qed.

Global Instance order_by_start_time_total : Total order_by_start_time.
Proof. intros e1 e2. apply (total String.le). Qed.

End orders.

Section grouping.

Implicit Types (m : gmap string (list task)) (l rows : list task).

Lemma foldl_setdefault_append_lookup l m d :
  foldl setdefault_append m l !! d =
    match filter (λ r, t_date r = d) l with
    | [] => m !! d
    | rs => Some (default [] (m !! d) ++ rs)%list
    end.
Proof.
  revert m. induction l as [|r l IH]; intros m; [done|].
  simpl. rewrite IH, filter_cons. unfold setdefault_append.
  destruct (decide (t_date r = d)) as [->|N].
  - rewrite lookup_insert_eq. simpl.
    destruct (filter _ l) as [|r' rs]; [done|].
    by rewrite <- app_assoc.
  - by rewrite lookup_insert_ne.
Qed.

Lemma StronglySorted_filter {A} (R : relation A) (P : A → Prop)
    `{∀ x, Decision (P x)} (l : list A) :
  StronglySorted R l → StronglySorted R (filter P l).
Proof.
  induction 1 as [|x l Hl IH Hx]; [constructor|].
  rewrite filter_cons. case_decide; [|done].
  constructor; [done|].
  rewrite Forall_forall in Hx |- *. intros y Hy.
  apply Hx.
  by apply list_elem_of_filter in Hy as [_ ?].
Qed.

End grouping.

(** ** The week query *)

Section week_query.

Lemma set_conn_same self db : conn self = Some db → set_conn self (Some db) = self.
Proof. destruct self; simpl; by intros ->. Qed.

Lemma get_tasks_for_week_run self db a b :
  conn self = Some db →
  get_tasks_for_week IoOk a b self =
    (Return (foldl setdefault_append ∅
               (merge_sort order_by_date_time
                  (filter (λ r, between a b (t_date r)) (tasks db)))),
     self).
Proof.
  intros Hc. unfold get_tasks_for_week. rewrite Hc.
  unfold try_except_sqlite3, on_conn; simpl.
  by rewrite (set_conn_same _ _ Hc).
Qed.

Lemma selected_lookup (rows : list task) a b d :
  let sel := merge_sort order_by_date_time
               (filter (λ r, between a b (t_date r)) rows) in
  foldl setdefault_append ∅ sel !! d =
    match filter (λ r, t_date r = d) sel with
    | [] => None
    | rs => Some rs
    end.
Proof.
  intros sel. rewrite foldl_setdefault_append_lookup, lookup_empty.
  by destruct (filter _ sel).
Qed.

Lemma selected_group_Permutation (rows : list task) a b d :
  between a b d →
  filter (λ r, t_date r = d)
    (merge_sort order_by_date_time
       (filter (λ r, between a b (t_date r)) rows))
  ≡ₚ filter (λ r, t_date r = d) rows.
Proof.
  intros Hd. rewrite merge_sort_Permutation, list_filter_filter.
  induction rows as [|r rows IH]; [done|].
  rewrite !filter_cons.
  destruct (decide (t_date r = d)) as [E|N].
  - rewrite decide_True by (split; [done|by rewrite E]). by f_equiv.
  - rewrite decide_False by (intros []; done). done.
Qed.

Lemma selected_group_sorted (rows : list task) d :
  StronglySorted order_by_date_time rows →
  StronglySorted time_ascending (filter (λ r, t_date r = d) rows).
Proof.
  induction 1 as [|x l Hl IH Hx]; [constructor|].
  rewrite filter_cons. case_decide as E; [|done].
  constructor; [done|].
  rewrite Forall_forall in Hx |- *. intros y Hy.
  apply list_elem_of_filter in Hy as [Ey Hy].
  destruct (Hx y Hy) as [_ Ht]. apply Ht. congruence.
Qed.

Lemma StronglySorted_lookup_lt {A} (R : relation A) (l : list A) i j x y :
  StronglySorted R l → l !! i = Some x → l !! j = Some y → (i < j)%nat → R x y.
Proof.
  intros Hs. revert i j. induction Hs as [|z l Hl IH Hz]; intros i j Hi Hj Hij.
  - done.
  - destruct j as [|j]; [lia|]. destruct i as [|i]; simpl in *.
    + injection Hi as <-. rewrite Forall_forall in Hz. apply Hz.
      by eapply list_elem_of_lookup_2.
    + eapply IH; eauto. lia.
Qed.

End week_query.

(** ** Claims about [get_tasks_for_week] *)

(** What a week query returns when the engine raises nothing: the store is
    left as it was, a task is listed under a date exactly when it is stored
    with that date and the date lies in the range, and each list is the
    date's stored tasks in ascending order of time. *)
Lemma get_tasks_for_week_spec (self : DataManager)
    (start_date_str end_date_str : string) :
  ∃ tasks_by_date : gmap string (list task),
    get_tasks_for_week IoOk start_date_str end_date_str self
      = (Return tasks_by_date, self) ∧
    (∀ d r, (∃ rs, tasks_by_date !! d = Some rs ∧ r ∈ rs) ↔
            (r ∈ stored_tasks self ∧ t_date r = d ∧
             between start_date_str end_date_str d)) ∧
    (∀ d rs, tasks_by_date !! d = Some rs →
       rs ≠ [] ∧
       rs ≡ₚ filter (λ r, t_date r = d) (stored_tasks self) ∧
       StronglySorted time_ascending rs ∧
       (∀ i j x y, rs !! i = Some x → rs !! j = Some y → (i < j)%nat →
          time_ascending x y ∧
          (t_time y = Some "" → t_time x = None ∨ t_time x = Some ""))).
Proof.
  rename start_date_str into a, end_date_str into b. unfold stored_tasks.
  destruct (conn self) as [db|] eqn:Hc.
  - eexists. split; [by apply get_tasks_for_week_run|].
    set (sel := merge_sort order_by_date_time
                  (filter (λ r, between a b (t_date r)) (tasks db))).
    assert (Hsel : ∀ r, r ∈ sel ↔ between a b (t_date r) ∧ r ∈ tasks db).
    { intros r. unfold sel. rewrite merge_sort_Permutation.
      by rewrite list_elem_of_filter. }
    assert (Hlook : ∀ d rs, foldl setdefault_append ∅ sel !! d = Some rs ↔
              (rs ≠ [] ∧ rs = filter (λ r, t_date r = d) sel)).
    { intros d rs. unfold sel. rewrite selected_lookup. fold sel.
      destruct (filter (λ r, t_date r = d) sel) eqn:E; split.
      - done.
      - intros [? ->]; done.
      - intros [= <-]. done.
      - intros [_ ->]. done. }
    split.
    + intros d r. split.
      * intros (rs & Hrs & Hr). apply Hlook in Hrs as [_ ->].
         apply list_elem_of_filter in Hr as [Hd Hr].
         apply Hsel in Hr as [Hb Hr]. rewrite Hd in Hb. done.
      * intros (Hr & Hd & Hb).
         exists (filter (λ r, t_date r = d) sel).
         assert (r ∈ filter (λ r, t_date r = d) sel) as Hin.
         { apply list_elem_of_filter. split; [done|].
           apply Hsel. by rewrite Hd. }
         split; [|done]. apply Hlook. split; [|done].
         intros E. rewrite E in Hin. by apply not_elem_of_nil in Hin.
    + intros d rs Hrs. apply Hlook in Hrs as [Hne ->].
      assert (between a b d) as Hb.
      { destruct (filter (λ r, t_date r = d) sel) as [|r rs] eqn:E; [done|].
        assert (r ∈ filter (λ r, t_date r = d) sel) as Hin
          by (rewrite E; left).
        apply list_elem_of_filter in Hin as [<- Hin]. by apply Hsel. }
      assert (StronglySorted time_ascending
                (filter (λ r, t_date r = d) sel)) as Hs.
      { apply selected_group_sorted, StronglySorted_merge_sort; apply _. }
      repeat split; [done|by apply selected_group_Permutation|done|..].
      * eapply StronglySorted_lookup_lt; eauto.
      * intros Hy. apply text_le_empty_inv. rewrite <- Hy.
         by eapply (StronglySorted_lookup_lt time_ascending).
  - exists ∅. unfold get_tasks_for_week. rewrite Hc. split; [done|].
    split.
    + intros d r. rewrite lookup_empty. split.
      * intros (? & ? & ?); done.
      * intros (Hr & _). by apply not_elem_of_nil in Hr.
    + intros d rs. by rewrite lookup_empty.
Qed.

(** C1: on every store and for every range, [get_tasks_for_week] returns a
    mapping that holds exactly the stored tasks whose date is, as a text,
    at or after the start and at or before the end of the range, grouped
    under their date; each date's list is sorted by the time text
    ascending, NULL first, so that nothing with a populated time stands
    before a task whose time is the empty string.  After inserting Dentist
    at 09:30 and then Standup at 08:00 on 2024-06-10, the week from
    2024-06-09 to 2024-06-15 holds, under 2024-06-10, Standup then
    Dentist. *)
Theorem get_tasks_for_week_grouped_and_sorted :
  (∀ (self : DataManager) (start_date_str end_date_str : string),
     ∃ tasks_by_date : gmap string (list task),
       get_tasks_for_week IoOk start_date_str end_date_str self
         = (Return tasks_by_date, self) ∧
       (∀ d r, (∃ rs, tasks_by_date !! d = Some rs ∧ r ∈ rs) ↔
               (r ∈ stored_tasks self ∧ t_date r = d ∧
                String.le start_date_str d ∧ String.le d end_date_str)) ∧
       (∀ d rs, tasks_by_date !! d = Some rs →
          rs ≠ [] ∧
          rs ≡ₚ filter (λ r, t_date r = d) (stored_tasks self) ∧
          StronglySorted time_ascending rs ∧
          (∀ i j x y, rs !! i = Some x → rs !! j = Some y → (i < j)%nat →
             match t_time x, t_time y with
             | None, _ => True
             | Some _, None => False
             | Some time_x, Some time_y => String.le time_x time_y
             end ∧
             (t_time y = Some "" → t_time x = None ∨ t_time x = Some "")))) ∧
  (∃ s1 s2,
     add_task IoOk (Some "2024-06-10") (Some "Dentist") (Some "")
              (Some "09:30") (Some "") (Some "") new_manager
       = (Return (Some 1), s1) ∧
     add_task IoOk (Some "2024-06-10") (Some "Standup") (Some "")
              (Some "08:00") (Some "") (Some "") s1
       = (Return (Some 2), s2) ∧
     get_tasks_for_week IoOk "2024-06-09" "2024-06-15" s2
       = (Return {[ "2024-06-10" :=
                    [Task 2 "2024-06-10" "Standup" (Some "") (Some "08:00")
                          (Some "") (Some "") false;
                     Task 1 "2024-06-10" "Dentist" (Some "") (Some "09:30")
                          (Some "") (Some "") false] ]},
          s2)).
Proof.
  split.
  - intros self start_date_str end_date_str.
    destruct (get_tasks_for_week_spec self start_date_str end_date_str)
      as (tasks_by_date & Hrun & Hiff & Hgroups).
    exists tasks_by_date. split; [exact Hrun|]. split; [exact Hiff|].
    intros d rs Hrs.
    destruct (Hgroups d rs Hrs) as (Hne & Hperm & Hsorted & Hpairs).
    split; [done|]. split; [done|]. split; [done|].
    intros i j x y Hx Hy Hij. exact (Hpairs i j x y Hx Hy Hij).
  - eexists _, _. repeat split; vm_compute; reflexivity.
Qed.

(** The store of the scenario with a third task on 2024-06-16: the week
    from 2024-06-09 to 2024-06-15 has no list for that day and lists the
    two tasks of 2024-06-10, the earlier first. *)
Lemma get_tasks_for_week_grouped_and_sorted_witness :
  ∃ tasks_by_date : gmap string (list task),
    get_tasks_for_week IoOk "2024-06-09" "2024-06-15" planner_with_late_task
      = (Return tasks_by_date, planner_with_late_task) ∧
    Task 3 "2024-06-16" "Laundry" (Some "") (Some "") (Some "") (Some "") false
      ∈ stored_tasks planner_with_late_task ∧
    tasks_by_date !! "2024-06-16" = None ∧
    ∃ rs, tasks_by_date !! "2024-06-10" = Some rs ∧
          Task 1 "2024-06-10" "Dentist" (Some "") (Some "09:30") (Some "")
               (Some "") false ∈ rs.
Proof.
  destruct get_tasks_for_week_grouped_and_sorted as [H _].
  destruct (H planner_with_late_task "2024-06-09" "2024-06-15")
    as (tasks_by_date & Hrun & Hiff & Hgroups).
  exists tasks_by_date. split; [exact Hrun|].
  split; [vm_compute; right; right; left|]. split.
  - destruct (tasks_by_date !! "2024-06-16") as [rs|] eqn:Hrs; [|done].
    destruct (Hgroups _ _ Hrs) as (Hne & _).
    destruct rs as [|r rs]; [done|].
    assert (∃ rs', tasks_by_date !! "2024-06-16" = Some rs' ∧ r ∈ rs')
      as Hr by (eexists; split; [exact Hrs|left]).
    apply Hiff in Hr as (_ & _ & _ & Hle). vm_compute in Hle. done.
  - apply Hiff. split; [vm_compute; left|]. split; [done|].
    split; vm_compute; exact I.
Defined.

(** ** Claims about [add_task] *)

Section insertion.

Lemma largest_rowid_bound {A} (key : A → Z) (rows : list A) r :
  r ∈ rows → key r ≤ largest_rowid key rows.
Proof.
  induction 1 as [r rows|r r' rows _ IH]; simpl; lia.
Qed.

Lemma next_rowid_fresh {A} (key : A → Z) (rows : list A) seq r :
  r ∈ rows → key r < next_rowid key rows seq.
Proof.
  intros Hr. apply (largest_rowid_bound key) in Hr. unfold next_rowid. lia.
Qed.

Lemma add_task_run self db date name description time location file_path :
  conn self = Some db →
  next_rowid t_id (tasks db) (tasks_seq db) ≤ max_rowid →
  let rowid := next_rowid t_id (tasks db) (tasks_seq db) in
  add_task IoOk (Some date) (Some name) description time location file_path self
    = (Return (Some rowid),
       set_conn self
         (Some {| tasks := (tasks db ++
                     [Task rowid date name description time location
                           file_path false])%list;
                  tasks_seq := rowid;
                  schedule := schedule db;
                  schedule_seq := schedule_seq db;
                  lastrowid := Some rowid |})).
Proof.
  intros Hc Hmax rowid. unfold add_task. rewrite Hc.
  unfold try_except_sqlite3, on_conn, mbind, action_bind, bind,
    execute_insert_task; simpl.
  by rewrite decide_False by (fold rowid; lia).
Qed.

(** When the commit fails the row is in the table all the same, and the
    sentinel is returned. *)
Lemma add_task_commit_fault self db date name description time location
    file_path :
  conn self = Some db →
  next_rowid t_id (tasks db) (tasks_seq db) ≤ max_rowid →
  let rowid := next_rowid t_id (tasks db) (tasks_seq db) in
  add_task CommitFault (Some date) (Some name) description time location
           file_path self
    = (Return None,
       set_conn self
         (Some {| tasks := (tasks db ++
                     [Task rowid date name description time location
                           file_path false])%list;
                  tasks_seq := rowid;
                  schedule := schedule db;
                  schedule_seq := schedule_seq db;
                  lastrowid := Some rowid |})).
Proof.
  intros Hc Hmax rowid. unfold add_task. rewrite Hc.
  unfold try_except_sqlite3, on_conn, mbind, action_bind, bind,
    execute_insert_task; simpl.
  by rewrite decide_False by (fold rowid; lia).
Qed.

(** The statement of [add_task] either changes nothing and raises
    [sqlite3.Error], or appends one row. *)
Lemma add_task_cases io date name description time location file_path self :
  add_task io date name description time location file_path self
    = (Return None, self) ∨
  ∃ db d n,
    conn self = Some db ∧ date = Some d ∧ name = Some n ∧ io ≠ IoFault ∧
    next_rowid t_id (tasks db) (tasks_seq db) ≤ max_rowid ∧
    let rowid := next_rowid t_id (tasks db) (tasks_seq db) in
    add_task io date name description time location file_path self
      = (Return (match io with IoOk => Some rowid | _ => None end),
         set_conn self
           (Some {| tasks := (tasks db ++
                       [Task rowid d n description time location file_path
                             false])%list;
                    tasks_seq := rowid;
                    schedule := schedule db;
                    schedule_seq := schedule_seq db;
                    lastrowid := Some rowid |})).
Proof.
  destruct (conn self) as [db|] eqn:Hc;
    [|left; unfold add_task; by rewrite Hc].
  destruct (decide (io = IoFault)) as [->|Hio].
  { left. unfold add_task. rewrite Hc.
    unfold try_except_sqlite3, on_conn, mbind, action_bind, bind; simpl.
    by rewrite (set_conn_same _ _ Hc). }
  destruct date as [d|], name as [n|];
    try (left; unfold add_task; rewrite Hc;
         unfold try_except_sqlite3, on_conn, mbind, action_bind, bind,
           execute_insert_task;
         destruct io; simpl; by rewrite ?(set_conn_same _ _ Hc)).
  destruct (decide (max_rowid < next_rowid t_id (tasks db) (tasks_seq db)))
    as [Hfull|Hfree].
  - left. unfold add_task. rewrite Hc.
    unfold try_except_sqlite3, on_conn, mbind, action_bind, bind,
      execute_insert_task.
    destruct io; simpl; rewrite ?decide_True by done; simpl;
      by rewrite ?(set_conn_same _ _ Hc).
  - right. exists db, d, n. repeat split; try done; [lia|].
    destruct io; [|done|].
    + apply add_task_run; [done|lia].
    + apply add_task_commit_fault; [done|lia].
Qed.

(** Whatever the engine does, [add_task] returns. *)
Lemma add_task_returns io date name description time location file_path self :
  ∃ result self',
    add_task io date name description time location file_path self
      = (Return result, self').
Proof.
  destruct (add_task_cases io date name description time location file_path
              self) as [->|(db & d & n & _ & _ & _ & _ & _ & ->)]; eauto.
Qed.

End insertion.

(** C2: on a connected store whose engine raises nothing, [add_task]
    appends exactly one row made of its arguments with [is_completed] false
    and returns the identity newly assigned to it; a week query over any
    range that contains the date then returns that row.  When the engine
    fails, [add_task] returns [None] and raises nothing: with the store as
    it was when the statement fails, and with the row in the table, where
    the next week query finds it, when it is the commit that fails. *)
Theorem add_task_inserts_and_is_queried :
  (∀ self db (date name : string)
     (description time location file_path : option string),
     conn self = Some db →
     next_rowid t_id (tasks db) (tasks_seq db) ≤ max_rowid →
     ∃ rowid self',
       add_task IoOk (Some date) (Some name) description time location
                file_path self = (Return (Some rowid), self') ∧
       let row := Task rowid date name description time location file_path
                       false in
       stored_tasks self' = (stored_tasks self ++ [row])%list ∧
       (∀ r, r ∈ stored_tasks self → t_id r < rowid) ∧
       ∀ a b, String.le a date → String.le date b →
         ∃ tasks_by_date rs,
           get_tasks_for_week IoOk a b self' = (Return tasks_by_date, self') ∧
           tasks_by_date !! date = Some rs ∧
           row ∈ rs ∧
           (∀ r, r ∈ rs → t_id r = rowid → r = row)) ∧
  (∀ self date name description time location file_path,
     add_task IoFault date name description time location file_path self
       = (Return None, self)) ∧
  (∀ self db (date name : string)
     (description time location file_path : option string),
     conn self = Some db →
     next_rowid t_id (tasks db) (tasks_seq db) ≤ max_rowid →
     ∃ rowid self',
       add_task CommitFault (Some date) (Some name) description time location
                file_path self = (Return None, self') ∧
       let row := Task rowid date name description time location file_path
                       false in
       stored_tasks self' = (stored_tasks self ++ [row])%list ∧
       ∀ a b, String.le a date → String.le date b →
         ∃ tasks_by_date rs,
           get_tasks_for_week IoOk a b self' = (Return tasks_by_date, self') ∧
           tasks_by_date !! date = Some rs ∧
           row ∈ rs) ∧
  (∀ io self date name description time location file_path,
     ∃ result self',
       add_task io date name description time location file_path self
         = (Return result, self')).
Proof.
  assert (Hlisted : ∀ self self' row a b,
            stored_tasks self' = (stored_tasks self ++ [row])%list →
            String.le a (t_date row) → String.le (t_date row) b →
            ∃ tasks_by_date rs,
              get_tasks_for_week IoOk a b self' = (Return tasks_by_date, self') ∧
              tasks_by_date !! t_date row = Some rs ∧ row ∈ rs ∧
              ∀ r, r ∈ rs → r ∈ stored_tasks self ∨ r = row).
  { intros self self' row a b Hst Ha Hb.
    destruct (get_tasks_for_week_spec self' a b) as (m & Hrun & Hiff & _).
    assert (∃ rs, m !! t_date row = Some rs ∧ row ∈ rs) as (rs & Hrs & Hin).
    { apply Hiff. rewrite Hst. split; [|done].
      apply elem_of_app. right. by apply list_elem_of_singleton. }
    exists m, rs. repeat split; try done.
    intros r Hr.
    assert (r ∈ stored_tasks self' ∧ t_date r = t_date row ∧
            between a b (t_date row)) as (Hr' & _) by (apply Hiff; eauto).
    rewrite Hst in Hr'. apply elem_of_app in Hr' as [Hold|Hnew]; [by left|].
    right. by apply list_elem_of_singleton in Hnew. }
  split; [|split; [|split]].
  - intros self db date name description time location file_path Hc Hmax.
    eexists _, _. split; [by apply add_task_run|].
    set (rowid := next_rowid t_id (tasks db) (tasks_seq db)).
    set (row := Task rowid date name description time location file_path false).
    set (self' := set_conn self _).
    assert (stored_tasks self' = (stored_tasks self ++ [row])%list) as Hst.
    { unfold stored_tasks. by rewrite Hc. }
    assert (∀ r, r ∈ stored_tasks self → t_id r < rowid) as Hfresh.
    { intros r. unfold stored_tasks. rewrite Hc. apply next_rowid_fresh. }
    simpl. split; [done|]. split; [done|].
    intros a b Ha Hb.
    destruct (Hlisted self self' row a b Hst Ha Hb)
      as (m & rs & Hrun & Hrs & Hin & Hall).
    exists m, rs. repeat split; try done.
    intros r Hr Hid. destruct (Hall r Hr) as [Hold|Hnew]; [|done].
    apply Hfresh in Hold. lia.
  - intros self date name description time location file_path.
    unfold add_task. destruct (conn self) as [db|] eqn:Hc; [|done].
    unfold try_except_sqlite3, on_conn, mbind, action_bind, bind; simpl.
    by rewrite (set_conn_same _ _ Hc).
  - intros self db date name description time location file_path Hc Hmax.
    eexists _, _. split; [by apply add_task_commit_fault|].
    set (rowid := next_rowid t_id (tasks db) (tasks_seq db)).
    set (row := Task rowid date name description time location file_path false).
    set (self' := set_conn self _).
    assert (stored_tasks self' = (stored_tasks self ++ [row])%list) as Hst.
    { unfold stored_tasks. by rewrite Hc. }
    simpl. split; [done|].
    intros a b Ha Hb.
    destruct (Hlisted self self' row a b Hst Ha Hb)
      as (m & rs & Hrun & Hrs & Hin & _).
    by exists m, rs.
  - intros io self date name description time location file_path.
    apply add_task_returns.
Qed.

Lemma add_task_inserts_and_is_queried_witness :
  (∃ rowid self',
     add_task IoOk (Some "2024-06-10") (Some "Dentist") (Some "")
              (Some "09:30") (Some "") (Some "") new_manager
       = (Return (Some rowid), self') ∧
     stored_tasks self' =
       [Task rowid "2024-06-10" "Dentist" (Some "") (Some "09:30") (Some "")
             (Some "") false]) ∧
  (∃ rowid self',
     add_task CommitFault (Some "2024-06-10") (Some "Dentist") (Some "")
              (Some "09:30") (Some "") (Some "") new_manager
       = (Return None, self') ∧
     stored_tasks self' =
       [Task rowid "2024-06-10" "Dentist" (Some "") (Some "09:30") (Some "")
             (Some "") false]).
Proof.
  destruct add_task_inserts_and_is_queried as (H & _ & Hcommit & _). split.
  - destruct (H new_manager empty_database "2024-06-10" "Dentist" (Some "")
                (Some "09:30") (Some "") (Some ""))
      as (rowid & self' & Hrun & Hrows & _).
    + reflexivity.
    + vm_compute. discriminate.
    + exists rowid, self'. split; [exact Hrun|exact Hrows].
  - destruct (Hcommit new_manager empty_database "2024-06-10" "Dentist"
                (Some "") (Some "09:30") (Some "") (Some ""))
      as (rowid & self' & Hrun & Hrows & _).
    + reflexivity.
    + vm_compute. discriminate.
    + exists rowid, self'. split; [exact Hrun|exact Hrows].
Defined.

(** ** Updates and deletion *)

Section updates.

Lemma update_rows_lookup {A} (key : A → Z) f rowid (rows : list A) i r :
  rows !! i = Some r →
  update_rows key f rowid rows !! i
    = Some (if decide (key r = rowid) then f r else r).
Proof. intros Hi. unfold update_rows. by rewrite list_lookup_fmap, Hi. Qed.

Lemma update_rows_unknown {A} (key : A → Z) f rowid (rows : list A) :
  (∀ r, r ∈ rows → key r ≠ rowid) → update_rows key f rowid rows = rows.
Proof.
  intros Hno. unfold update_rows. induction rows as [|r rows IH]; [done|].
  simpl. rewrite decide_False by (apply Hno; left).
  f_equal. apply IH. intros r' Hr'. apply Hno. by right.
Qed.

Lemma filter_unknown (task_id : Z) (rows : list task) :
  (∀ r, r ∈ rows → t_id r ≠ task_id) →
  filter (λ r, t_id r ≠ task_id) rows = rows.
Proof.
  intros Hno. induction rows as [|r rows IH]; [done|].
  rewrite filter_cons, decide_True by (apply Hno; left).
  f_equal. apply IH. intros r' Hr'. apply Hno. by right.
Qed.

Lemma set_tasks_same db : set_tasks db (tasks db) = db.
Proof. by destruct db. Qed.

Lemma update_task_status_run self db task_id is_completed :
  conn self = Some db → int64 task_id →
  update_task_status IoOk task_id is_completed self
    = (Return (),
       set_conn self
         (Some (set_tasks db
                  (update_rows t_id (λ r, with_is_completed r is_completed)
                               task_id (tasks db))))).
Proof.
  intros Hc Hid. unfold update_task_status. rewrite Hc.
  unfold try_except_sqlite3, on_conn, mbind, action_bind, bind,
    execute_update_status. by rewrite decide_True.
Qed.

Lemma update_task_run self db task_id name description time location file_path :
  conn self = Some db → int64 task_id →
  update_task IoOk task_id (Some name) description time location file_path self
    = (Return (),
       set_conn self
         (Some (set_tasks db
                  (update_rows t_id
                     (λ r, with_details r name description time location
                                        file_path)
                     task_id (tasks db))))).
Proof.
  intros Hc Hid. unfold update_task. rewrite Hc.
  unfold try_except_sqlite3, on_conn, mbind, action_bind, bind,
    execute_update_task. by rewrite decide_True.
Qed.

Lemma delete_task_run self db task_id :
  conn self = Some db → int64 task_id →
  delete_task IoOk task_id self
    = (Return (),
       set_conn self
         (Some (set_tasks db (filter (λ r, t_id r ≠ task_id) (tasks db))))).
Proof.
  intros Hc Hid. unfold delete_task. rewrite Hc.
  unfold try_except_sqlite3, on_conn, mbind, action_bind, bind,
    execute_delete_task. by rewrite decide_True.
Qed.

(** A method that returns nothing gives its caller no sign of a commit that
    failed: it ends as when the commit goes through. *)
Lemma update_task_status_commit_fault self task_id is_completed :
  update_task_status CommitFault task_id is_completed self
    = update_task_status IoOk task_id is_completed self.
Proof.
  unfold update_task_status. destruct (conn self); [|done].
  unfold try_except_sqlite3, on_conn, mbind, action_bind, bind,
    execute_update_status. by case_decide.
Qed.

Lemma update_task_commit_fault self task_id name description time location
    file_path :
  update_task CommitFault task_id name description time location file_path self
    = update_task IoOk task_id name description time location file_path self.
Proof.
  unfold update_task. destruct (conn self); [|done].
  unfold try_except_sqlite3, on_conn, mbind, action_bind, bind,
    execute_update_task. case_decide; [|done].
  destruct name; [done|]. by case_decide.
Qed.

Lemma delete_task_commit_fault self task_id :
  delete_task CommitFault task_id self = delete_task IoOk task_id self.
Proof.
  unfold delete_task. destruct (conn self); [|done].
  unfold try_except_sqlite3, on_conn, mbind, action_bind, bind,
    execute_delete_task. by case_decide.
Qed.

(** A method that reads has no commit. *)
Lemma get_tasks_for_week_commit_fault self a b :
  get_tasks_for_week CommitFault a b self = get_tasks_for_week IoOk a b self.
Proof. done. Qed.

Lemma get_schedule_for_day_commit_fault self day_of_week :
  get_schedule_for_day CommitFault day_of_week self
    = get_schedule_for_day IoOk day_of_week self.
Proof. done. Qed.

(** When the statement fails, a write changes nothing and returns. *)
Lemma update_task_status_fault self task_id is_completed :
  int64 task_id →
  update_task_status IoFault task_id is_completed self = (Return (), self).
Proof.
  intros Hid. unfold update_task_status. destruct (conn self) eqn:Hc; [|done].
  unfold try_except_sqlite3, on_conn, mbind, action_bind, bind,
    execute_update_status. rewrite decide_True by done.
  simpl. by rewrite (set_conn_same _ _ Hc).
Qed.

Lemma update_task_fault self task_id name description time location file_path :
  int64 task_id →
  update_task IoFault task_id name description time location file_path self
    = (Return (), self).
Proof.
  intros Hid. unfold update_task. destruct (conn self) eqn:Hc; [|done].
  unfold try_except_sqlite3, on_conn, mbind, action_bind, bind,
    execute_update_task. rewrite decide_True by done.
  simpl. by rewrite (set_conn_same _ _ Hc).
Qed.

Lemma delete_task_fault self task_id :
  int64 task_id → delete_task IoFault task_id self = (Return (), self).
Proof.
  intros Hid. unfold delete_task. destruct (conn self) eqn:Hc; [|done].
  unfold try_except_sqlite3, on_conn, mbind, action_bind, bind,
    execute_delete_task. rewrite decide_True by done.
  simpl. by rewrite (set_conn_same _ _ Hc).
Qed.

Lemma get_tasks_for_week_fault self a b :
  get_tasks_for_week IoFault a b self = (Return ∅, self).
Proof.
  unfold get_tasks_for_week. destruct (conn self) eqn:Hc; [|done].
  unfold try_except_sqlite3, on_conn; simpl. by rewrite (set_conn_same _ _ Hc).
Qed.

(** On an open connection an identity outside the signed 64-bit range is
    refused when it is bound: [OverflowError] goes past the
    [except sqlite3.Error] of the method, whatever the engine would do. *)
Lemma update_task_status_overflow io self db task_id is_completed :
  conn self = Some db → ¬ int64 task_id →
  update_task_status io task_id is_completed self = (Raise OverflowError, self).
Proof.
  intros Hc Hid. unfold update_task_status. rewrite Hc.
  unfold try_except_sqlite3, on_conn, mbind, action_bind, bind,
    execute_update_status. rewrite decide_False by done.
  by rewrite (set_conn_same _ _ Hc).
Qed.

Lemma update_task_overflow io self db task_id name description time location
    file_path :
  conn self = Some db → ¬ int64 task_id →
  update_task io task_id name description time location file_path self
    = (Raise OverflowError, self).
Proof.
  intros Hc Hid. unfold update_task. rewrite Hc.
  unfold try_except_sqlite3, on_conn, mbind, action_bind, bind,
    execute_update_task. rewrite decide_False by done.
  by rewrite (set_conn_same _ _ Hc).
Qed.

Lemma delete_task_overflow io self db task_id :
  conn self = Some db → ¬ int64 task_id →
  delete_task io task_id self = (Raise OverflowError, self).
Proof.
  intros Hc Hid. unfold delete_task. rewrite Hc.
  unfold try_except_sqlite3, on_conn, mbind, action_bind, bind,
    execute_delete_task. rewrite decide_False by done.
  by rewrite (set_conn_same _ _ Hc).
Qed.

(** What a write method leaves behind, whatever the engine does and
    whatever it is given: the manager as it was, or the rows changed as the
    statement says. *)
Lemma update_task_status_state io task_id is_completed self :
  (update_task_status io task_id is_completed self).2 = self ∨
  ∃ db, conn self = Some db ∧ int64 task_id ∧
    (update_task_status io task_id is_completed self).2
      = set_conn self
          (Some (set_tasks db
                   (update_rows t_id (λ r, with_is_completed r is_completed)
                                task_id (tasks db)))).
Proof.
  destruct (conn self) as [db|] eqn:Hc;
    [|left; unfold update_task_status; by rewrite Hc].
  destruct (decide (int64 task_id)) as [Hid|Hid];
    [|left; by rewrite (update_task_status_overflow _ _ _ _ _ Hc Hid)].
  destruct io.
  - right. exists db. by rewrite (update_task_status_run _ _ _ _ Hc Hid).
  - left. by rewrite update_task_status_fault.
  - right. exists db.
    by rewrite update_task_status_commit_fault,
      (update_task_status_run _ _ _ _ Hc Hid).
Qed.

Lemma update_task_state io task_id name description time location file_path
    self :
  (update_task io task_id name description time location file_path self).2
    = self ∨
  ∃ db n, conn self = Some db ∧ int64 task_id ∧ name = Some n ∧
    (update_task io task_id name description time location file_path self).2
      = set_conn self
          (Some (set_tasks db
                   (update_rows t_id
                      (λ r, with_details r n description time location
                                         file_path)
                      task_id (tasks db)))).
Proof.
  destruct (conn self) as [db|] eqn:Hc;
    [|left; unfold update_task; by rewrite Hc].
  destruct (decide (int64 task_id)) as [Hid|Hid];
    [|left; by rewrite (update_task_overflow _ _ _ _ _ _ _ _ _ Hc Hid)].
  assert (Hnone : ∀ io', io' ≠ IoFault →
            (update_task io' task_id None description time location file_path
                         self).2 = self).
  { intros io' Hio. unfold update_task. rewrite Hc.
    unfold try_except_sqlite3, on_conn, mbind, action_bind, bind,
      execute_update_task, commit. rewrite decide_True by done.
    destruct io'; [|done|]; case_decide; simpl;
      by rewrite (set_conn_same _ _ Hc). }
  destruct io.
  - destruct name as [n|]; [|left; by apply Hnone].
    right. exists db, n. by rewrite (update_task_run _ _ _ _ _ _ _ _ Hc Hid).
  - left. by rewrite update_task_fault.
  - destruct name as [n|]; [|left; by apply Hnone].
    right. exists db, n.
    by rewrite update_task_commit_fault,
      (update_task_run _ _ _ _ _ _ _ _ Hc Hid).
Qed.

Lemma delete_task_state io task_id self :
  (delete_task io task_id self).2 = self ∨
  ∃ db, conn self = Some db ∧ int64 task_id ∧
    (delete_task io task_id self).2
      = set_conn self
          (Some (set_tasks db (filter (λ r, t_id r ≠ task_id) (tasks db)))).
Proof.
  destruct (conn self) as [db|] eqn:Hc;
    [|left; unfold delete_task; by rewrite Hc].
  destruct (decide (int64 task_id)) as [Hid|Hid];
    [|left; by rewrite (delete_task_overflow _ _ _ _ Hc Hid)].
  destruct io.
  - right. exists db. by rewrite (delete_task_run _ _ _ Hc Hid).
  - left. by rewrite delete_task_fault.
  - right. exists db.
    by rewrite delete_task_commit_fault, (delete_task_run _ _ _ Hc Hid).
Qed.

(** The methods that read, and those of the schedule, leave the tasks as
    they were. *)
Lemma get_tasks_for_week_state io a b self :
  (get_tasks_for_week io a b self).2 = self.
Proof.
  destruct io; [|by rewrite get_tasks_for_week_fault|];
    rewrite ?get_tasks_for_week_commit_fault;
    by destruct (get_tasks_for_week_spec self a b) as (m & -> & _).
Qed.

Lemma get_schedule_for_day_state io day_of_week self :
  (get_schedule_for_day io day_of_week self).2 = self.
Proof.
  unfold get_schedule_for_day. destruct (conn self) as [db|] eqn:Hc; [|done].
  unfold try_except_sqlite3, on_conn, execute_select_schedule.
  destruct io; simpl; by rewrite (set_conn_same _ _ Hc).
Qed.

Lemma add_schedule_entry_tasks io day_of_week start_time end_time entry_type
    description self :
  stored_tasks (add_schedule_entry io day_of_week start_time end_time
                                   entry_type description self).2
    = stored_tasks self.
Proof.
  unfold add_schedule_entry, stored_tasks.
  destruct (conn self) as [db|] eqn:Hc; [|simpl; by rewrite Hc].
  unfold try_except_sqlite3, on_conn, mbind, action_bind, bind,
    execute_insert_schedule, commit.
  destruct io, day_of_week, start_time, end_time, entry_type; simpl;
    try done; case_decide; simpl; done.
Qed.

Lemma close_tasks self : stored_tasks (close self).2 = [] ∨ (close self).2 = self.
Proof. unfold close. destruct (conn self) eqn:Hc; [by left|by right]. Qed.

End updates.

(** ** Names along a sequence of storage operations *)

Section invariant.

Lemma Forall_update_rows {A} (P : A → Prop) key f rowid (rows : list A) :
  Forall P rows → (∀ r, P r → P (f r)) → Forall P (update_rows key f rowid rows).
Proof.
  intros Hrows Hf. unfold update_rows. apply Forall_fmap.
  eapply Forall_impl; [done|]. intros r Hr; simpl. case_decide; auto.
Qed.

Lemma run_op_names_nonempty self call :
  name_given call.2 → names_nonempty self → names_nonempty (run_op self call).
Proof.
  destruct call as [io op]. intros Hname Hinv. destruct op; simpl.
  - destruct (add_task_cases io date name description time location file_path
                self) as [->|(db & d & n & Hc & -> & -> & _ & _ & ->)]; [done|].
    unfold names_nonempty, stored_tasks in *. rewrite Hc in Hinv. simpl.
    apply Forall_app; split; [done|].
    apply Forall_singleton; simpl. intros ->. by apply Hname.
  - by rewrite get_tasks_for_week_state.
  - destruct (update_task_status_state io task_id is_completed self)
      as [->|(db & Hc & _ & ->)]; [done|].
    unfold names_nonempty, stored_tasks in *. rewrite Hc in Hinv. simpl.
    by apply Forall_update_rows.
  - destruct (update_task_state io task_id name description time location
                file_path self) as [->|(db & n & Hc & _ & -> & ->)]; [done|].
    unfold names_nonempty, stored_tasks in *. rewrite Hc in Hinv. simpl.
    apply Forall_update_rows; [done|]. simpl. intros r _ ->. by apply Hname.
  - destruct (delete_task_state io task_id self)
      as [->|(db & Hc & _ & ->)]; [done|].
    unfold names_nonempty, stored_tasks in *. rewrite Hc in Hinv. simpl.
    rewrite Forall_forall in Hinv |- *. intros r Hr.
    apply list_elem_of_filter in Hr as [_ Hr]. by apply Hinv.
  - unfold names_nonempty. by rewrite add_schedule_entry_tasks.
  - by rewrite get_schedule_for_day_state.
  - unfold names_nonempty. destruct (close_tasks self) as [->| ->]; done.
Qed.

End invariant.

(** ** Claims about the names of stored tasks *)

(** C3, as the code has it: the store keeps what it is given.  A task row
    has a non-empty name after any sequence of storage operations whose
    [add_task] and [update_task] calls were each given a non-empty name (or
    no name at all, which the NOT NULL constraint refuses), starting from a
    store whose names are non-empty. *)
Theorem names_nonempty_when_given_nonempty :
  ∀ (calls : list (io_status * storage_op)) (self : DataManager),
    Forall (λ call, name_given call.2) calls →
    names_nonempty self →
    names_nonempty (run_ops calls self).
Proof.
  unfold run_ops. induction calls as [|call calls IH]; intros self Hcalls Hinv.
  - done.
  - apply Forall_cons in Hcalls as [Hcall Hcalls]. simpl.
    apply IH; [done|]. by apply run_op_names_nonempty.
Qed.

Lemma names_nonempty_when_given_nonempty_witness :
  names_nonempty
    (run_ops
       [(IoOk, AddTask (Some "2024-06-10") (Some "Dentist") (Some "")
                       (Some "09:30") (Some "") (Some ""));
        (IoOk, UpdateTask 1 (Some "Dentist, moved") None (Some "10:00")
                          None None);
        (IoOk, UpdateTask 1 None None None None None);
        (IoFault, DeleteTask 1)]
       new_manager).
Proof.
  apply names_nonempty_when_given_nonempty.
  - repeat constructor; simpl; unfold name_given; simpl; congruence.
  - constructor.
Defined.

(** C3, as stated, fails: [add_task] with the empty string as name on a new
    store persists a row whose name is empty. *)
Lemma empty_name_is_persisted :
  ¬ (∀ calls : list (io_status * storage_op),
       names_nonempty (run_ops calls new_manager)).
Proof.
  intros H.
  specialize (H [(IoOk, AddTask (Some "2024-06-10") (Some "") (Some "")
                                (Some "") (Some "") (Some ""))]).
  vm_compute in H. apply Forall_cons in H as [H _]. by apply H.
Qed.

(** ** Claims about updates and deletion *)

(** C5, as the code has it: for an identity in the signed 64-bit range,
    [update_task_status] replaces the completion flag of the row with that
    identity and keeps every other field of that row, every other row, the
    order and number of rows, and the schedule table; for such an identity
    that no row has it returns with the store exactly as it was, whatever
    the engine does.  On an open connection an identity outside that range
    makes the call raise [OverflowError], with the store as it was. *)
Theorem update_task_status_changes_only_the_flag :
  (∀ self task_id is_completed,
     int64 task_id →
     ∃ self',
       update_task_status IoOk task_id is_completed self = (Return (), self') ∧
       length (stored_tasks self') = length (stored_tasks self) ∧
       (∀ i r, stored_tasks self !! i = Some r →
          stored_tasks self' !! i =
            Some (if decide (t_id r = task_id)
                  then with_is_completed r is_completed else r)) ∧
       stored_schedule self' = stored_schedule self ∧
       upload_dir self' = upload_dir self) ∧
  (∀ io self task_id is_completed,
     int64 task_id →
     (∀ r, r ∈ stored_tasks self → t_id r ≠ task_id) →
     update_task_status io task_id is_completed self = (Return (), self)) ∧
  (∀ io self db task_id is_completed,
     conn self = Some db → ¬ int64 task_id →
     update_task_status io task_id is_completed self
       = (Raise OverflowError, self)).
Proof.
  split; [|split].
  - intros self task_id is_completed Hid.
    destruct (conn self) as [db|] eqn:Hc.
    + eexists. split; [by apply update_task_status_run|].
      unfold stored_tasks, stored_schedule. rewrite Hc. simpl.
      repeat split.
      * unfold update_rows. by rewrite length_fmap.
      * intros i r Hi.
        by rewrite (update_rows_lookup _ _ _ _ _ _ Hi).
    + exists self. unfold update_task_status, stored_tasks. rewrite Hc.
      repeat split. intros i r Hi. by rewrite lookup_nil in Hi.
  - intros io self task_id is_completed Hid Hno.
    destruct io; [|by apply update_task_status_fault|];
      rewrite ?update_task_status_commit_fault;
      unfold stored_tasks in Hno;
      (destruct (conn self) as [db|] eqn:Hc;
       [|unfold update_task_status; by rewrite Hc]);
      rewrite (update_task_status_run _ _ _ _ Hc Hid);
      rewrite update_rows_unknown, set_tasks_same by done;
      by rewrite (set_conn_same _ _ Hc).
  - intros io self db task_id is_completed.
    apply update_task_status_overflow.
Qed.

Lemma update_task_status_changes_only_the_flag_witness :
  ∃ self',
    update_task_status IoOk 1 true planner_with_two_tasks = (Return (), self') ∧
    stored_tasks self' !! 0%nat
      = Some (Task 1 "2024-06-10" "Dentist" (Some "") (Some "09:30") (Some "")
                   (Some "") true) ∧
    stored_tasks self' !! 1%nat
      = Some (Task 2 "2024-06-10" "Standup" (Some "") (Some "08:00") (Some "")
                   (Some "") false).
Proof.
  destruct update_task_status_changes_only_the_flag as [H _].
  destruct (H planner_with_two_tasks 1 true)
    as (self' & Hrun & _ & Hrows & _).
  - split; vm_compute; discriminate.
  - exists self'. split; [exact Hrun|]. split.
    + apply (Hrows 0%nat
               (Task 1 "2024-06-10" "Dentist" (Some "") (Some "09:30")
                     (Some "") (Some "") false)).
      vm_compute. reflexivity.
    + apply (Hrows 1%nat
               (Task 2 "2024-06-10" "Standup" (Some "") (Some "08:00")
                     (Some "") (Some "") false)).
      vm_compute. reflexivity.
Defined.

(** C5, as stated, fails: no row of the store of the scenario has the
    identity 2^63, and [update_task_status] called with it raises
    [OverflowError]. *)
Lemma update_task_status_raises_on_large_id :
  Forall (λ r, t_id r ≠ 9223372036854775808)
         (stored_tasks planner_with_two_tasks) ∧
  update_task_status IoOk 9223372036854775808 true planner_with_two_tasks
    = (Raise OverflowError, planner_with_two_tasks).
Proof.
  split.
  - vm_compute. repeat constructor; discriminate.
  - vm_compute. reflexivity.
Qed.

(** C6, as the code has it: for an identity in the signed 64-bit range,
    [update_task] overwrites name, description, time, location and file
    path of the row with that identity and keeps that row's identity, date
    and completion flag, every other row, the order and number of rows and
    the schedule table; for such an identity that no row has it returns
    with the store exactly as it was, whatever the engine does.  On an open
    connection an identity outside that range makes the call raise
    [OverflowError], with the store as it was. *)
Theorem update_task_overwrites_details_only :
  (∀ self task_id (name : string)
     (description time location file_path : option string),
     int64 task_id →
     ∃ self',
       update_task IoOk task_id (Some name) description time location
                   file_path self = (Return (), self') ∧
       length (stored_tasks self') = length (stored_tasks self) ∧
       (∀ i r, stored_tasks self !! i = Some r →
          stored_tasks self' !! i =
            Some (if decide (t_id r = task_id)
                  then with_details r name description time location file_path
                  else r)) ∧
       stored_schedule self' = stored_schedule self ∧
       upload_dir self' = upload_dir self) ∧
  (∀ io self task_id name description time location file_path,
     int64 task_id →
     (∀ r, r ∈ stored_tasks self → t_id r ≠ task_id) →
     update_task io task_id name description time location file_path self
       = (Return (), self)) ∧
  (∀ io self db task_id name description time location file_path,
     conn self = Some db → ¬ int64 task_id →
     update_task io task_id name description time location file_path self
       = (Raise OverflowError, self)).
Proof.
  split; [|split].
  - intros self task_id name description time location file_path Hid.
    destruct (conn self) as [db|] eqn:Hc.
    + eexists. split; [by apply update_task_run|].
      unfold stored_tasks, stored_schedule. rewrite Hc. simpl.
      repeat split.
      * unfold update_rows. by rewrite length_fmap.
      * intros i r Hi.
        by rewrite (update_rows_lookup _ _ _ _ _ _ Hi).
    + exists self. unfold update_task, stored_tasks. rewrite Hc.
      repeat split. intros i r Hi. by rewrite lookup_nil in Hi.
  - intros io self task_id name description time location file_path Hid Hno.
    destruct io; [|by apply update_task_fault|];
      rewrite ?update_task_commit_fault;
      unfold stored_tasks in Hno;
      (destruct (conn self) as [db|] eqn:Hc;
       [|unfold update_task; by rewrite Hc]);
      (destruct name as [name|];
       [rewrite (update_task_run _ _ _ _ _ _ _ _ Hc Hid);
        rewrite update_rows_unknown, set_tasks_same by done;
        by rewrite (set_conn_same _ _ Hc)|]);
      unfold update_task; rewrite Hc;
      unfold try_except_sqlite3, on_conn, mbind, action_bind, bind,
        execute_update_task;
      rewrite decide_True by done;
      (rewrite decide_False;
       [simpl; by rewrite (set_conn_same _ _ Hc)|]);
      rewrite Exists_exists; intros (r & Hr & Hr'); by apply (Hno r).
  - intros io self db task_id name description time location file_path.
    apply update_task_overflow.
Qed.

Lemma update_task_overwrites_details_only_witness :
  ∃ self',
    update_task IoOk 2 (Some "Standup, moved") None (Some "10:00") None None
                planner_with_two_tasks = (Return (), self') ∧
    stored_tasks self' !! 0%nat
      = Some (Task 1 "2024-06-10" "Dentist" (Some "") (Some "09:30") (Some "")
                   (Some "") false) ∧
    stored_tasks self' !! 1%nat
      = Some (Task 2 "2024-06-10" "Standup, moved" None (Some "10:00") None
                   None false).
Proof.
  destruct update_task_overwrites_details_only as [H _].
  destruct (H planner_with_two_tasks 2 "Standup, moved" None (Some "10:00")
              None None)
    as (self' & Hrun & _ & Hrows & _).
  - split; vm_compute; discriminate.
  - exists self'. split; [exact Hrun|]. split.
    + apply (Hrows 0%nat
               (Task 1 "2024-06-10" "Dentist" (Some "") (Some "09:30")
                     (Some "") (Some "") false)).
      vm_compute. reflexivity.
    + apply (Hrows 1%nat
               (Task 2 "2024-06-10" "Standup" (Some "") (Some "08:00")
                     (Some "") (Some "") false)).
      vm_compute. reflexivity.
Defined.

(** C6, as stated, fails: no row of the store of the scenario has the
    identity -2^63 - 1, and [update_task] called with it raises
    [OverflowError]. *)
Lemma update_task_raises_on_large_id :
  Forall (λ r, t_id r ≠ -9223372036854775809)
         (stored_tasks planner_with_two_tasks) ∧
  update_task IoOk (-9223372036854775809) (Some "Dentist") None None None None
              planner_with_two_tasks
    = (Raise OverflowError, planner_with_two_tasks).
Proof.
  split.
  - vm_compute. repeat constructor; discriminate.
  - vm_compute. reflexivity.
Qed.

(** C7, as the code has it: after [delete_task] with an identity in the
    signed 64-bit range no week query, over any range and whatever the
    engine then does, returns a task with the deleted identity, while the
    rows with another identity stay; deleting such an identity that no row
    has returns with the store exactly as it was, whatever the engine does.
    On an open connection an identity outside that range makes the call
    raise [OverflowError], with the store as it was. *)
Theorem delete_task_removes_the_row :
  (∀ self task_id,
     int64 task_id →
     ∃ self',
       delete_task IoOk task_id self = (Return (), self') ∧
       (∀ r, r ∈ stored_tasks self' ↔
             r ∈ stored_tasks self ∧ t_id r ≠ task_id) ∧
       (∀ io a b,
          ∃ tasks_by_date,
            get_tasks_for_week io a b self' = (Return tasks_by_date, self') ∧
            ∀ d rs r, tasks_by_date !! d = Some rs → r ∈ rs →
                      t_id r ≠ task_id)) ∧
  (∀ io self task_id,
     int64 task_id →
     (∀ r, r ∈ stored_tasks self → t_id r ≠ task_id) →
     delete_task io task_id self = (Return (), self)) ∧
  (∀ io self db task_id,
     conn self = Some db → ¬ int64 task_id →
     delete_task io task_id self = (Raise OverflowError, self)).
Proof.
  split; [|split].
  - intros self task_id Hid.
    assert (∃ self', delete_task IoOk task_id self = (Return (), self') ∧
              ∀ r, r ∈ stored_tasks self' ↔
                   r ∈ stored_tasks self ∧ t_id r ≠ task_id)
      as (self' & Hrun & Hrows).
    { destruct (conn self) as [db|] eqn:Hc.
      - eexists. split; [by apply delete_task_run|].
        intros r. unfold stored_tasks. rewrite Hc. simpl.
        rewrite list_elem_of_filter. tauto.
      - exists self. unfold delete_task, stored_tasks. rewrite Hc.
        split; [done|]. intros r. split; [by intros ?%not_elem_of_nil|tauto]. }
    exists self'. split; [done|]. split; [done|].
    intros io a b.
    destruct io; [| |rewrite get_tasks_for_week_commit_fault].
    2:{ exists ∅. split; [apply get_tasks_for_week_fault|].
        intros d rs r. by rewrite lookup_empty. }
    all: destruct (get_tasks_for_week_spec self' a b) as (m & Hq & Hiff & _);
      exists m; (split; [done|]); intros d rs r Hrs Hr;
      assert (r ∈ stored_tasks self' ∧ t_date r = d ∧ between a b d)
        as (Hin & _) by (apply Hiff; eauto);
      by apply Hrows in Hin as [_ ?].
  - intros io self task_id Hid Hno.
    destruct io; [|by apply delete_task_fault|];
      rewrite ?delete_task_commit_fault;
      unfold stored_tasks in Hno;
      (destruct (conn self) as [db|] eqn:Hc;
       [|unfold delete_task; by rewrite Hc]);
      rewrite (delete_task_run _ _ _ Hc Hid);
      rewrite filter_unknown, set_tasks_same by done;
      by rewrite (set_conn_same _ _ Hc).
  - intros io self db task_id. apply delete_task_overflow.
Qed.

Lemma delete_task_removes_the_row_witness :
  ∃ self',
    delete_task IoOk 1 planner_with_two_tasks = (Return (), self') ∧
    Task 2 "2024-06-10" "Standup" (Some "") (Some "08:00") (Some "") (Some "")
         false ∈ stored_tasks self' ∧
    ∃ tasks_by_date,
      get_tasks_for_week IoOk "2024-06-09" "2024-06-15" self'
        = (Return tasks_by_date, self') ∧
      ∀ d rs r, tasks_by_date !! d = Some rs → r ∈ rs → t_id r ≠ 1.
Proof.
  destruct delete_task_removes_the_row as [H _].
  destruct (H planner_with_two_tasks 1) as (self' & Hrun & Hrows & Hquery).
  - split; vm_compute; discriminate.
  - exists self'. split; [exact Hrun|]. split.
    + apply Hrows. split; [vm_compute; right; left|discriminate].
    + apply Hquery.
Defined.

(** C7, as stated, fails: no row of the store of the scenario has the
    identity 2^63, and [delete_task] called with it raises
    [OverflowError]. *)
Lemma delete_task_raises_on_large_id :
  Forall (λ r, t_id r ≠ 9223372036854775808)
         (stored_tasks planner_with_two_tasks) ∧
  delete_task IoOk 9223372036854775808 planner_with_two_tasks
    = (Raise OverflowError, planner_with_two_tasks).
Proof.
  split.
  - vm_compute. repeat constructor; discriminate.
  - vm_compute. reflexivity.
Qed.

(** ** Claims about a store without a connection *)

(** C8, as the code has it: when [self.conn] is [None], whatever the
    arguments and whatever the engine would do, every operation returns its
    sentinel, raises nothing and leaves the manager as it was: [add_task]
    and [add_schedule_entry] return [None], [get_tasks_for_week] the empty
    mapping, [get_schedule_for_day] the empty list, and
    [update_task_status], [update_task], [delete_task] and [close] just
    return.  With a connection, every failure of the engine is turned into
    a return: no operation raises as long as the task identities it is
    given lie in the signed 64-bit range; for an identity outside it
    [update_task_status], [update_task] and [delete_task] raise
    [OverflowError]. *)
Theorem no_connection_gives_sentinels :
  (∀ self : DataManager,
     conn self = None →
     (∀ io date name description time location file_path,
        add_task io date name description time location file_path self
          = (Return None, self)) ∧
     (∀ io day_of_week start_time end_time entry_type description,
        add_schedule_entry io day_of_week start_time end_time entry_type
                           description self = (Return None, self)) ∧
     (∀ io a b, get_tasks_for_week io a b self = (Return ∅, self)) ∧
     (∀ io day_of_week,
        get_schedule_for_day io day_of_week self = (Return [], self)) ∧
     (∀ io task_id is_completed,
        update_task_status io task_id is_completed self = (Return (), self)) ∧
     (∀ io task_id name description time location file_path,
        update_task io task_id name description time location file_path self
          = (Return (), self)) ∧
     (∀ io task_id, delete_task io task_id self = (Return (), self)) ∧
     close self = (Return (), self)) ∧
  (∀ (self : DataManager) (io : io_status),
     (∀ date name description time location file_path,
        returns (add_task io date name description time location file_path
                          self)) ∧
     (∀ day_of_week start_time end_time entry_type description,
        returns (add_schedule_entry io day_of_week start_time end_time
                                    entry_type description self)) ∧
     (∀ a b, returns (get_tasks_for_week io a b self)) ∧
     (∀ day_of_week, returns (get_schedule_for_day io day_of_week self)) ∧
     (∀ task_id is_completed,
        int64 task_id →
        returns (update_task_status io task_id is_completed self)) ∧
     (∀ task_id name description time location file_path,
        int64 task_id →
        returns (update_task io task_id name description time location
                             file_path self)) ∧
     (∀ task_id, int64 task_id → returns (delete_task io task_id self)) ∧
     returns (close self)) ∧
  (∀ (self : DataManager) (db : database) (io : io_status) (task_id : Z),
     conn self = Some db → ¬ int64 task_id →
     (∀ is_completed,
        update_task_status io task_id is_completed self
          = (Raise OverflowError, self)) ∧
     (∀ name description time location file_path,
        update_task io task_id name description time location file_path self
          = (Raise OverflowError, self)) ∧
     delete_task io task_id self = (Raise OverflowError, self)).
Proof.
  split; [|split].
  - intros self Hc.
    unfold add_task, add_schedule_entry, get_tasks_for_week,
      get_schedule_for_day, update_task_status, update_task, delete_task,
      close.
    rewrite Hc. repeat split.
  - intros self io.
    unfold returns, add_task, add_schedule_entry, get_tasks_for_week,
      get_schedule_for_day, update_task_status, update_task, delete_task,
      close.
    destruct (conn self) as [db|]; [|repeat split; intros; eauto].
    unfold try_except_sqlite3, on_conn, mbind, action_bind, bind,
      execute_insert_task, execute_select_tasks, execute_update_status,
      execute_update_task, execute_delete_task, execute_insert_schedule,
      execute_select_schedule, commit.
    destruct io; simpl; repeat split; intros;
      rewrite ?decide_True by done; eauto;
      repeat case_match; simplify_eq; eauto.
  - intros self db io task_id Hc Hid. split; [|split]; intros.
    + by eapply update_task_status_overflow.
    + by eapply update_task_overflow.
    + by eapply delete_task_overflow.
Qed.

Lemma no_connection_gives_sentinels_witness :
  add_task IoOk (Some "2024-06-10") (Some "Dentist") (Some "") (Some "09:30")
           (Some "") (Some "") (close new_manager).2
    = (Return None, (close new_manager).2) ∧
  returns (delete_task CommitFault 1 planner_with_two_tasks).
Proof.
  destruct no_connection_gives_sentinels as (H & Hreturns & _). split.
  - destruct (H (close new_manager).2) as [Hadd _].
    + reflexivity.
    + apply Hadd.
  - destruct (Hreturns planner_with_two_tasks CommitFault)
      as (_ & _ & _ & _ & _ & _ & Hdelete & _).
    apply Hdelete. split; vm_compute; discriminate.
Defined.

(** C8, as stated, fails: on the open connection of a new store
    [update_task_status] called with the identity 2^63 raises. *)
Lemma large_id_crosses_the_boundary :
  ¬ returns (update_task_status IoOk 9223372036854775808 false new_manager).
Proof. intros (a & s & H). vm_compute in H. discriminate. Qed.

(** ** Properties of paths *)

Section paths.

Lemma rfind_from_range c s i :
  0 ≤ i →
  rfind_from c s i = -1 ∨ i ≤ rfind_from c s i < i + Z.of_nat (String.length s).
Proof.
  revert i. induction s as [|a s IH]; intros i Hi; simpl; [by left|].
  destruct (IH (i + 1)) as [->|Hr]; simpl; [lia|..].
  - destruct (Ascii.eqb a c); [right; lia|by left].
  - rewrite (proj2 (Z.leb_le 0 _)) by lia. right. lia.
Qed.

Lemma rfind_from_shift c s i :
  0 ≤ i →
  rfind_from c s i = if 0 <=? rfind c s then rfind c s + i else -1.
Proof.
  unfold rfind. revert i. induction s as [|a s IH]; intros i Hi; simpl; [done|].
  rewrite (IH (i + 1)), (IH (0 + 1)) by lia.
  destruct (rfind_from_range c s 0) as [->|Hr]; [done|..]; simpl.
  - by destruct (Ascii.eqb a c).
  - leb_true. lia.
Qed.

Lemma rfind_slash_free s : rfind "/" s = -1 ↔ slash_free s = true.
Proof.
  unfold rfind. induction s as [|a s IH]; simpl; [done|].
  rewrite (rfind_from_shift _ s 1) by lia. unfold rfind.
  destruct (rfind_from_range "/" s 0) as [Hr|Hr]; [done|..].
  - rewrite Hr in *. simpl. destruct (Ascii.eqb a "/"); simpl; [done|].
    tauto.
  - leb_true.
    destruct (slash_free s); [lia|]. rewrite andb_false_r. split; [lia|done].
Qed.

Lemma append_cons a s1 s2 : String a s1 ++ s2 = String a (s1 ++ s2).
Proof. done. Qed.

Lemma append_nil s : "" ++ s = s.
Proof. done. Qed.

Lemma substring_all s : String.substring 0 (String.length s) s = s.
Proof. induction s as [|a s IH]; simpl; [done|]. by rewrite IH. Qed.

Lemma substring_split n s :
  String.substring 0 n s ++ String.substring n (String.length s - n) s = s.
Proof.
  revert n. induction s as [|a s IH]; intros [|n]; simpl; try done.
  - by rewrite substring_all.
  - by rewrite append_cons, IH.
Qed.

Lemma basename_cons a s :
  basename (String a s) =
    if 0 <=? rfind "/" s then basename s
    else if Ascii.eqb a "/" then s else String a s.
Proof.
  unfold basename, slice_from, rfind. simpl rfind_from.
  rewrite (rfind_from_shift _ s 1) by lia. unfold rfind.
  destruct (rfind_from_range "/" s 0) as [Hr|Hr]; [done|..].
  - rewrite Hr. simpl. destruct (Ascii.eqb a "/"); simpl.
    + by rewrite Nat.sub_0_r, substring_all.
    + by rewrite substring_all.
  - leb_true.
    replace (Z.to_nat (rfind_from "/" s 0 + 1 + 1))
      with (S (Z.to_nat (rfind_from "/" s 0 + 1))) by lia.
    done.
Qed.

Lemma basename_slash_free s : slash_free (basename s) = true.
Proof.
  induction s as [|a s IH]; [done|]. rewrite basename_cons.
  destruct (rfind_from_range "/" s 0) as [Hr|Hr]; [done|..]; fold (rfind "/" s) in Hr.
  - rewrite Hr. simpl. apply rfind_slash_free in Hr.
    destruct (Ascii.eqb a "/") eqn:E; simpl; [done|]. by rewrite E.
  - by leb_true.
Qed.

Lemma slash_free_app s1 s2 :
  slash_free (s1 ++ s2) = slash_free s1 && slash_free s2.
Proof.
  induction s1 as [|a s1 IH]; [done|].
  rewrite append_cons. simpl. by rewrite IH, andb_assoc.
Qed.

Lemma endswith_not_slash_free q : endswith "/" q = true → slash_free q = false.
Proof.
  induction q as [|a q IH]; simpl; [done|].
  destruct q as [|b q].
  - intros ->. done.
  - intros H. rewrite IH by done. apply andb_false_r.
Qed.

(** The last component of a directory prefix followed by a name without
    separator is that name. *)
Lemma basename_app q n :
  q = "" ∨ endswith "/" q = true → slash_free n = true → basename (q ++ n) = n.
Proof.
  intros Hq Hn. induction q as [|a q IH]; rewrite ?append_cons, ?append_nil.
  - destruct n as [|b n]; [done|]. rewrite basename_cons.
    simpl in Hn. apply andb_true_iff in Hn as [Hb Hn].
    apply rfind_slash_free in Hn. rewrite Hn. simpl.
    by destruct (Ascii.eqb b "/").
  - destruct Hq as [|Hq]; [done|]. rewrite basename_cons.
    destruct q as [|b q].
    + rewrite append_nil. simpl in Hq. rewrite Hq.
      apply rfind_slash_free in Hn. by rewrite Hn.
    + assert (endswith "/" (String b q) = true) as Hq' by done.
      assert (rfind "/" (String b q ++ n) ≠ -1) as Hr.
      { rewrite rfind_slash_free, slash_free_app.
        by rewrite (endswith_not_slash_free _ Hq'). }
      destruct (rfind_from_range "/" (String b q ++ n) 0) as [?|Hr']; [done|done|].
      fold (rfind "/" (String b q ++ n)) in Hr'.
      leb_true. apply IH. by right.
Qed.

Lemma endswith_app_slash a : endswith "/" (a ++ "/") = true.
Proof.
  induction a as [|c a IH]; [done|]. rewrite append_cons. simpl.
  destruct (a ++ "/") eqn:E; [by destruct a|done].
Qed.

Lemma path_join_basename a n :
  n ≠ "" → slash_free n = true → basename (path_join a n) = n.
Proof.
  intros Hne Hn. unfold path_join.
  assert (startswith "/" n = false) as ->.
  { destruct n as [|c n]; [done|]. simpl in *.
    by destruct (Ascii.eqb c "/"). }
  destruct (bool_decide (a = "")) eqn:Ha; simpl.
  - apply basename_app; [|done]. left. by apply bool_decide_eq_true in Ha.
  - destruct (endswith "/" a) eqn:He.
    + apply basename_app; [by right|done].
    + replace (a ++ "/" ++ n) with ((a ++ "/") ++ n).
      * apply basename_app; [|done]. right. apply endswith_app_slash.
      * clear. induction a as [|c a IH]; [done|].
        by rewrite !append_cons, IH.
Qed.

Lemma append_empty_r s : s ++ "" = s.
Proof. induction s as [|a s IH]; [done|]. by rewrite append_cons, IH. Qed.

Lemma length_append s1 s2 :
  String.length (s1 ++ s2) = (String.length s1 + String.length s2)%nat.
Proof.
  induction s1 as [|a s1 IH]; [done|]. rewrite append_cons. simpl. by rewrite IH.
Qed.

(** [splitext] cuts its argument in two. *)
Lemma splitext_append p : (splitext p).1 ++ (splitext p).2 = p.
Proof.
  unfold splitext. case_match; simpl.
  - apply substring_split.
  - apply append_empty_r.
Qed.

Lemma slash_free_string_of_uint d :
  slash_free (NilEmpty.string_of_uint d) = true.
Proof. induction d; simpl; done. Qed.

Lemma slash_free_digits d : slash_free (NilZero.string_of_uint d) = true.
Proof. destruct d; try done; apply slash_free_string_of_uint. Qed.

Lemma slash_free_str_of_int n : slash_free (str_of_int n) = true.
Proof.
  unfold str_of_int, NilZero.string_of_int.
  destruct (Z.to_int n); [apply slash_free_digits|].
  simpl. apply slash_free_digits.
Qed.

Lemma slash_free_zero_padded width n : slash_free (zero_padded width n) = true.
Proof.
  unfold zero_padded. rewrite slash_free_app, slash_free_digits, andb_true_r.
  induction (width - _)%nat as [|k IH]; [done|].
  simpl. destruct (replicate k "0") eqn:E; [done|].
  by rewrite !slash_free_app, IH.
Qed.

Lemma slash_free_strftime now : slash_free (strftime now) = true.
Proof.
  unfold strftime. by rewrite !slash_free_app, !slash_free_zero_padded.
Qed.

Lemma slash_free_unique_tag now task_id :
  slash_free (unique_tag now task_id) = true.
Proof.
  destruct task_id as [n|]; simpl; [case_decide|];
    auto using slash_free_strftime, slash_free_str_of_int.
Qed.

(** The destination never is the source itself: its last component is
    longer than that of the source. *)
Lemma destination_path_fresh now self source_path task_id :
  source_path ≠ destination_path now self source_path task_id.
Proof.
  unfold destination_path.
  pose proof (splitext_append (basename source_path)) as Hsplit.
  pose proof (basename_slash_free source_path) as Hfree.
  destruct (splitext (basename source_path)) as [base ext]; simpl in Hsplit.
  rewrite <- Hsplit, slash_free_app in Hfree.
  apply andb_true_iff in Hfree as [Hbase Hext].
  set (name := base ++ "_" ++ unique_tag now task_id ++ ext).
  assert (slash_free name = true) as Hname.
  { unfold name. rewrite !slash_free_app, Hbase, Hext, slash_free_unique_tag.
    done. }
  assert (name ≠ "") as Hne.
  { unfold name. destruct base; done. }
  intros Heq. apply (f_equal basename) in Heq.
  rewrite path_join_basename, <- Hsplit in Heq by done.
  apply (f_equal String.length) in Heq. unfold name in Heq.
  rewrite !length_append in Heq. simpl in Heq. lia.
Qed.

Lemma path_join_nonempty a n : n ≠ "" → path_join a n ≠ "".
Proof.
  intros Hn. unfold path_join. repeat case_match; try done.
  - intros Hj. apply (f_equal String.length) in Hj.
    rewrite length_append in Hj. destruct n; [done|simpl in Hj; lia].
  - intros Hj. apply (f_equal String.length) in Hj.
    rewrite !length_append in Hj. simpl in Hj. lia.
Qed.

Lemma destination_path_nonempty now self source_path task_id :
  destination_path now self source_path task_id ≠ "".
Proof.
  unfold destination_path. destruct (splitext _) as [base ext].
  apply path_join_nonempty. by destruct base.
Qed.

End paths.

(** ** Claims about [upload_file] *)

Section upload.

Lemma upload_file_missing os now self source_path task_id fs :
  source_path = "" ∨ fs !! source_path = None →
  upload_file os now self source_path task_id fs = (Return "", fs).
Proof.
  intros H. unfold upload_file, path_exists.
  destruct H as [->|H]; [done|].
  rewrite H, (bool_decide_eq_false_2 (is_Some None)) by (by intros [? ?]).
  by rewrite orb_true_r.
Qed.

Lemma upload_file_existing os now self source_path task_id fs f :
  source_path ≠ "" → fs !! source_path = Some f →
  upload_file os now self source_path task_id fs =
    try_except_Exception
      (copy2 os source_path (destination_path now self source_path task_id);;
       mret (destination_path now self source_path task_id))
      (λ _, mret "") fs.
Proof.
  intros Hne Hf. unfold upload_file, path_exists, destination_path.
  rewrite bool_decide_eq_false_2 by done.
  rewrite bool_decide_eq_true_2 by (rewrite Hf; eauto). simpl.
  destruct (splitext (basename source_path)) as [base ext].
  destruct task_id as [n|]; simpl; [|done].
  unfold unique_tag. case_decide as Hn.
  - by rewrite Hn.
  - by rewrite (proj2 (Z.eqb_neq n 0) Hn).
Qed.

Lemma upload_file_copy now self source_path task_id fs f :
  source_path ≠ "" → fs !! source_path = Some f →
  let dest := destination_path now self source_path task_id in
  upload_file OsOk now self source_path task_id fs
    = (Return dest, <[dest := f]> fs).
Proof.
  intros Hne Hf dest. rewrite (upload_file_existing _ _ _ _ _ _ f) by done.
  fold dest. unfold try_except_Exception, mbind, action_bind, bind, copy2.
  rewrite Hf, decide_False; [done|]. apply destination_path_fresh.
Qed.

Lemma upload_file_os_fault now self source_path task_id fs :
  upload_file OsFault now self source_path task_id fs = (Return "", fs).
Proof.
  destruct (decide (source_path = "")) as [->|Hne]; [done|].
  destruct (fs !! source_path) as [f|] eqn:Hf.
  - rewrite (upload_file_existing _ _ _ _ _ _ f) by done.
    unfold try_except_Exception, mbind, action_bind, bind, copy2.
    rewrite Hf, decide_False; [done|]. apply destination_path_fresh.
  - apply upload_file_missing. by right.
Qed.

(** A copy that fails midway: the empty string is returned and the
    destination holds what was written. *)
Lemma upload_file_midway written written_at now self source_path task_id fs f :
  source_path ≠ "" → fs !! source_path = Some f →
  let dest := destination_path now self source_path task_id in
  upload_file (OsFaultMidway written written_at) now self source_path task_id
              fs
    = (Return "",
       <[dest := {| content := take written (content f);
                    mtime := written_at |}]> fs).
Proof.
  intros Hne Hf dest. rewrite (upload_file_existing _ _ _ _ _ _ f) by done.
  fold dest. unfold try_except_Exception, mbind, action_bind, bind, copy2.
  rewrite Hf, decide_False; [done|]. apply destination_path_fresh.
Qed.

(** What [upload_file] does, case by case. *)
Lemma upload_file_cases os now self source_path task_id fs :
  upload_file os now self source_path task_id fs = (Return "", fs) ∨
  ∃ f, source_path ≠ "" ∧ fs !! source_path = Some f ∧
    let dest := destination_path now self source_path task_id in
    (os = OsOk ∧
     upload_file os now self source_path task_id fs
       = (Return dest, <[dest := f]> fs)) ∨
    (∃ written written_at,
       os = OsFaultMidway written written_at ∧
       upload_file os now self source_path task_id fs
         = (Return "",
            <[dest := {| content := take written (content f);
                         mtime := written_at |}]> fs)).
Proof.
  destruct (decide (source_path = "")) as [->|Hne]; [by left|].
  destruct (fs !! source_path) as [f|] eqn:Hf;
    [|left; apply upload_file_missing; by right].
  destruct os as [| |written written_at].
  - right. exists f. split; [done|]. split; [done|]. left.
    split; [done|]. by apply upload_file_copy.
  - left. apply upload_file_os_fault.
  - right. exists f. split; [done|]. split; [done|]. right.
    exists written, written_at. split; [done|]. by apply upload_file_midway.
Qed.

End upload.

(** C4, as the code has it: [upload_file] returns the empty string and
    changes nothing when the source path is empty or names no file.
    Otherwise the destination is the managed directory joined with
    [{base}_{task_id}{ext}] when a task identity other than zero is
    supplied and with [{base}_{timestamp}{ext}] when none or zero is; the
    file is copied there and the destination returned, or the empty string
    returned when the copy fails, with nothing changed or with the part
    that was written left at the destination.  For [/tmp/photo.png] and
    identity 42 the destination is [photo_42.png] in the managed
    directory. *)
Theorem upload_file_stores_under_unique_name :
  (∀ os now self source_path task_id fs,
     source_path = "" ∨ fs !! source_path = None →
     upload_file os now self source_path task_id fs = (Return "", fs)) ∧
  (∀ now self source_path task_id fs f,
     source_path ≠ "" → fs !! source_path = Some f →
     let '(base, ext) := splitext (basename source_path) in
     let tag := match task_id with
                | Some n => if decide (n = 0) then strftime now
                            else str_of_int n
                | None => strftime now
                end in
     let dest := path_join (upload_dir self) (base ++ "_" ++ tag ++ ext) in
     upload_file OsOk now self source_path task_id fs
       = (Return dest, <[dest := f]> fs) ∧
     upload_file OsFault now self source_path task_id fs = (Return "", fs) ∧
     ∀ written written_at,
       upload_file (OsFaultMidway written written_at) now self source_path
                   task_id fs
         = (Return "",
            <[dest := {| content := take written (content f);
                         mtime := written_at |}]> fs)) ∧
  (∀ now self fs f,
     fs !! "/tmp/photo.png" = Some f →
     ∃ sep, (sep = "" ∨ sep = "/") ∧
       upload_file OsOk now self "/tmp/photo.png" (Some 42) fs
         = (Return (upload_dir self ++ sep ++ "photo_42.png"),
            <[upload_dir self ++ sep ++ "photo_42.png" := f]> fs)).
Proof.
  split; [|split].
  - apply upload_file_missing.
  - intros now self source_path task_id fs f Hne Hf.
    pose proof (upload_file_copy now self source_path task_id fs f Hne Hf)
      as Hcopy.
    pose proof (λ written written_at,
      upload_file_midway written written_at now self source_path task_id fs f
                         Hne Hf) as Hmidway.
    unfold destination_path, unique_tag in Hcopy, Hmidway.
    destruct (splitext (basename source_path)) as [base ext].
    split; [exact Hcopy|]. split; [apply upload_file_os_fault|exact Hmidway].
  - intros now self fs f Hf.
    rewrite (upload_file_copy now self "/tmp/photo.png" (Some 42) fs f)
      by done.
    change (destination_path now self "/tmp/photo.png" (Some 42))
      with (path_join (upload_dir self) "photo_42.png").
    unfold path_join. simpl startswith. cbv iota.
    destruct (bool_decide (upload_dir self = "") || endswith "/" (upload_dir self)).
    + exists "". split; [by left|done].
    + exists "/". split; [by right|done].
Qed.

Lemma upload_file_stores_under_unique_name_witness :
  ∃ sep, (sep = "" ∨ sep = "/") ∧
    upload_file OsOk sample_clock new_manager "/tmp/photo.png" (Some 42)
                sample_fs
      = (Return (upload_dir new_manager ++ sep ++ "photo_42.png"),
         <[upload_dir new_manager ++ sep ++ "photo_42.png" := sample_file]>
           sample_fs).
Proof.
  destruct upload_file_stores_under_unique_name as (_ & _ & H).
  apply (H sample_clock new_manager sample_fs sample_file).
  vm_compute. reflexivity.
Defined.

(** C4, as stated, fails at task identity 0: one is supplied, yet the
    destination is not [{base}_0{ext}] and the call does not fail
    either. *)
Lemma upload_file_zero_id_not_named_by_id :
  ¬ (∀ os now self source_path task_id fs f,
       source_path ≠ "" → fs !! source_path = Some f →
       (upload_file os now self source_path task_id fs).1
         = Return (specified_destination_path now self source_path task_id) ∨
       (upload_file os now self source_path task_id fs).1 = Return "").
Proof.
  intros H.
  destruct (H OsOk sample_clock new_manager "/tmp/photo.png" (Some 0)
              sample_fs sample_file) as [E|E];
    [discriminate|vm_compute; reflexivity|..]; vm_compute in E; discriminate.
Qed.

(** C9: whatever [upload_file] returns, the source is as it was and no
    path other than the destination computed for it has changed; when it
    returns a destination, it is that one and reading it gives the very
    bytes (and metadata) of the source.  For an existing source and a copy
    the operating system lets through, it does return a destination, which
    is not the source.  It never raises. *)
Theorem upload_file_round_trip :
  (∀ os now self source_path task_id fs dest fs',
     upload_file os now self source_path task_id fs = (Return dest, fs') →
     fs' !! source_path = fs !! source_path ∧
     (∀ p, p ≠ destination_path now self source_path task_id →
           fs' !! p = fs !! p) ∧
     (dest ≠ "" →
      dest = destination_path now self source_path task_id ∧
      ∃ f, fs !! source_path = Some f ∧ fs' !! dest = Some f ∧
           fs' !! source_path = Some f)) ∧
  (∀ now self source_path task_id fs f,
     source_path ≠ "" → fs !! source_path = Some f →
     ∃ dest,
       dest ≠ "" ∧ dest ≠ source_path ∧
       upload_file OsOk now self source_path task_id fs
         = (Return dest, <[dest := f]> fs)) ∧
  (∀ os now self source_path task_id fs,
     ∃ dest fs',
       upload_file os now self source_path task_id fs = (Return dest, fs')).
Proof.
  split; [|split].
  - intros os now self source_path task_id fs dest fs' Hrun.
    pose proof (destination_path_fresh now self source_path task_id) as Hd.
    destruct (upload_file_cases os now self source_path task_id fs)
      as [Hfail|(f & Hne & Hf & [[_ Hok]|(written & written_at & _ & Hmid)])];
      rewrite Hrun in *.
    + injection Hfail as <- <-. repeat split; done.
    + injection Hok as -> ->.
      assert (<[destination_path now self source_path task_id := f]> fs
                !! source_path = Some f) as Hsrc
        by (by rewrite lookup_insert_ne).
      repeat split.
      * by rewrite Hsrc.
      * intros p Hp. by rewrite lookup_insert_ne.
      * exists f. by rewrite lookup_insert_eq.
    + injection Hmid as -> ->. repeat split.
      * by rewrite lookup_insert_ne.
      * intros p Hp. by rewrite lookup_insert_ne.
      * done.
      * done.
  - intros now self source_path task_id fs f Hne Hf.
    exists (destination_path now self source_path task_id).
    repeat split.
    + apply destination_path_nonempty.
    + intros E. by apply (destination_path_fresh now self source_path task_id).
    + by apply upload_file_copy.
  - intros os now self source_path task_id fs.
    destruct (upload_file_cases os now self source_path task_id fs)
      as [->|(f & _ & _ & [[_ ->]|(written & written_at & _ & ->)])]; eauto.
Qed.

Lemma upload_file_round_trip_witness :
  (∃ dest,
     dest ≠ "" ∧ dest ≠ "/tmp/photo.png" ∧
     upload_file OsOk sample_clock new_manager "/tmp/photo.png" None sample_fs
       = (Return dest, <[dest := sample_file]> sample_fs)) ∧
  (upload_file (OsFaultMidway 2 1718010400) sample_clock new_manager
               "/tmp/photo.png" (Some 42) sample_fs).2 !! "/tmp/photo.png"
    = Some sample_file.
Proof.
  destruct upload_file_round_trip as (Hany & H & Hreturns). split.
  - apply (H sample_clock new_manager "/tmp/photo.png" None sample_fs
             sample_file).
    + discriminate.
    + vm_compute. reflexivity.
  - destruct (Hreturns (OsFaultMidway 2 1718010400) sample_clock new_manager
                "/tmp/photo.png" (Some 42) sample_fs) as (dest & fs' & Hrun).
    destruct (Hany _ _ _ _ _ _ _ _ Hrun) as (Hsource & _).
    rewrite Hrun. simpl. rewrite Hsource. vm_compute. reflexivity.
Defined.

(** C10: with task identity 0 [upload_file] does exactly what it does with
    no identity: the destination carries the timestamp, not the 0; only an
    identity other than zero is put into the name. *)
Theorem upload_file_zero_id_is_no_id :
  (∀ os now self source_path fs,
     upload_file os now self source_path (Some 0) fs
       = upload_file os now self source_path None fs) ∧
  (∀ now self source_path fs f,
     source_path ≠ "" → fs !! source_path = Some f →
     let '(base, ext) := splitext (basename source_path) in
     (upload_file OsOk now self source_path (Some 0) fs).1
       = Return (path_join (upload_dir self)
                   (base ++ "_" ++ strftime now ++ ext)) ∧
     ∀ n, n ≠ 0 →
       (upload_file OsOk now self source_path (Some n) fs).1
         = Return (path_join (upload_dir self)
                     (base ++ "_" ++ str_of_int n ++ ext))) ∧
  (upload_file OsOk sample_clock new_manager "/tmp/photo.png" (Some 0)
               sample_fs).1
    = Return "/app/uploads/photo_20240610090500.png".
Proof.
  split; [|split].
  - reflexivity.
  - intros now self source_path fs f Hne Hf.
    pose proof (λ task_id,
      upload_file_copy now self source_path task_id fs f Hne Hf) as Hcopy.
    unfold destination_path in Hcopy.
    destruct (splitext (basename source_path)) as [base ext].
    split.
    + by rewrite (Hcopy (Some 0)).
    + intros n Hn. rewrite (Hcopy (Some n)). simpl.
      by rewrite decide_False.
  - vm_compute. reflexivity.
Qed.

Lemma upload_file_zero_id_is_no_id_witness :
  let '(base, ext) := splitext (basename "/tmp/photo.png") in
  (upload_file OsOk sample_clock new_manager "/tmp/photo.png" (Some 0)
               sample_fs).1
    = Return (path_join (upload_dir new_manager)
                (base ++ "_" ++ strftime sample_clock ++ ext)) ∧
  ∀ n, n ≠ 0 →
    (upload_file OsOk sample_clock new_manager "/tmp/photo.png" (Some n)
                 sample_fs).1
      = Return (path_join (upload_dir new_manager)
                  (base ++ "_" ++ str_of_int n ++ ext)).
Proof.
  destruct upload_file_zero_id_is_no_id as (_ & H & _).
  apply (H sample_clock new_manager "/tmp/photo.png" sample_fs sample_file).
  - discriminate.
  - vm_compute. reflexivity.
Defined.

(** ** Further properties of the storage layer *)

Section steps.

Lemma add_schedule_entry_state io day_of_week start_time end_time entry_type
    description self :
  (add_schedule_entry io day_of_week start_time end_time entry_type
                      description self).2 = self ∨
  ∃ db db', conn self = Some db ∧
    (add_schedule_entry io day_of_week start_time end_time entry_type
                        description self).2 = set_conn self (Some db') ∧
    tasks db' = tasks db ∧ tasks_seq db' = tasks_seq db.
Proof.
  unfold add_schedule_entry.
  destruct (conn self) as [db|] eqn:Hc; [|by left].
  assert (Hsame : set_conn self (Some db) = self) by by apply set_conn_same.
  unfold try_except_sqlite3, on_conn, mbind, action_bind, bind,
    execute_insert_schedule, commit.
  destruct io, day_of_week, start_time, end_time, entry_type; simpl;
    rewrite ?Hsame; auto;
    case_decide; simpl; rewrite ?Hsame; auto;
    right; eexists _, _; repeat split; done.
Qed.

Lemma run_op_shape self call :
  run_op self call = self ∨
  (conn (run_op self call) = None) ∨
  ∃ db db', conn self = Some db ∧
            run_op self call = set_conn self (Some db') ∧
            tasks_step db db'.
Proof.
  destruct call as [io op]. destruct op; simpl.
  - destruct (add_task_cases io date name description time location file_path
                self) as [->|(db & d & n & Hc & -> & -> & _ & _ & ->)];
      [by left|].
    right; right. eexists _, _. split; [done|]. split; [done|].
    by eapply step_insert.
  - left. apply get_tasks_for_week_state.
  - destruct (update_task_status_state io task_id is_completed self)
      as [->|(db & Hc & _ & ->)]; [by left|].
    right; right. eexists _, _. split; [done|]. split; [done|].
    eapply (step_update _ _
              (λ r, if decide (t_id r = task_id)
                    then with_is_completed r is_completed else r));
      [|done|done].
    intros r. by case_decide.
  - destruct (update_task_state io task_id name description time location
                file_path self) as [->|(db & n & Hc & _ & -> & ->)];
      [by left|].
    right; right. eexists _, _. split; [done|]. split; [done|].
    eapply (step_update _ _
              (λ r, if decide (t_id r = task_id)
                    then with_details r n description time location file_path
                    else r)); [|done|done].
    intros r. by case_decide.
  - destruct (delete_task_state io task_id self)
      as [->|(db & Hc & _ & ->)]; [by left|].
    right; right. eexists _, _. split; [done|]. split; [done|].
    by eapply step_delete.
  - destruct (add_schedule_entry_state io day_of_week start_time end_time
                entry_type description self)
      as [->|(db & db' & Hc & -> & Htasks & Hseq)]; [by left|].
    right; right. exists db, db'. split; [done|]. split; [done|].
    eapply (step_update _ _ id); simpl; [done| |done].
    by rewrite list_fmap_id.
  - left. apply get_schedule_for_day_state.
  - unfold close. destruct (conn self) eqn:Hc; [right; by left|by left].
Qed.

End steps.

Section sequences.

Lemma run_ops_cons call calls self :
  run_ops (call :: calls) self = run_ops calls (run_op self call).
Proof. done. Qed.

(** A connection that is there after a sequence of calls was there before,
    and the table went through a chain of steps. *)
Lemma run_ops_steps calls self db' :
  conn (run_ops calls self) = Some db' →
  ∃ db, conn self = Some db ∧ rtc tasks_step db db'.
Proof.
  revert self. induction calls as [|call calls IH]; intros self Hc.
  - exists db'. split; [done|]. apply rtc_refl.
  - rewrite run_ops_cons in Hc. apply IH in Hc as (db1 & Hc1 & Hrtc).
    destruct (run_op_shape self call) as [E|[E|(db & db1' & Hc0 & E & Hstep)]].
    + rewrite E in Hc1. eauto.
    + congruence.
    + rewrite E in Hc1. simpl in Hc1. injection Hc1 as ->.
      exists db. split; [done|]. by eapply rtc_l.
Qed.

Lemma tasks_step_seq db db' : tasks_step db db' → tasks_seq db ≤ tasks_seq db'.
Proof.
  intros [row _ Hid ->|f _ _ ->|task_id _ ->]; [|done..].
  rewrite Hid. unfold next_rowid. lia.
Qed.

Lemma tasks_steps_seq db db' : rtc tasks_step db db' → tasks_seq db ≤ tasks_seq db'.
Proof.
  induction 1 as [|db db1 db2 Hstep _ IH]; [done|].
  apply tasks_step_seq in Hstep. lia.
Qed.

Lemma tasks_step_NoDup db db' :
  tasks_step db db' → NoDup (t_id <$> tasks db) → NoDup (t_id <$> tasks db').
Proof.
  intros [row -> Hid _|f Hf -> _|task_id -> _] Hnd.
  - rewrite fmap_app. apply NoDup_app. split; [done|]. split.
    + intros i Hi Hi'. apply list_elem_of_singleton in Hi'. subst i.
      apply list_elem_of_fmap in Hi as (r & Hr & Hin).
      apply (next_rowid_fresh t_id _ (tasks_seq db)) in Hin. lia.
    + apply NoDup_singleton.
  - rewrite <- list_fmap_compose.
    erewrite list_fmap_ext; [done|]. intros i r _. simpl. apply Hf.
  - eapply sublist_NoDup; [done|]. apply fmap_sublist, sublist_filter.
Qed.

Lemma tasks_step_bounded db db' :
  tasks_step db db' →
  Forall (λ r, t_id r ≤ tasks_seq db) (tasks db) →
  Forall (λ r, t_id r ≤ tasks_seq db') (tasks db').
Proof.
  intros [row -> Hid ->|f Hf -> ->|task_id -> ->] Hb.
  - apply Forall_app. split; [|by apply Forall_singleton].
    eapply Forall_impl; [done|]. simpl. intros r Hr.
    rewrite Hid. unfold next_rowid. lia.
  - apply Forall_fmap. eapply Forall_impl; [done|]. simpl. intros r Hr.
    by rewrite (proj1 (Hf r)).
  - rewrite Forall_forall in Hb |- *. intros r Hr.
    apply list_elem_of_filter in Hr as [_ Hr]. by apply Hb.
Qed.

(** Where a row of the later table comes from: it carries the identity and
    the date of a row of the earlier table, or its identity is larger than
    the earlier counter. *)
Lemma tasks_steps_origin db db' :
  rtc tasks_step db db' →
  ∀ r', r' ∈ tasks db' →
    (∃ r, r ∈ tasks db ∧ t_id r = t_id r' ∧ t_date r = t_date r') ∨
    tasks_seq db < t_id r'.
Proof.
  intros Hrtc. apply rtc_nsteps in Hrtc as [n Hn].
  revert db' Hn. induction n as [|n IH]; intros db' Hn r' Hr'.
  - inv Hn. left. eauto.
  - apply nsteps_inv_r in Hn as (db1 & Hn & Hstep).
    pose proof (tasks_steps_seq db db1) as Hseq.
    rewrite rtc_nsteps in Hseq. specialize (Hseq (ex_intro _ n Hn)).
    destruct Hstep as [row Htasks Hid _|f Hf Htasks _|task_id Htasks _];
      rewrite Htasks in Hr'.
    + apply elem_of_app in Hr' as [Hr'|Hr']; [by apply (IH db1)|].
      apply list_elem_of_singleton in Hr' as ->. right.
      rewrite Hid. unfold next_rowid. lia.
    + apply list_elem_of_fmap in Hr' as (r1 & -> & Hr1).
      destruct (Hf r1) as [-> ->]. by apply (IH db1).
    + apply list_elem_of_filter in Hr' as [_ Hr']. by apply (IH db1).
Qed.

Lemma NoDup_fmap_same {A B} (f : A → B) (l : list A) x y :
  NoDup (f <$> l) → x ∈ l → y ∈ l → f x = f y → x = y.
Proof.
  induction l as [|a l IH]; intros Hnd Hx Hy Hf; [by apply not_elem_of_nil in Hx|].
  rewrite fmap_cons in Hnd. apply NoDup_cons in Hnd as [Ha Hnd].
  apply elem_of_cons in Hx as [->|Hx]; apply elem_of_cons in Hy as [->|Hy];
    try done.
  - exfalso. apply Ha. rewrite Hf. by apply list_elem_of_fmap_2.
  - exfalso. apply Ha. rewrite <- Hf. by apply list_elem_of_fmap_2.
  - by apply IH.
Qed.

Lemma add_task_Some_inv io date name description time location file_path
    self rowid self' :
  add_task io date name description time location file_path self
    = (Return (Some rowid), self') →
  ∃ db db' d n,
    conn self = Some db ∧ conn self' = Some db' ∧
    date = Some d ∧ name = Some n ∧
    rowid = next_rowid t_id (tasks db) (tasks_seq db) ∧
    tasks_seq db' = rowid ∧
    tasks db' = (tasks db ++
                 [Task rowid d n description time location file_path false])%list.
Proof.
  destruct (add_task_cases io date name description time location file_path
              self) as [->|(db & d & n & Hc & -> & -> & _ & _ & ->)]; [done|].
  destruct io; [|done..].
  intros [= <- <-]. eexists _, _, _, _. repeat split; done.
Qed.

Lemma run_ops_well_formed calls self :
  well_formed self → well_formed (run_ops calls self).
Proof.
  intros [Hnd Hb].
  unfold well_formed, stored_tasks, stored_tasks_seq in *.
  destruct (conn (run_ops calls self)) as [db'|] eqn:Hc';
    [|split; constructor].
  apply run_ops_steps in Hc' as (db & Hc & Hsteps). rewrite Hc in Hnd, Hb.
  clear Hc. induction Hsteps as [|db db1 db2 Hstep _ IH]; [done|].
  apply IH; eauto using tasks_step_NoDup, tasks_step_bounded.
Qed.

Lemma run_ops_names_nonempty calls self :
  Forall (λ call, name_given call.2) calls →
  names_nonempty self → names_nonempty (run_ops calls self).
Proof.
  revert self. induction calls as [|call calls IH]; intros self Hcalls Hinv;
    [done|].
  apply Forall_cons in Hcalls as [Hcall Hcalls]. rewrite run_ops_cons.
  apply IH; [done|]. by apply run_op_names_nonempty.
Qed.

End sequences.

(** X1: identities are never reused.  An identity returned by [add_task] is
    smaller than every identity [add_task] returns later, whatever calls
    (deletions included) were made in between. *)
Theorem task_ids_never_reused :
  ∀ io1 date1 name1 description1 time1 location1 file_path1 self0 id1 self1
    calls
    io2 date2 name2 description2 time2 location2 file_path2 id2 self2,
    add_task io1 date1 name1 description1 time1 location1 file_path1 self0
      = (Return (Some id1), self1) →
    add_task io2 date2 name2 description2 time2 location2 file_path2
             (run_ops calls self1)
      = (Return (Some id2), self2) →
    id1 < id2.
Proof.
  intros * Hadd1 Hadd2.
  apply add_task_Some_inv in Hadd1
    as (db0 & db1 & _ & _ & _ & Hc1 & _ & _ & _ & Hseq1 & _).
  apply add_task_Some_inv in Hadd2
    as (db2 & _ & _ & _ & Hc2 & _ & _ & _ & -> & _ & _).
  apply run_ops_steps in Hc2 as (db1' & Hc1' & Hsteps).
  rewrite Hc1 in Hc1'. injection Hc1' as <-.
  apply tasks_steps_seq in Hsteps. unfold next_rowid. lia.
Qed.

Lemma task_ids_never_reused_witness :
  ∃ s1 s2,
    add_task IoOk (Some "2024-06-10") (Some "Dentist") None None None None
             new_manager = (Return (Some 1), s1) ∧
    add_task IoOk (Some "2024-06-11") (Some "Standup") None None None None
             (run_ops [(IoOk, DeleteTask 1)] s1) = (Return (Some 2), s2) ∧
    1 < 2.
Proof.
  set (s1 := (add_task IoOk (Some "2024-06-10") (Some "Dentist") None None
                       None None new_manager).2).
  set (s2 := (add_task IoOk (Some "2024-06-11") (Some "Standup") None None
                       None None (run_ops [(IoOk, DeleteTask 1)] s1)).2).
  assert (add_task IoOk (Some "2024-06-10") (Some "Dentist") None None None
                   None new_manager = (Return (Some 1), s1)) as H1
    by (vm_compute; reflexivity).
  assert (add_task IoOk (Some "2024-06-11") (Some "Standup") None None None
                   None (run_ops [(IoOk, DeleteTask 1)] s1)
          = (Return (Some 2), s2)) as H2
    by (vm_compute; reflexivity).
  exists s1, s2. split; [exact H1|]. split; [exact H2|].
  exact (task_ids_never_reused _ _ _ _ _ _ _ _ _ _ _ _ _ _ _ _ _ _ _ _ H1 H2).
Defined.

(** X2: the primary key.  When the stored identities are pairwise distinct
    and bounded by the AUTOINCREMENT counter, they still are after any
    sequence of calls, and two stored rows with the same identity are one
    and the same row. *)
Theorem well_formed_preserved :
  ∀ (calls : list (io_status * storage_op)) (self : DataManager),
    well_formed self →
    well_formed (run_ops calls self) ∧
    ∀ r1 r2, r1 ∈ stored_tasks (run_ops calls self) →
             r2 ∈ stored_tasks (run_ops calls self) →
             t_id r1 = t_id r2 → r1 = r2.
Proof.
  intros calls self Hwf.
  pose proof (run_ops_well_formed calls self Hwf) as Hwf'.
  split; [done|]. intros r1 r2. apply NoDup_fmap_same, Hwf'.
Qed.

Lemma well_formed_preserved_witness :
  well_formed (run_ops [(IoOk, DeleteTask 1); (IoOk, UpdateTaskStatus 2 true)]
                       planner_with_two_tasks).
Proof.
  apply well_formed_preserved.
  split.
  - apply (bool_decide_unpack _). vm_compute. exact I.
  - vm_compute. repeat constructor; discriminate.
Defined.

(** X3: identity and date of a task are fixed for good.  On a well-formed
    store, a row found after any sequence of calls under the identity of a
    row stored before them has that row's date. *)
Theorem task_date_never_changes :
  ∀ (calls : list (io_status * storage_op)) (self : DataManager) (r r' : task),
    well_formed self →
    r ∈ stored_tasks self →
    r' ∈ stored_tasks (run_ops calls self) →
    t_id r' = t_id r →
    t_date r' = t_date r.
Proof.
  intros calls self r r' [Hnd Hb] Hr Hr' Hid.
  unfold stored_tasks, stored_tasks_seq in *.
  destruct (conn (run_ops calls self)) as [db'|] eqn:Hc';
    [|by apply not_elem_of_nil in Hr'].
  apply run_ops_steps in Hc' as (db & Hc & Hsteps). rewrite Hc in *.
  destruct (tasks_steps_origin _ _ Hsteps r' Hr') as [(r0 & Hr0 & Hid0 & Hd0)|Hnew].
  - rewrite <- Hd0. f_equal.
    apply (NoDup_fmap_same t_id (tasks db)); [done..|congruence].
  - rewrite Forall_forall in Hb. apply Hb in Hr. lia.
Qed.

Lemma task_date_never_changes_witness :
  Task 1 "2024-06-10" "Dentist, moved" None (Some "17:00") None None true
    ∈ stored_tasks
        (run_ops [(IoOk, UpdateTask 1 (Some "Dentist, moved") None
                                    (Some "17:00") None None);
                  (IoOk, UpdateTaskStatus 1 true)]
                 planner_with_two_tasks) ∧
  t_date (Task 1 "2024-06-10" "Dentist, moved" None (Some "17:00") None None
               true)
    = t_date (Task 1 "2024-06-10" "Dentist" (Some "") (Some "09:30") (Some "")
                   (Some "") false).
Proof.
  assert (Task 1 "2024-06-10" "Dentist, moved" None (Some "17:00") None None
               true
            ∈ stored_tasks
                (run_ops [(IoOk, UpdateTask 1 (Some "Dentist, moved") None
                                            (Some "17:00") None None);
                          (IoOk, UpdateTaskStatus 1 true)]
                         planner_with_two_tasks)) as Hr'.
  { vm_compute. left. }
  split; [exact Hr'|].
  apply (task_date_never_changes
           [(IoOk, UpdateTask 1 (Some "Dentist, moved") None (Some "17:00")
                              None None);
            (IoOk, UpdateTaskStatus 1 true)]
           planner_with_two_tasks).
  - split.
    + apply (bool_decide_unpack _). vm_compute. exact I.
    + vm_compute. repeat constructor; discriminate.
  - vm_compute. left.
  - exact Hr'.
  - reflexivity.
Defined.

(** X4: [get_schedule_for_day] returns the stored schedule entries whose
    day of the week is the given text, each once, an entry standing before
    another only if its start time is, as a text, at or before the other's,
    and leaves the store as it was; when the engine fails it returns the
    empty list.  Of a Monday entry at 14:00 entered before a Monday entry
    at 09:00, with a Tuesday entry between them, the one at 09:00 comes
    first and the Tuesday entry is left out. *)
Theorem get_schedule_for_day_filtered_and_sorted :
  (∀ (self : DataManager) (day_of_week : string),
     (∃ entries,
        get_schedule_for_day IoOk day_of_week self = (Return entries, self) ∧
        entries ≡ₚ filter (λ e, s_day_of_week e = day_of_week)
                          (stored_schedule self) ∧
        (∀ e, e ∈ entries ↔
              e ∈ stored_schedule self ∧ s_day_of_week e = day_of_week) ∧
        (∀ (i j : nat) e1 e2,
           entries !! i = Some e1 → entries !! j = Some e2 → (i < j)%nat →
           String.le (s_start_time e1) (s_start_time e2))) ∧
     get_schedule_for_day IoFault day_of_week self = (Return [], self)) ∧
  get_schedule_for_day IoOk "Monday" planner_with_schedule
    = (Return [ScheduleEntry 3 "Monday" "09:00" "12:00" "Work" (Some "office");
               ScheduleEntry 1 "Monday" "14:00" "15:30" "Class" None],
       planner_with_schedule).
Proof.
  split; [|vm_compute; reflexivity].
  intros self day_of_week. unfold get_schedule_for_day, stored_schedule.
  destruct (conn self) as [db|] eqn:Hc.
  - unfold try_except_sqlite3, on_conn; simpl.
    rewrite (set_conn_same _ _ Hc). split; [|done].
    eexists. split; [done|]. split; [apply merge_sort_Permutation|]. split.
    + intros e. rewrite merge_sort_Permutation, list_elem_of_filter. tauto.
    + intros i j e1 e2 Hi Hj Hij.
      eapply (StronglySorted_lookup_lt order_by_start_time); [|done..].
      apply StronglySorted_merge_sort; apply _.
  - split; [|done]. exists []. split; [done|]. split; [done|]. split.
    + intros e. split; [by intros ?%not_elem_of_nil|].
      by intros [?%not_elem_of_nil _].
    + intros i j e1 e2 Hi. by rewrite lookup_nil in Hi.
Qed.

Lemma get_schedule_for_day_filtered_and_sorted_witness :
  ∃ entries,
    get_schedule_for_day IoOk "Monday" planner_with_schedule
      = (Return entries, planner_with_schedule) ∧
    ScheduleEntry 2 "Tuesday" "08:00" "12:00" "Work" None
      ∈ stored_schedule planner_with_schedule ∧
    ¬ (ScheduleEntry 2 "Tuesday" "08:00" "12:00" "Work" None ∈ entries) ∧
    String.le "09:00" "14:00".
Proof.
  destruct get_schedule_for_day_filtered_and_sorted as [H Hscenario].
  destruct (H planner_with_schedule "Monday")
    as [(entries & Hrun & _ & Hiff & Hsorted) _].
  exists entries. split; [exact Hrun|].
  split; [vm_compute; right; left|]. split.
  - intros He. apply Hiff in He as [_ He]. discriminate.
  - rewrite Hscenario in Hrun. injection Hrun as <-.
    apply (Hsorted 0%nat 1%nat
             (ScheduleEntry 3 "Monday" "09:00" "12:00" "Work" (Some "office"))
             (ScheduleEntry 1 "Monday" "14:00" "15:30" "Class" None));
      [reflexivity|reflexivity|lia].
Defined.

(** X5: [add_schedule_entry] with its four required texts appends one entry
    made of its arguments under a new identity, whatever the start and end
    times are (an end before the start is accepted), leaves the tasks
    alone, and the entry is then listed by [get_schedule_for_day] for its
    day. *)
Theorem add_schedule_entry_appends_and_is_listed :
  ∀ self db (day_of_week start_time end_time entry_type : string)
    (description : option string),
    conn self = Some db →
    next_rowid s_id (schedule db) (schedule_seq db) ≤ max_rowid →
    ∃ rowid self',
      add_schedule_entry IoOk (Some day_of_week) (Some start_time)
                         (Some end_time) (Some entry_type) description self
        = (Return (Some rowid), self') ∧
      let entry := ScheduleEntry rowid day_of_week start_time end_time
                                 entry_type description in
      stored_schedule self' = (stored_schedule self ++ [entry])%list ∧
      (∀ e, e ∈ stored_schedule self → s_id e < rowid) ∧
      stored_tasks self' = stored_tasks self ∧
      ∃ entries,
        get_schedule_for_day IoOk day_of_week self' = (Return entries, self') ∧
        entry ∈ entries.
Proof.
  intros self db day_of_week start_time end_time entry_type description Hc Hmax.
  set (rowid := next_rowid s_id (schedule db) (schedule_seq db)).
  set (entry := ScheduleEntry rowid day_of_week start_time end_time entry_type
                              description).
  exists rowid.
  exists (set_conn self
            (Some {| tasks := tasks db; tasks_seq := tasks_seq db;
                     schedule := (schedule db ++ [entry])%list;
                     schedule_seq := rowid; lastrowid := Some rowid |})).
  split.
  { unfold add_schedule_entry. rewrite Hc.
    unfold try_except_sqlite3, on_conn, mbind, action_bind, bind,
      execute_insert_schedule; simpl.
    by rewrite decide_False by (fold rowid; lia). }
  unfold stored_schedule, stored_tasks. rewrite Hc. simpl.
  repeat split.
  - intros e He. by apply next_rowid_fresh.
  - eexists. split; [done|].
    rewrite merge_sort_Permutation. apply list_elem_of_filter. split; [done|].
    apply elem_of_app. right. by apply list_elem_of_singleton.
Qed.

Lemma add_schedule_entry_appends_and_is_listed_witness :
  ∃ rowid self',
    add_schedule_entry IoOk (Some "Monday") (Some "18:00") (Some "09:00")
                       (Some "Work") None new_manager
      = (Return (Some rowid), self') ∧
    stored_schedule self' =
      [ScheduleEntry rowid "Monday" "18:00" "09:00" "Work" None].
Proof.
  destruct (add_schedule_entry_appends_and_is_listed
              new_manager empty_database "Monday" "18:00" "09:00" "Work" None)
    as (rowid & self' & Hrun & Hrows & _).
  - reflexivity.
  - vm_compute. discriminate.
  - exists rowid, self'. split; [exact Hrun|exact Hrows].
Defined.

(** X6: what the NOT NULL columns and the rowid range refuse.  [add_task]
    without a date or without a name, [add_schedule_entry] without one of
    its four required texts, and [add_task] on a table whose rowids are
    used up return [None]; [update_task] without a name, for an identity
    in the signed 64-bit range, returns; in each case the manager is
    exactly as it was and nothing is raised, whatever the engine does. *)
Theorem missing_required_values_are_refused :
  (∀ io self date name description time location file_path,
     date = None ∨ name = None →
     add_task io date name description time location file_path self
       = (Return None, self)) ∧
  (∀ io self task_id description time location file_path,
     int64 task_id →
     update_task io task_id None description time location file_path self
       = (Return (), self)) ∧
  (∀ io self day_of_week start_time end_time entry_type description,
     day_of_week = None ∨ start_time = None ∨ end_time = None ∨
     entry_type = None →
     add_schedule_entry io day_of_week start_time end_time entry_type
                        description self = (Return None, self)) ∧
  (∀ io self db date name description time location file_path,
     conn self = Some db →
     max_rowid < next_rowid t_id (tasks db) (tasks_seq db) →
     add_task io date name description time location file_path self
       = (Return None, self)).
Proof.
  repeat split.
  - intros io self date name description time location file_path Hnone.
    unfold add_task. destruct (conn self) as [db|] eqn:Hc; [|done].
    unfold try_except_sqlite3, on_conn, mbind, action_bind, bind,
      execute_insert_task.
    destruct io; simpl; rewrite ?(set_conn_same _ _ Hc); try done;
      (destruct Hnone as [-> | ->]; [|destruct date]); simpl;
      by rewrite ?(set_conn_same _ _ Hc).
  - intros io self task_id description time location file_path Hid.
    unfold update_task. destruct (conn self) as [db|] eqn:Hc; [|done].
    unfold try_except_sqlite3, on_conn, mbind, action_bind, bind,
      execute_update_task. rewrite decide_True by done.
    destruct io; simpl; rewrite ?(set_conn_same _ _ Hc); try done;
      case_decide; simpl; by rewrite (set_conn_same _ _ Hc).
  - intros io self day_of_week start_time end_time entry_type description Hnone.
    unfold add_schedule_entry. destruct (conn self) as [db|] eqn:Hc; [|done].
    unfold try_except_sqlite3, on_conn, mbind, action_bind, bind,
      execute_insert_schedule.
    destruct io; simpl; rewrite ?(set_conn_same _ _ Hc); try done;
      destruct day_of_week, start_time, end_time, entry_type; simpl;
      rewrite ?(set_conn_same _ _ Hc); try done;
      by destruct Hnone as [?|[?|[?|?]]].
  - intros io self db date name description time location file_path Hc Hfull.
    unfold add_task. rewrite Hc.
    unfold try_except_sqlite3, on_conn, mbind, action_bind, bind,
      execute_insert_task.
    destruct io; simpl; rewrite ?(set_conn_same _ _ Hc); try done;
      destruct date, name; simpl; rewrite ?(set_conn_same _ _ Hc); try done;
      rewrite decide_True by done; simpl; by rewrite (set_conn_same _ _ Hc).
Qed.

Lemma missing_required_values_are_refused_witness :
  add_task IoOk (Some "2024-06-10") None (Some "") (Some "09:30") (Some "")
           (Some "") planner_with_two_tasks
    = (Return None, planner_with_two_tasks) ∧
  update_task CommitFault 1 None (Some "") (Some "09:30") (Some "") (Some "")
              planner_with_two_tasks
    = (Return (), planner_with_two_tasks).
Proof.
  destruct missing_required_values_are_refused as (H & Hupdate & _). split.
  - apply H. by right.
  - apply Hupdate. split; vm_compute; discriminate.
Defined.

(** X7: a week query whose start sorts after its end finds nothing, and a
    query from a date to that same date has no key other than that date. *)
Theorem get_tasks_for_week_degenerate_ranges :
  (∀ io self start_date_str end_date_str,
     ¬ String.le start_date_str end_date_str →
     get_tasks_for_week io start_date_str end_date_str self
       = (Return ∅, self)) ∧
  (∀ io self date_str tasks_by_date self' d,
     get_tasks_for_week io date_str date_str self
       = (Return tasks_by_date, self') →
     d ≠ date_str → tasks_by_date !! d = None).
Proof.
  split.
  - intros io self a b Hab.
    destruct io; [|apply get_tasks_for_week_fault|];
      rewrite ?get_tasks_for_week_commit_fault.
    all: destruct (conn self) as [db|] eqn:Hc.
    all: try (unfold get_tasks_for_week; by rewrite Hc).
    all: rewrite (get_tasks_for_week_run _ _ _ _ Hc);
      replace (filter (λ r, between a b (t_date r)) (tasks db)) with (@nil task);
        [done|];
      symmetry; induction (tasks db) as [|r rows IH]; [done|];
      rewrite filter_cons, decide_False; [done|];
      intros [H1 H2]; apply Hab; by etrans.
  - intros io self date_str tasks_by_date self' d Hrun Hd.
    destruct io; rewrite ?get_tasks_for_week_commit_fault in Hrun.
    2:{ rewrite get_tasks_for_week_fault in Hrun. injection Hrun as <- _.
        apply lookup_empty. }
    all: destruct (get_tasks_for_week_spec self date_str date_str)
        as (m & Hrun' & Hiff & Hgroups);
      rewrite Hrun in Hrun'; injection Hrun' as -> _;
      (destruct (m !! d) as [rs|] eqn:Hrs; [|done]);
      destruct (Hgroups d rs Hrs) as (Hne & _);
      (destruct rs as [|r rs]; [done|]);
      assert (r ∈ stored_tasks self ∧ t_date r = d ∧ between date_str date_str d)
        as (_ & _ & H1 & H2)
        by (apply Hiff; exists (r :: rs); split; [done|left]);
      exfalso; apply Hd; by apply (anti_symm String.le).
Qed.

Lemma get_tasks_for_week_degenerate_ranges_witness :
  get_tasks_for_week IoOk "2024-06-15" "2024-06-09" planner_with_two_tasks
    = (Return ∅, planner_with_two_tasks).
Proof.
  destruct get_tasks_for_week_degenerate_ranges as [H _].
  apply H. vm_compute. exact id.
Defined.

(** X8: [close] drops the connection and keeps the upload directory; a
    closed manager stays exactly as it is under any sequence of calls, a
    second [close] included. *)
Theorem closed_manager_stays_closed :
  ∀ (self : DataManager) (calls : list (io_status * storage_op)),
    ∃ closed,
      close self = (Return (), closed) ∧
      conn closed = None ∧
      upload_dir closed = upload_dir self ∧
      run_ops calls closed = closed.
Proof.
  intros self calls.
  assert (∃ closed, close self = (Return (), closed) ∧ conn closed = None ∧
                    upload_dir closed = upload_dir self)
    as (closed & Hclose & Hc & Hdir).
  { unfold close. destruct (conn self) eqn:E; eexists; eauto. }
  exists closed. repeat split; try done.
  induction calls as [|[io op] calls IH]; [done|].
  rewrite run_ops_cons.
  replace (run_op closed (io, op)) with closed; [done|].
  destruct op; simpl;
    unfold add_task, get_tasks_for_week, update_task_status, update_task,
      delete_task, add_schedule_entry, get_schedule_for_day, close;
    by rewrite Hc.
Qed.

(** X9: an update shows in the next week query.  For a stored task, its
    identity in the range of SQLite's integers, and a range that contains
    its date, the query made after [update_task] lists the task with the
    new name, description, time, location and file path, and the query made
    after [update_task_status] lists it with the new flag, in both cases
    under its date. *)
Theorem updates_show_in_next_query :
  ∀ (self : DataManager) (r : task) (a b : string),
    r ∈ stored_tasks self →
    int64 (t_id r) →
    between a b (t_date r) →
    (∀ (name : string) (description time location file_path : option string),
       ∃ self' tasks_by_date rs,
         update_task IoOk (t_id r) (Some name) description time location
                     file_path self = (Return (), self') ∧
         get_tasks_for_week IoOk a b self' = (Return tasks_by_date, self') ∧
         tasks_by_date !! t_date r = Some rs ∧
         with_details r name description time location file_path ∈ rs) ∧
    (∀ is_completed : bool,
       ∃ self' tasks_by_date rs,
         update_task_status IoOk (t_id r) is_completed self
           = (Return (), self') ∧
         get_tasks_for_week IoOk a b self' = (Return tasks_by_date, self') ∧
         tasks_by_date !! t_date r = Some rs ∧
         with_is_completed r is_completed ∈ rs).
Proof.
  intros self r a b Hr Hid Hb. unfold stored_tasks in Hr.
  destruct (conn self) as [db|] eqn:Hc; [|by apply not_elem_of_nil in Hr].
  assert (Hquery : ∀ self' r', r' ∈ stored_tasks self' → t_date r' = t_date r →
            ∃ tasks_by_date rs,
              get_tasks_for_week IoOk a b self' = (Return tasks_by_date, self') ∧
              tasks_by_date !! t_date r = Some rs ∧ r' ∈ rs).
  { intros self' r' Hr' Hd.
    destruct (get_tasks_for_week_spec self' a b) as (m & Hrun & Hiff & _).
    assert (∃ rs, m !! t_date r = Some rs ∧ r' ∈ rs) as (rs & Hrs & Hin)
      by (apply Hiff; done).
    by exists m, rs. }
  split.
  - intros name description time location file_path.
    eexists. 
    edestruct (Hquery
      (set_conn self
         (Some (set_tasks db
                  (update_rows t_id
                     (λ r, with_details r name description time location
                                        file_path)
                     (t_id r) (tasks db)))))
      (with_details r name description time location file_path))
      as (m & rs & Hrun & Hrs & Hin); [|done|].
    + simpl. unfold update_rows. apply list_elem_of_fmap.
      exists r. split; [|done]. by rewrite decide_True.
    + exists m, rs. split; [by apply update_task_run|]. done.
  - intros is_completed.
    eexists.
    edestruct (Hquery
      (set_conn self
         (Some (set_tasks db
                  (update_rows t_id (λ r, with_is_completed r is_completed)
                               (t_id r) (tasks db)))))
      (with_is_completed r is_completed))
      as (m & rs & Hrun & Hrs & Hin); [|done|].
    + simpl. unfold update_rows. apply list_elem_of_fmap.
      exists r. split; [|done]. by rewrite decide_True.
    + exists m, rs. split; [by apply update_task_status_run|]. done.
Qed.

Lemma updates_show_in_next_query_witness :
  ∃ self' tasks_by_date rs,
    update_task_status IoOk 1 true planner_with_two_tasks
      = (Return (), self') ∧
    get_tasks_for_week IoOk "2024-06-09" "2024-06-15" self'
      = (Return tasks_by_date, self') ∧
    tasks_by_date !! "2024-06-10" = Some rs ∧
    Task 1 "2024-06-10" "Dentist" (Some "") (Some "09:30") (Some "") (Some "")
         true ∈ rs.
Proof.
  destruct (updates_show_in_next_query planner_with_two_tasks
              (Task 1 "2024-06-10" "Dentist" (Some "") (Some "09:30")
                    (Some "") (Some "") false)
              "2024-06-09" "2024-06-15") as [_ H].
  - vm_compute. left.
  - split; vm_compute; discriminate.
  - vm_compute. split; exact I.
  - apply (H true).
Defined.

(** ** Further properties of [upload_file] *)

Section names.

Lemma str_of_int_inj n m : str_of_int n = str_of_int m → n = m.
Proof.
  unfold str_of_int. intros H.
  assert (Hnn : ∀ z, Z.to_int z ≠ Decimal.Pos Decimal.Nil ∧
                     Z.to_int z ≠ Decimal.Neg Decimal.Nil).
  { intros [|p|p]; simpl; split; try discriminate;
      intros [= E]; by apply DecimalPos.Unsigned.to_uint_nonnil in E. }
  apply DecimalZ.to_int_inj.
  assert (Some (Z.to_int n) = Some (Z.to_int m)) as [= E]; [|done].
  rewrite <- (NilZero.isi (Z.to_int n)), <- (NilZero.isi (Z.to_int m));
    try apply Hnn.
  by rewrite H.
Qed.

Lemma append_cancel_r s1 s2 e : s1 ++ e = s2 ++ e → s1 = s2.
Proof.
  revert s2. induction s1 as [|a s1 IH]; intros [|b s2] H; try done.
  - apply (f_equal String.length) in H.
    rewrite append_nil, append_cons in H. simpl in H.
    rewrite length_append in H. lia.
  - apply (f_equal String.length) in H.
    rewrite append_nil, append_cons in H. simpl in H.
    rewrite length_append in H. lia.
  - rewrite !append_cons in H. injection H as -> H. f_equal. by apply IH.
Qed.

Lemma append_cancel_l s e1 e2 : s ++ e1 = s ++ e2 → e1 = e2.
Proof.
  induction s as [|a s IH]; [done|].
  rewrite !append_cons. intros [= H]. by apply IH.
Qed.

(** A name without separator is joined to the directory with at most one
    separator in between. *)
Lemma path_join_sep a n :
  startswith "/" n = false →
  ∃ sep, (sep = "" ∨ sep = "/") ∧ path_join a n = a ++ sep ++ n.
Proof.
  intros Hn. unfold path_join. rewrite Hn.
  destruct (bool_decide (a = "") || endswith "/" a).
  - exists "". split; [by left|done].
  - exists "/". split; [by right|done].
Qed.

Lemma slash_free_startswith n : slash_free n = true → startswith "/" n = false.
Proof.
  destruct n as [|c n]; [done|]. simpl. by destruct (Ascii.eqb c "/").
Qed.

(** The name [upload_file] gives the copy: the file name of the source with
    the tag put before its extension. *)
Lemma unique_filename_shape now source_path task_id :
  ∃ base ext,
    splitext (basename source_path) = (base, ext) ∧
    base ++ ext = basename source_path ∧
    slash_free (base ++ "_" ++ unique_tag now task_id ++ ext) = true ∧
    base ++ "_" ++ unique_tag now task_id ++ ext ≠ "".
Proof.
  pose proof (splitext_append (basename source_path)) as Hsplit.
  pose proof (basename_slash_free source_path) as Hfree.
  destruct (splitext (basename source_path)) as [base ext]; simpl in Hsplit.
  exists base, ext. split; [done|]. split; [done|].
  rewrite <- Hsplit, slash_free_app in Hfree.
  apply andb_true_iff in Hfree as [Hbase Hext]. split.
  - by rewrite !slash_free_app, Hbase, Hext, slash_free_unique_tag.
  - by destruct base.
Qed.

End names.

(** X10: the copy lands directly in the upload directory.  For an existing
    source the destination is the upload directory, at most one separator,
    and a name without separator, which is the file name of the source with
    an underscore and the tag put before its extension; no directory of
    the source path is carried over. *)
Theorem upload_file_lands_in_upload_dir :
  ∀ now self source_path task_id fs f,
    source_path ≠ "" → fs !! source_path = Some f →
    ∃ dest base ext sep,
      upload_file OsOk now self source_path task_id fs
        = (Return dest, <[dest := f]> fs) ∧
      base ++ ext = basename source_path ∧
      (sep = "" ∨ sep = "/") ∧
      dest = upload_dir self ++ sep ++
             (base ++ "_" ++ unique_tag now task_id ++ ext) ∧
      basename dest = base ++ "_" ++ unique_tag now task_id ++ ext ∧
      slash_free (basename dest) = true.
Proof.
  intros now self source_path task_id fs f Hne Hf.
  destruct (unique_filename_shape now source_path task_id)
    as (base & ext & Hsplit & Happ & Hfree & Hname).
  destruct (path_join_sep (upload_dir self)
              (base ++ "_" ++ unique_tag now task_id ++ ext))
    as (sep & Hsep & Hjoin); [by apply slash_free_startswith|].
  exists (destination_path now self source_path task_id), base, ext, sep.
  split; [by apply upload_file_copy|].
  unfold destination_path. rewrite Hsplit.
  split; [done|]. split; [done|]. split; [done|].
  rewrite path_join_basename by done. done.
Qed.

Lemma upload_file_lands_in_upload_dir_witness :
  ∃ dest base ext sep,
    upload_file OsOk sample_clock new_manager "/tmp/photo.png" (Some 42)
                sample_fs
      = (Return dest, <[dest := sample_file]> sample_fs) ∧
    base ++ ext = basename "/tmp/photo.png" ∧
    (sep = "" ∨ sep = "/") ∧
    dest = upload_dir new_manager ++ sep ++
           (base ++ "_" ++ unique_tag sample_clock (Some 42) ++ ext) ∧
    basename dest = base ++ "_" ++ unique_tag sample_clock (Some 42) ++ ext ∧
    slash_free (basename dest) = true.
Proof.
  apply upload_file_lands_in_upload_dir.
  - discriminate.
  - vm_compute. reflexivity.
Defined.

(** X11: for one source, two task identities other than zero never give the
    same destination. *)
Theorem distinct_ids_give_distinct_destinations :
  ∀ now self source_path (n m : Z) fs f,
    source_path ≠ "" → fs !! source_path = Some f →
    n ≠ 0 → m ≠ 0 → n ≠ m →
    ∃ dest_n dest_m fs_n fs_m,
      upload_file OsOk now self source_path (Some n) fs = (Return dest_n, fs_n) ∧
      upload_file OsOk now self source_path (Some m) fs = (Return dest_m, fs_m) ∧
      dest_n ≠ dest_m.
Proof.
  intros now self source_path n m fs f Hne Hf Hn Hm Hnm.
  eexists _, _, _, _. split; [by apply upload_file_copy|].
  split; [by apply upload_file_copy|].
  unfold destination_path.
  destruct (unique_filename_shape now source_path (Some n))
    as (base & ext & Hsplit & _ & Hfree_n & Hname_n).
  destruct (unique_filename_shape now source_path (Some m))
    as (base' & ext' & Hsplit' & _ & Hfree_m & Hname_m).
  rewrite Hsplit in Hsplit'. injection Hsplit' as <- <-. rewrite Hsplit.
  intros Heq. apply (f_equal basename) in Heq.
  rewrite !path_join_basename in Heq by done.
  simpl in Heq. rewrite !decide_False in Heq by done.
  apply append_cancel_l in Heq. rewrite !append_cons, !append_nil in Heq.
  injection Heq as Heq. apply append_cancel_r in Heq.
  by apply str_of_int_inj in Heq.
Qed.

Lemma distinct_ids_give_distinct_destinations_witness :
  ∃ dest_n dest_m fs_n fs_m,
    upload_file OsOk sample_clock new_manager "/tmp/photo.png" (Some 1)
                sample_fs = (Return dest_n, fs_n) ∧
    upload_file OsOk sample_clock new_manager "/tmp/photo.png" (Some 11)
                sample_fs = (Return dest_m, fs_m) ∧
    dest_n ≠ dest_m.
Proof.
  apply (distinct_ids_give_distinct_destinations
           sample_clock new_manager "/tmp/photo.png" 1 11 sample_fs sample_file).
  - discriminate.
  - vm_compute. reflexivity.
  - discriminate.
  - discriminate.
  - discriminate.
Defined.

(** X12: the name depends on the file name and the identity only.  Two
    sources with the same file name in different directories, uploaded for
    the same identity other than zero, get the same destination: the second
    upload overwrites the first, and no other path changes. *)
Theorem same_name_and_id_overwrite :
  ∀ now1 now2 self source1 source2 (n : Z) fs f1 f2,
    n ≠ 0 → source1 ≠ "" → source2 ≠ "" →
    fs !! source1 = Some f1 → fs !! source2 = Some f2 →
    basename source1 = basename source2 →
    ∃ dest fs1 fs2,
      upload_file OsOk now1 self source1 (Some n) fs = (Return dest, fs1) ∧
      fs1 !! dest = Some f1 ∧
      upload_file OsOk now2 self source2 (Some n) fs1 = (Return dest, fs2) ∧
      fs2 !! dest = Some f2 ∧
      ∀ p, p ≠ dest → fs2 !! p = fs !! p.
Proof.
  intros now1 now2 self source1 source2 n fs f1 f2 Hn Hne1 Hne2 Hf1 Hf2 Hbase.
  assert (destination_path now2 self source2 (Some n)
          = destination_path now1 self source1 (Some n)) as Hdest.
  { unfold destination_path, unique_tag.
    by rewrite Hbase, !decide_False by done. }
  set (dest := destination_path now1 self source1 (Some n)) in *.
  exists dest, (<[dest := f1]> fs), (<[dest := f2]> (<[dest := f1]> fs)).
  split; [exact (upload_file_copy now1 self source1 (Some n) fs f1 Hne1 Hf1)|].
  split; [by rewrite lookup_insert_eq|].
  split.
  - rewrite <- Hdest.
    apply (upload_file_copy now2 self source2 (Some n)); [done|].
    rewrite lookup_insert_ne; [done|].
    intros E. symmetry in E. by apply destination_path_fresh in E.
  - split; [by rewrite lookup_insert_eq|].
    intros p Hp. by rewrite !lookup_insert_ne.
Qed.

Lemma same_name_and_id_overwrite_witness :
  ∃ dest fs1 fs2,
    upload_file OsOk sample_clock new_manager "/tmp/photo.png" (Some 42)
      (<["/home/photo.png" := {| content := []; mtime := 0 |}]> sample_fs)
      = (Return dest, fs1) ∧
    fs1 !! dest = Some sample_file ∧
    upload_file OsOk sample_clock new_manager "/home/photo.png" (Some 42) fs1
      = (Return dest, fs2) ∧
    fs2 !! dest = Some {| content := []; mtime := 0 |} ∧
    ∀ p, p ≠ dest →
      fs2 !! p
      = (<["/home/photo.png" := {| content := []; mtime := 0 |}]> sample_fs) !! p.
Proof.
  apply (same_name_and_id_overwrite sample_clock sample_clock new_manager
           "/tmp/photo.png" "/home/photo.png" 42).
  - discriminate.
  - discriminate.
  - discriminate.
  - vm_compute. reflexivity.
  - vm_compute. reflexivity.
  - vm_compute. reflexivity.
Defined.

(** ** Properties of the planner window *)

Section week.

Lemma isValid_true date : minJd ≤ date ≤ maxJd → isValid date = true.
Proof. intros H. unfold isValid. apply andb_true_intro. split; lia. Qed.

Lemma dayOfWeek_valid date :
  minJd ≤ date ≤ maxJd → dayOfWeek date = date mod 7 + 1.
Proof. intros H. unfold dayOfWeek. by rewrite isValid_true. Qed.

Lemma addDays_valid date ndays :
  minJd ≤ date ≤ maxJd → minJd ≤ date + ndays ≤ maxJd →
  addDays date ndays = date + ndays.
Proof. intros H1 H2. unfold addDays. by rewrite !isValid_true. Qed.

(** The first day of the week of a date that has six valid days before
    it. *)
Lemma monday_of_valid date :
  minJd + 6 ≤ date ≤ maxJd → monday_of date = date - date mod 7.
Proof.
  intros H. unfold monday_of. pose proof (Z.mod_pos_bound date 7).
  rewrite dayOfWeek_valid, addDays_valid by lia. lia.
Qed.

Lemma dayOfWeek_monday_of date :
  minJd + 6 ≤ date ≤ maxJd → dayOfWeek (monday_of date) = 1.
Proof.
  intros H. rewrite monday_of_valid by done.
  pose proof (Z.mod_pos_bound date 7).
  rewrite dayOfWeek_valid by lia.
  rewrite Zminus_mod_idemp_r, Z.sub_diag. done.
Qed.

(** Every day from a Monday to the Sunday after it has that Monday as the
    first day of its week. *)
Lemma monday_of_unique monday date :
  minJd ≤ monday → date ≤ maxJd →
  dayOfWeek monday = 1 → monday ≤ date ≤ monday + 6 → monday_of date = monday.
Proof.
  intros Hmin Hmax Hm Hd. rewrite dayOfWeek_valid in Hm by lia.
  assert (monday mod 7 = 0) as Hm0 by lia.
  assert (date mod 7 = date - monday) as Hmod.
  { replace date with ((date - monday) + monday) at 1 by lia.
    rewrite <- Zplus_mod_idemp_r, Hm0, Z.add_0_r.
    apply Z.mod_small. lia. }
  unfold monday_of.
  rewrite dayOfWeek_valid, addDays_valid by lia. lia.
Qed.

Lemma monday_of_shift date n :
  minJd + 6 ≤ date ≤ maxJd → minJd + 6 ≤ date + 7 * n ≤ maxJd →
  monday_of (date + 7 * n) = monday_of date + 7 * n.
Proof.
  intros H1 H2. rewrite !monday_of_valid by done.
  replace (date + 7 * n) with (date + n * 7) by lia.
  rewrite Z_mod_plus_full. lia.
Qed.

Lemma get_tasks_for_week_readonly io a b self :
  ∃ tasks_by_date, get_tasks_for_week io a b self = (Return tasks_by_date, self).
Proof.
  destruct io; rewrite ?get_tasks_for_week_commit_fault.
  - destruct (get_tasks_for_week_spec self a b) as (m & Hrun & _). eauto.
  - rewrite get_tasks_for_week_fault. eauto.
  - destruct (get_tasks_for_week_spec self a b) as (m & Hrun & _). eauto.
Qed.

(** The grid [_update_week_display] fills from the mapping of the week
    query. *)
Lemma update_week_display_run io w :
  ∃ tasks_in_week,
    get_tasks_for_week io
      (toString_yyyy_MM_dd (monday_of (current_date (planner w))))
      (toString_yyyy_MM_dd (addDays (monday_of (current_date (planner w))) 6))
      (data_manager (planner w))
      = (Return tasks_in_week, data_manager (planner w)) ∧
    update_week_display io w =
      (Return (),
       set_week_grid w
         ((λ i, let day_date_str :=
                  toString_yyyy_MM_dd
                    (addDays (monday_of (current_date (planner w))) i) in
                (day_date_str, default [] (tasks_in_week !! day_date_str)))
            <$> seqZ 0 7)).
Proof.
  destruct (get_tasks_for_week_readonly io
              (toString_yyyy_MM_dd (monday_of (current_date (planner w))))
              (toString_yyyy_MM_dd (addDays (monday_of (current_date (planner w))) 6))
              (data_manager (planner w))) as [m Hm].
  exists m. split; [done|].
  unfold update_week_display, mbind, action_bind, bind, read_current_date,
    on_data_manager, write_week_grid. rewrite Hm.
  by destruct w as [[dm cd grid boxes] fs].
Qed.

(** The columns [_update_week_display] fills when the engine is at work. *)
Lemma week_grid_columns w :
  ∃ w',
    update_week_display IoOk w = (Return (), w') ∧
    data_manager (planner w') = data_manager (planner w) ∧
    files w' = files w ∧
    message_boxes (planner w') = message_boxes (planner w) ∧
    length (week_grid (planner w')) = 7%nat ∧
    ∀ i : nat, (i < 7)%nat →
      ∃ tasks_for_this_day,
        week_grid (planner w') !! i
          = Some (toString_yyyy_MM_dd
                    (addDays (monday_of (current_date (planner w))) (Z.of_nat i)),
                  tasks_for_this_day) ∧
        (∀ r, r ∈ tasks_for_this_day ↔
              r ∈ stored_tasks (data_manager (planner w)) ∧
              t_date r = toString_yyyy_MM_dd
                           (addDays (monday_of (current_date (planner w)))
                                    (Z.of_nat i)) ∧
              between
                (toString_yyyy_MM_dd (monday_of (current_date (planner w))))
                (toString_yyyy_MM_dd
                   (addDays (monday_of (current_date (planner w))) 6))
                (toString_yyyy_MM_dd
                   (addDays (monday_of (current_date (planner w)))
                            (Z.of_nat i)))) ∧
        StronglySorted time_ascending tasks_for_this_day.
Proof.
  destruct (update_week_display_run IoOk w) as (m & Hm & Hrun).
  eexists. split; [exact Hrun|]. unfold set_week_grid.
  cbn [planner week_grid data_manager files message_boxes].
  split; [done|]. split; [done|]. split; [done|]. split; [done|].
  destruct (get_tasks_for_week_spec (data_manager (planner w))
              (toString_yyyy_MM_dd (monday_of (current_date (planner w))))
              (toString_yyyy_MM_dd
                 (addDays (monday_of (current_date (planner w))) 6)))
    as (m' & Hm' & Hiff & Hgroups).
  rewrite Hm in Hm'. injection Hm' as <-.
  intros i Hi. rewrite list_lookup_fmap, lookup_seqZ_lt by lia.
  rewrite Z.add_0_l. simpl.
  set (day := toString_yyyy_MM_dd _).
  eexists. split; [done|].
  destruct (m !! day) as [rs|] eqn:Hrs; simpl.
  - split.
    + intros r. rewrite <- Hiff. split; [by eauto|].
      intros (rs' & Hrs' & Hr). congruence.
    + by apply (Hgroups day rs).
  - split; [|constructor].
    intros r. rewrite <- Hiff. split; [by intros ?%not_elem_of_nil|].
    intros (rs' & Hrs' & Hr). congruence.
Qed.

End week.

(** X13: [_update_week_display] fills seven columns: the days from a Monday
    to the Sunday after it, a week that holds the current date.  It changes
    nothing but the grid, and the grid is the same whichever day of that
    week is the current date.  The current date is a valid date with six
    valid days before and after it. *)
Theorem week_grid_is_monday_to_sunday :
  ∀ (io : io_status) (w : desktop),
    minJd + 6 ≤ current_date (planner w) ≤ maxJd - 6 →
    ∃ w' monday,
      update_week_display io w = (Return (), w') ∧
      data_manager (planner w') = data_manager (planner w) ∧
      current_date (planner w') = current_date (planner w) ∧
      message_boxes (planner w') = message_boxes (planner w) ∧
      files w' = files w ∧
      dayOfWeek monday = 1 ∧
      monday ≤ current_date (planner w) ≤ monday + 6 ∧
      (week_grid (planner w')).*1 =
        toString_yyyy_MM_dd <$>
          [monday; monday + 1; monday + 2; monday + 3; monday + 4; monday + 5;
           monday + 6] ∧
      ∀ date, monday ≤ date ≤ monday + 6 →
        week_grid (planner (update_week_display io (set_current_date w date)).2)
          = week_grid (planner w').
Proof.
  intros io w Hvalid.
  destruct (update_week_display_run io w) as (m & Hm & Hrun).
  eexists _, (monday_of (current_date (planner w))).
  split; [exact Hrun|]. simpl.
  assert (monday_of (current_date (planner w))
          = current_date (planner w) - current_date (planner w) mod 7)
    as Hmonday by (apply monday_of_valid; lia).
  pose proof (Z.mod_pos_bound (current_date (planner w)) 7) as Hmod.
  split; [done|]. split; [done|]. split; [done|]. split; [done|].
  split; [apply dayOfWeek_monday_of; lia|]. split; [lia|]. split.
  - rewrite !addDays_valid by lia. simpl. by rewrite Z.add_0_r.
  - intros date Hdate.
    destruct (update_week_display_run io (set_current_date w date))
      as (m' & Hm' & Hrun').
    assert (monday_of date = monday_of (current_date (planner w))) as Hmon.
    { apply monday_of_unique; [lia|lia|apply dayOfWeek_monday_of; lia|done]. }
    rewrite Hrun'. simpl in *. rewrite Hmon in Hm' |- *.
    rewrite Hm in Hm'. by injection Hm' as <-.
Qed.

Lemma week_grid_is_monday_to_sunday_witness :
  ∃ w' monday,
    update_week_display IoOk sample_desktop = (Return (), w') ∧
    dayOfWeek monday = 1 ∧
    monday ≤ 2460474 ≤ monday + 6 ∧
    (week_grid (planner w')).*1 =
      toString_yyyy_MM_dd <$>
        [monday; monday + 1; monday + 2; monday + 3; monday + 4; monday + 5;
         monday + 6].
Proof.
  destruct (week_grid_is_monday_to_sunday IoOk sample_desktop)
    as (w' & monday & Hrun & _ & _ & _ & _ & Hmonday & Hweek & Hgrid & _).
  - split; vm_compute; discriminate.
  - exists w', monday. split; [exact Hrun|]. split; [exact Hmonday|].
    split; [exact Hweek|exact Hgrid].
Defined.

(** X14: the week buttons.  Next Week moves the current date and the Monday
    of the grid forward by seven days; Previous Week right after it gives
    the window a plain refresh of the week it started from would give, and
    so does Next Week after Previous Week.  The current date is a valid
    date with two weeks of valid days around it. *)
Theorem next_and_previous_week_cancel :
  ∀ (refresh1 refresh2 : io_status) (w : desktop),
    minJd + 13 ≤ current_date (planner w) ≤ maxJd - 7 →
    (∃ w1,
       go_to_next_week refresh1 w = (Return (), w1) ∧
       current_date (planner w1) = current_date (planner w) + 7 ∧
       monday_of (current_date (planner w1))
         = monday_of (current_date (planner w)) + 7 ∧
       go_to_previous_week refresh2 w1 = update_week_display refresh2 w) ∧
    (∃ w1,
       go_to_previous_week refresh1 w = (Return (), w1) ∧
       current_date (planner w1) = current_date (planner w) - 7 ∧
       monday_of (current_date (planner w1))
         = monday_of (current_date (planner w)) - 7 ∧
       go_to_next_week refresh2 w1 = update_week_display refresh2 w).
Proof.
  intros refresh1 refresh2 w Hvalid.
  assert (Hmove : ∀ n (w0 : desktop),
            (write_current_date (addDays (current_date (planner w0)) n);;
             update_week_display refresh2) w0
            = update_week_display refresh2
                (set_current_date w0 (addDays (current_date (planner w0)) n)))
    by done.
  assert (Hback : ∀ n (w0 : desktop) grid,
            minJd ≤ current_date (planner w0) ≤ maxJd →
            minJd ≤ current_date (planner w0) + n ≤ maxJd →
            update_week_display refresh2
              (set_current_date
                 (set_week_grid
                    (set_current_date w0 (addDays (current_date (planner w0)) n))
                    grid)
                 (addDays (addDays (current_date (planner w0)) n) (- n)))
            = update_week_display refresh2 w0).
  { intros n w0 grid Hcd Hn.
    destruct (update_week_display_run refresh2 w0) as (m & Hm & ->).
    match goal with
    | |- update_week_display _ ?w1 = _ =>
        destruct (update_week_display_run refresh2 w1) as (m' & Hm' & ->)
    end.
    simpl in *.
    rewrite (addDays_valid (current_date (planner w0)) n) in * by lia.
    rewrite (addDays_valid (current_date (planner w0) + n) (- n)) in * by lia.
    replace (current_date (planner w0) + n + - n)
      with (current_date (planner w0)) in * by lia.
    rewrite Hm in Hm'. injection Hm' as <-.
    by destruct w0 as [[dm cd g boxes] fs]. }
  split.
  - destruct (update_week_display_run refresh1
                (set_current_date w (addDays (current_date (planner w)) 7)))
      as (m & _ & Hrun).
    eexists. split; [exact Hrun|]. simpl.
    split; [apply addDays_valid; lia|].
    split.
    + rewrite addDays_valid by lia.
      apply (monday_of_shift (current_date (planner w)) 1); lia.
    + unfold go_to_previous_week, mbind, action_bind, bind, read_current_date;
        simpl.
      apply (Hback 7 w); lia.
  - destruct (update_week_display_run refresh1
                (set_current_date w (addDays (current_date (planner w)) (-7))))
      as (m & _ & Hrun).
    eexists. split; [exact Hrun|]. simpl.
    split; [rewrite addDays_valid; lia|].
    split.
    + rewrite addDays_valid by lia.
      pose proof (monday_of_shift (current_date (planner w)) (-1)) as H.
      replace (current_date (planner w) + 7 * -1)
        with (current_date (planner w) + -7) in H by lia.
      rewrite H; lia.
    + unfold go_to_next_week, mbind, action_bind, bind, read_current_date;
        simpl.
      apply (Hback (-7) w); lia.
Qed.

Lemma next_and_previous_week_cancel_witness :
  ∃ w1,
    go_to_next_week IoOk sample_desktop = (Return (), w1) ∧
    current_date (planner w1) = current_date (planner sample_desktop) + 7 ∧
    go_to_previous_week IoOk w1 = update_week_display IoOk sample_desktop.
Proof.
  destruct (next_and_previous_week_cancel IoOk IoOk sample_desktop)
    as [(w1 & Hrun & Hdate & _ & Hback) _].
  - split; vm_compute; discriminate.
  - exists w1. split; [exact Hrun|]. split; [exact Hdate|exact Hback].
Defined.

(** X15: what the columns show.  After [_update_week_display] with the
    engine at work, the column of a day lists a task exactly when the task
    is stored under the text of that day and this text sorts between the
    texts of the Monday and the Sunday of the week, and it lists the tasks
    in ascending order of time; when the engine fails every column is
    empty. *)
Theorem week_grid_shows_stored_tasks :
  ∀ (w : desktop),
    (∃ w',
       update_week_display IoOk w = (Return (), w') ∧
       ∀ (i : nat) day tasks_for_this_day,
         week_grid (planner w') !! i = Some (day, tasks_for_this_day) →
         day = toString_yyyy_MM_dd
                 (addDays (monday_of (current_date (planner w))) (Z.of_nat i)) ∧
         (∀ r, r ∈ tasks_for_this_day ↔
               r ∈ stored_tasks (data_manager (planner w)) ∧
               t_date r = day ∧
               between
                 (toString_yyyy_MM_dd (monday_of (current_date (planner w))))
                 (toString_yyyy_MM_dd
                    (addDays (monday_of (current_date (planner w))) 6))
                 day) ∧
         StronglySorted time_ascending tasks_for_this_day) ∧
    (∃ w',
       update_week_display IoFault w = (Return (), w') ∧
       Forall (λ column, column.2 = []) (week_grid (planner w'))).
Proof.
  intros w. split.
  - destruct (week_grid_columns w) as (w' & Hrun & _ & _ & _ & Hlen & Hcols).
    exists w'. split; [exact Hrun|].
    intros i day tasks_for_this_day Hi.
    assert (i < 7)%nat as Hlt by (rewrite <- Hlen; by eapply lookup_lt_Some).
    destruct (Hcols i Hlt) as (tasks' & Hi' & Hiff & Hsorted).
    rewrite Hi in Hi'. injection Hi' as -> ->. done.
  - destruct (update_week_display_run IoFault w) as (m & Hm & Hrun).
    eexists. split; [exact Hrun|]. unfold set_week_grid. cbn [planner week_grid].
    rewrite get_tasks_for_week_fault in Hm. injection Hm as <-.
    apply Forall_fmap, Forall_forall. intros k _. simpl. by rewrite lookup_empty.
Qed.

Lemma week_grid_shows_stored_tasks_witness :
  ∃ w',
    update_week_display IoOk
      (set_data_manager sample_desktop planner_with_two_tasks)
      = (Return (), w') ∧
    week_grid (planner w') !! 0%nat
      = Some ("2024-06-10",
              [Task 2 "2024-06-10" "Standup" (Some "") (Some "08:00") (Some "")
                    (Some "") false;
               Task 1 "2024-06-10" "Dentist" (Some "") (Some "09:30") (Some "")
                    (Some "") false]).
Proof.
  destruct (week_grid_shows_stored_tasks
              (set_data_manager sample_desktop planner_with_two_tasks))
    as [(w' & Hrun & _) _].
  exists w'. split; [exact Hrun|].
  assert (w' = (update_week_display IoOk
                  (set_data_manager sample_desktop planner_with_two_tasks)).2)
    as -> by (by rewrite Hrun).
  vm_compute. reflexivity.
Defined.

Section dialogs.

Lemma bind_Return {S A B} (m : action S A) (k : A → action S B) s a s' :
  m s = (Return a, s') → (m ≫= k) s = k a s'.
Proof. intros H. unfold mbind, action_bind, bind. by rewrite H. Qed.

Lemma on_data_manager_run {A} (m : action DataManager A) w r dm :
  m (data_manager (planner w)) = (r, dm) →
  on_data_manager m w = (r, set_data_manager w dm).
Proof. intros H. unfold on_data_manager. by rewrite H. Qed.

Lemma on_files_run os now source_path task_id w r fs :
  upload_file os now (data_manager (planner w)) source_path task_id (files w)
    = (r, fs) →
  on_files os now source_path task_id w
    = (r, {| planner := planner w; files := fs |}).
Proof. intros H. unfold on_files. by rewrite H. Qed.

Lemma if_true_Some value s : if_true value = Some s ↔ value = Some s ∧ s ≠ "".
Proof.
  destruct value as [v|]; simpl.
  - case_decide as Hv.
    + split; [done|]. intros [[= ->] ?]. done.
    + split; [by intros [= ->]|]. by intros [[= ->] _].
  - split; [done|]. by intros [? _].
Qed.

Lemma select_file_original dialog file_path :
  original_file_path (select_file dialog file_path) = original_file_path dialog.
Proof. unfold select_file. by case_decide. Qed.

(** Only the last outcome of the Browse button counts. *)
Lemma dialog_after_snoc dialog choices file_path form closed :
  dialog_after dialog
    {| browsed := choices ++ [file_path]; entered := form;
       closed_with := closed |}
  = select_file
      (dialog_after dialog
         {| browsed := choices; entered := form; closed_with := closed |})
      file_path.
Proof. unfold dialog_after. simpl. by rewrite foldl_app. Qed.

Lemma dialog_after_original dialog session :
  original_file_path (dialog_after dialog session) = original_file_path dialog.
Proof.
  unfold dialog_after. revert dialog.
  induction (browsed session) as [|c cs IH]; intros dialog; [done|].
  simpl. by rewrite IH, select_file_original.
Qed.

Lemma dialog_after_last dialog session file_path :
  last (browsed session) = Some file_path →
  file_to_upload_path (dialog_after dialog session) = Some file_path ∧
  file_path_label (dialog_after dialog session)
    = if decide (file_path = "") then "No file selected."
      else basename file_path.
Proof.
  destruct session as [choices form closed]. simpl. intros Hlast.
  apply last_Some in Hlast as [cs ->].
  rewrite dialog_after_snoc. unfold select_file.
  case_decide as Hpath; [by rewrite Hpath|done].
Qed.

End dialogs.

(** X16: the attachment of the task dialog.  The original path is never
    touched by browsing.  When the last file dialog gave a file,
    [get_task_data] returns that file and the label shows its name; when
    the last file dialog was cancelled, whatever had been picked before,
    [get_task_data] returns the original path and the label reads "No file
    selected."; a dialog never browsed returns the original path. *)
Theorem task_dialog_keeps_last_choice :
  ∀ (task_data : option task) (session : dialog_session),
    let dialog := dialog_after (TaskDialog_init task_data) session in
    let data := get_task_data dialog (entered session) in
    original_file_path dialog = original_file_path (TaskDialog_init task_data) ∧
    (∀ file_path, last (browsed session) = Some file_path → file_path ≠ "" →
       td_file_path data = Some file_path ∧
       file_path_label dialog = basename file_path) ∧
    (last (browsed session) = Some "" →
       td_file_path data = original_file_path (TaskDialog_init task_data) ∧
       file_path_label dialog = "No file selected.") ∧
    (browsed session = [] →
       td_file_path data = original_file_path (TaskDialog_init task_data)).
Proof.
  intros task_data session dialog data. subst dialog data.
  split; [apply dialog_after_original|]. split; [|split].
  - intros file_path Hlast Hne.
    destruct (dialog_after_last (TaskDialog_init task_data) session file_path
                Hlast) as [Hup Hlabel].
    unfold get_task_data. simpl. rewrite Hup, Hlabel. simpl.
    by rewrite !decide_False.
  - intros Hlast.
    destruct (dialog_after_last (TaskDialog_init task_data) session ""
                Hlast) as [Hup Hlabel].
    unfold get_task_data. simpl. rewrite Hup, Hlabel. simpl.
    by rewrite dialog_after_original.
  - intros Hnil. unfold get_task_data, dialog_after. rewrite Hnil. simpl.
    by destruct task_data.
Qed.

Lemma task_dialog_keeps_last_choice_witness :
  td_file_path
    (get_task_data
       (dialog_after
          (TaskDialog_init
             (Some (Task 1 "2024-06-10" "Dentist" (Some "") (Some "09:30")
                         (Some "") (Some "/app/uploads/xray_1.png") false)))
          {| browsed := ["/tmp/photo.png"; ""];
             entered := {| name_text := "Dentist"; description_text := "";
                           time_text := "09:30"; location_text := "" |};
             closed_with := Accepted |})
       {| name_text := "Dentist"; description_text := "";
          time_text := "09:30"; location_text := "" |})
  = Some "/app/uploads/xray_1.png".
Proof.
  destruct (task_dialog_keeps_last_choice
              (Some (Task 1 "2024-06-10" "Dentist" (Some "") (Some "09:30")
                          (Some "") (Some "/app/uploads/xray_1.png") false))
              {| browsed := ["/tmp/photo.png"; ""];
                 entered := {| name_text := "Dentist"; description_text := "";
                               time_text := "09:30"; location_text := "" |};
                 closed_with := Accepted |})
    as (_ & _ & H & _).
  destruct H as [H _]; [reflexivity|]. exact H.
Defined.

Section handlers.

Lemma upload_file_total os now self source_path task_id fs :
  ∃ dest fs', upload_file os now self source_path task_id fs = (Return dest, fs').
Proof.
  destruct (upload_file_cases os now self source_path task_id fs)
    as [->|(f & _ & _ & [[_ ->]|(written & written_at & _ & ->)])]; eauto.
Qed.

Lemma update_week_display_returns io w :
  ∃ w', update_week_display io w = (Return (), w') ∧
        data_manager (planner w') = data_manager (planner w) ∧
        files w' = files w ∧
        message_boxes (planner w') = message_boxes (planner w) ∧
        current_date (planner w') = current_date (planner w).
Proof.
  destruct (update_week_display_run io w) as (m & _ & Hrun).
  eexists. split; [exact Hrun|done].
Qed.

Lemma run_ops_app calls1 calls2 self :
  run_ops (calls1 ++ calls2) self = run_ops calls2 (run_ops calls1 self).
Proof. unfold run_ops. apply foldl_app. Qed.

Lemma reached_by_calls_refl w w' :
  data_manager (planner w') = data_manager (planner w) →
  reached_by_calls w w'.
Proof. intros H. exists []. by split. Qed.

Lemma reached_by_calls_trans w1 w2 w3 :
  reached_by_calls w1 w2 → reached_by_calls w2 w3 → reached_by_calls w1 w3.
Proof.
  intros (calls1 & H1 & Hn1) (calls2 & H2 & Hn2).
  exists (calls1 ++ calls2)%list. split.
  - by rewrite run_ops_app, <- H1.
  - by apply Forall_app.
Qed.

Lemma via_calls_bind {A B} (m : action desktop A) (k : A → action desktop B) :
  via_calls m → (∀ a, via_calls (k a)) → via_calls (m ≫= k).
Proof.
  intros Hm Hk w. specialize (Hm w).
  unfold mbind, action_bind, bind.
  destruct (m w) as [[a|e] w1]; simpl in *; [|done].
  eapply reached_by_calls_trans; [done|]. apply Hk.
Qed.

Lemma via_calls_same_manager {A} (m : action desktop A) :
  (∀ w, data_manager (planner (m w).2) = data_manager (planner w)) →
  via_calls m.
Proof. intros H w. by apply reached_by_calls_refl. Qed.

Lemma via_calls_ret {A} (a : A) : via_calls (mret a).
Proof. by apply via_calls_same_manager. Qed.

Lemma via_calls_show box : via_calls (show box).
Proof. by apply via_calls_same_manager. Qed.

Lemma via_calls_on_files os now source_path task_id :
  via_calls (on_files os now source_path task_id).
Proof.
  apply via_calls_same_manager. intros w. unfold on_files.
  by destruct (upload_file _ _ _ _ _ _).
Qed.

(** A call of a method of the manager. *)
Lemma via_calls_on_data_manager {A} (m : action DataManager A) call :
  (∀ self, (m self).2 = run_op self call) → name_given call.2 →
  via_calls (on_data_manager m).
Proof.
  intros Hm Hname w. exists [call]. split; [|by constructor].
  unfold on_data_manager. specialize (Hm (data_manager (planner w))).
  destruct (m (data_manager (planner w))) as [r dm]. simpl in *. by subst.
Qed.

Lemma via_calls_update_week_display io : via_calls (update_week_display io).
Proof.
  apply via_calls_same_manager. intros w.
  destruct (update_week_display_returns io w) as (w' & Hrun & Hdm & _).
  by rewrite Hrun.
Qed.

(** Every handler reaches the store through calls of the storage layer
    none of which hands it an empty name. *)
Lemma handle_via_calls event : via_calls (handle event).
Proof.
  destruct event as [env date_str session|env task_id current session|
                     io refresh task_id is_completed|io refresh task_id yes|
                     refresh|refresh|]; simpl.
  - (* the add dialog *)
    unfold open_add_task_dialog.
    destruct (closed_with session); [|apply via_calls_ret].
    set (data := get_task_data _ _).
    case_decide as Hname; [apply via_calls_show|].
    apply via_calls_bind.
    { destruct (if_true (td_file_path data));
        [apply via_calls_on_files|apply via_calls_ret]. }
    intros uploaded. apply via_calls_bind.
    { apply (via_calls_on_data_manager _
               (add_insert env,
                AddTask (Some date_str) (Some (td_name data))
                        (Some (td_description data)) (Some (td_time data))
                        (Some (td_location data)) (Some uploaded)));
        [done|].
      unfold name_given. simpl. intros [= E]. by apply Hname. }
    intros [rowid|]; [|apply via_calls_show].
    apply via_calls_bind; [|intros _; apply via_calls_update_week_display].
    destruct (if_true (td_file_path data)); [|apply via_calls_ret].
    apply via_calls_bind; [apply via_calls_on_files|].
    intros final. case_decide; [|apply via_calls_ret].
    apply via_calls_bind; [|intros _; apply via_calls_show].
    apply (via_calls_on_data_manager _
             (add_update env,
              UpdateTask rowid (Some (td_name data))
                         (Some (td_description data)) (Some (td_time data))
                         (Some (td_location data)) (Some final)));
      [done|].
    unfold name_given. simpl. intros [= E]. by apply Hname.
  - (* the edit dialog *)
    unfold open_edit_task_dialog.
    destruct (closed_with session); [|apply via_calls_ret].
    set (dialog := dialog_after _ _).
    set (data := get_task_data _ _).
    case_decide as Hname; [apply via_calls_show|].
    apply via_calls_bind.
    { destruct (if_true (file_to_upload_path dialog)).
      - apply via_calls_bind; [apply via_calls_on_files|].
        intros uploaded_path. apply via_calls_ret.
      - destruct (_ && _); apply via_calls_ret. }
    intros final.
    apply via_calls_bind; [|intros _; apply via_calls_update_week_display].
    apply (via_calls_on_data_manager _
             (edit_update env,
              UpdateTask task_id (Some (td_name data))
                         (Some (td_description data)) (Some (td_time data))
                         (Some (td_location data)) final));
      [done|].
    unfold name_given. simpl. intros [= E]. by apply Hname.
  - (* the checkbox *)
    unfold toggle_task_completion.
    apply via_calls_bind; [|intros _; apply via_calls_update_week_display].
    by apply (via_calls_on_data_manager _
                (io, UpdateTaskStatus task_id is_completed)).
  - (* the delete button *)
    unfold confirm_delete_task. destruct yes; [|apply via_calls_ret].
    apply via_calls_bind; [|intros _; apply via_calls_update_week_display].
    by apply (via_calls_on_data_manager _ (io, DeleteTask task_id)).
  - unfold go_to_previous_week.
    apply via_calls_bind; [by apply via_calls_same_manager|]. intros current.
    apply via_calls_bind; [by apply via_calls_same_manager|]. intros _.
    apply via_calls_update_week_display.
  - unfold go_to_next_week.
    apply via_calls_bind; [by apply via_calls_same_manager|]. intros current.
    apply via_calls_bind; [by apply via_calls_same_manager|]. intros _.
    apply via_calls_update_week_display.
  - unfold closeEvent.
    by apply (via_calls_on_data_manager _ (IoOk, Close)).
Qed.

(** A series of events, however it ends. *)
Lemma handle_all_via_calls events w :
  reached_by_calls w (handle_all events w).2.
Proof.
  revert w. induction events as [|event events IH]; intros w.
  - by apply reached_by_calls_refl.
  - simpl. pose proof (handle_via_calls event w) as Hevent.
    destruct (handle event w) as [[[]|e] w1]; simpl in *; [|done].
    eapply reached_by_calls_trans; [done|]. apply IH.
Qed.

End handlers.

Section dialog_runs.

(** The source the add dialog hands over: the file of the last Browse, if
    that one was not cancelled. *)
Lemma add_dialog_source session :
  if_true (td_file_path
             (get_task_data (dialog_after (TaskDialog_init None) session)
                            (entered session)))
  = match last (browsed session) with
    | Some file_path => if_true (Some file_path)
    | None => None
    end.
Proof.
  destruct (last (browsed session)) as [file_path|] eqn:Hlast.
  - destruct (dialog_after_last (TaskDialog_init None) session file_path Hlast)
      as [Hup _].
    unfold get_task_data. cbn [td_file_path]. rewrite Hup.
    destruct (if_true (Some file_path)) as [p|] eqn:Hp.
    + apply if_true_Some in Hp as [[= ->] Hne]. simpl. by rewrite decide_False.
    + by rewrite dialog_after_original.
  - apply last_None in Hlast. unfold get_task_data, dialog_after.
    by rewrite Hlast.
Qed.

Lemma update_rows_last {A} (key : A → Z) f rowid (rows : list A) row :
  (∀ r, r ∈ rows → key r ≠ rowid) → key row = rowid →
  update_rows key f rowid (rows ++ [row]) = (rows ++ [f row])%list.
Proof.
  intros Hold Hrow. unfold update_rows. rewrite fmap_app.
  fold (update_rows key f rowid rows). rewrite update_rows_unknown by done.
  simpl. by rewrite decide_True.
Qed.

Lemma destination_path_same_dir now self1 self2 source_path task_id :
  upload_dir self1 = upload_dir self2 →
  destination_path now self1 source_path task_id
    = destination_path now self2 source_path task_id.
Proof. intros H. unfold destination_path. by rewrite H. Qed.

Lemma add_task_fails io date name description time location file_path self :
  io = IoFault ∨ conn self = None →
  add_task io date name description time location file_path self
    = (Return None, self).
Proof.
  intros H. unfold add_task. destruct (conn self) as [db|] eqn:Hc; [|done].
  destruct H as [->|?]; [|done].
  unfold try_except_sqlite3, on_conn, mbind, action_bind, bind; simpl.
  by rewrite (set_conn_same _ _ Hc).
Qed.

(** What [update_task] with a name does to the rows, with or without a
    connection. *)
Lemma update_task_rows self task_id name description time location file_path :
  int64 task_id →
  ∃ self',
    update_task IoOk task_id (Some name) description time location file_path
                self = (Return (), self') ∧
    upload_dir self' = upload_dir self ∧
    stored_tasks self' =
      (λ r, if decide (t_id r = task_id)
            then with_details r name description time location file_path
            else r) <$> stored_tasks self.
Proof.
  intros Hid. destruct (conn self) as [db|] eqn:Hc.
  - eexists. split; [by apply update_task_run|].
    unfold stored_tasks. by rewrite Hc.
  - exists self. unfold update_task, stored_tasks. by rewrite Hc.
Qed.

(** The identity AUTOINCREMENT picks is positive. *)
Lemma next_rowid_positive {A} (key : A → Z) (rows : list A) seq :
  0 < next_rowid key rows seq.
Proof.
  unfold next_rowid.
  assert (0 ≤ largest_rowid key rows); [|lia].
  induction rows as [|r rows IH]; simpl; lia.
Qed.

Lemma next_rowid_int64 {A} (key : A → Z) (rows : list A) seq :
  next_rowid key rows seq ≤ max_rowid → int64 (next_rowid key rows seq).
Proof.
  intros H. pose proof (next_rowid_positive key rows seq).
  unfold int64, min_rowid. lia.
Qed.

End dialog_runs.

(** X17: the window keeps the names non-empty.  After any series of
    events, whether every handler returns or one of them raises and ends
    the series, every stored task has a non-empty name if that was so
    before, and the identities are pairwise distinct and bounded by the
    counter if they were. *)
Theorem window_keeps_store_invariants :
  ∀ (events : list gui_event) (w : desktop),
    (names_nonempty (data_manager (planner w)) →
     names_nonempty (data_manager (planner (handle_all events w).2))) ∧
    (well_formed (data_manager (planner w)) →
     well_formed (data_manager (planner (handle_all events w).2))).
Proof.
  intros events w.
  destruct (handle_all_via_calls events w) as (calls & -> & Hcalls). split.
  - intros H. by apply run_ops_names_nonempty.
  - intros H. by apply run_ops_well_formed.
Qed.

(** A task is added, renamed in the edit dialog and ticked; a second add
    dialog is accepted without a name. *)
Lemma window_keeps_store_invariants_witness :
  names_nonempty
    (data_manager (planner
       (handle_all
          [AddTaskDialog
             {| add_first_copy := OsOk; add_first_clock := sample_clock;
                add_insert := IoOk; add_second_copy := OsOk;
                add_second_clock := sample_clock; add_update := IoOk;
                add_refresh := IoOk |}
             "2024-06-12"
             {| browsed := [];
                entered := {| name_text := "Dentist"; description_text := "";
                              time_text := "09:30"; location_text := "" |};
                closed_with := Accepted |};
           EditTaskDialog
             {| edit_copy := OsOk; edit_clock := sample_clock;
                edit_update := IoOk; edit_refresh := IoOk |}
             1
             (Task 1 "2024-06-12" "Dentist" (Some "") (Some "09:30") (Some "")
                   (Some "") false)
             {| browsed := [];
                entered := {| name_text := "Dentist, moved";
                              description_text := "";
                              time_text := "10:00"; location_text := "" |};
                closed_with := Accepted |};
           ToggleCompletion IoOk IoOk 1 true;
           AddTaskDialog
             {| add_first_copy := OsOk; add_first_clock := sample_clock;
                add_insert := IoOk; add_second_copy := OsOk;
                add_second_clock := sample_clock; add_update := IoOk;
                add_refresh := IoOk |}
             "2024-06-13"
             {| browsed := [];
                entered := {| name_text := ""; description_text := "";
                              time_text := "09:30"; location_text := "" |};
                closed_with := Accepted |}]
          sample_desktop).2)) ∧
  stored_tasks
    (data_manager (planner
       (handle_all
          [AddTaskDialog
             {| add_first_copy := OsOk; add_first_clock := sample_clock;
                add_insert := IoOk; add_second_copy := OsOk;
                add_second_clock := sample_clock; add_update := IoOk;
                add_refresh := IoOk |}
             "2024-06-12"
             {| browsed := [];
                entered := {| name_text := "Dentist"; description_text := "";
                              time_text := "09:30"; location_text := "" |};
                closed_with := Accepted |};
           EditTaskDialog
             {| edit_copy := OsOk; edit_clock := sample_clock;
                edit_update := IoOk; edit_refresh := IoOk |}
             1
             (Task 1 "2024-06-12" "Dentist" (Some "") (Some "09:30") (Some "")
                   (Some "") false)
             {| browsed := [];
                entered := {| name_text := "Dentist, moved";
                              description_text := "";
                              time_text := "10:00"; location_text := "" |};
                closed_with := Accepted |};
           ToggleCompletion IoOk IoOk 1 true;
           AddTaskDialog
             {| add_first_copy := OsOk; add_first_clock := sample_clock;
                add_insert := IoOk; add_second_copy := OsOk;
                add_second_clock := sample_clock; add_update := IoOk;
                add_refresh := IoOk |}
             "2024-06-13"
             {| browsed := [];
                entered := {| name_text := ""; description_text := "";
                              time_text := "09:30"; location_text := "" |};
                closed_with := Accepted |}]
          sample_desktop).2))
  = [Task 1 "2024-06-12" "Dentist, moved" (Some "") (Some "10:00") (Some "")
          (Some "") true].
Proof.
  split.
  - apply window_keeps_store_invariants. constructor.
  - vm_compute. reflexivity.
Defined.

(** X18: a dialog that is cancelled changes nothing at all, and a dialog
    accepted without a name only raises the warning "Task Name cannot be
    empty.": nothing is stored, updated or copied, for a new task and for an
    edit alike. *)
Theorem dialog_without_name_changes_nothing :
  ∀ (w : desktop) (session : dialog_session),
    (closed_with session = Rejected →
     (∀ env date_str,
        open_add_task_dialog env date_str session w = (Return (), w)) ∧
     (∀ env task_id current_task_data,
        open_edit_task_dialog env task_id current_task_data session w
          = (Return (), w))) ∧
    (closed_with session = Accepted → name_text (entered session) = "" →
     ∃ w',
       data_manager (planner w') = data_manager (planner w) ∧
       files w' = files w ∧
       week_grid (planner w') = week_grid (planner w) ∧
       message_boxes (planner w')
         = (message_boxes (planner w) ++
            [warning "Input Error" "Task Name cannot be empty."])%list ∧
       (∀ env date_str,
          open_add_task_dialog env date_str session w = (Return (), w')) ∧
       (∀ env task_id current_task_data,
          open_edit_task_dialog env task_id current_task_data session w
            = (Return (), w'))).
Proof.
  intros w session. split.
  - intros Hrej. unfold open_add_task_dialog, open_edit_task_dialog.
    by rewrite Hrej.
  - intros Hacc Hname.
    exists (show (warning "Input Error" "Task Name cannot be empty.") w).2.
    split; [done|]. split; [done|]. split; [done|]. split; [done|]. split.
    + intros env date_str. unfold open_add_task_dialog.
      rewrite Hacc. cbn [td_name get_task_data]. by rewrite decide_True.
    + intros env task_id current. unfold open_edit_task_dialog.
      rewrite Hacc. cbn [td_name get_task_data]. by rewrite decide_True.
Qed.

Lemma dialog_without_name_changes_nothing_witness :
  ∃ w',
    data_manager (planner w') = data_manager (planner sample_desktop) ∧
    files w' = files sample_desktop ∧
    open_add_task_dialog
      {| add_first_copy := OsOk; add_first_clock := sample_clock;
         add_insert := IoOk; add_second_copy := OsOk;
         add_second_clock := sample_clock; add_update := IoOk;
         add_refresh := IoOk |}
      "2024-06-12"
      {| browsed := ["/tmp/photo.png"];
         entered := {| name_text := ""; description_text := "x-ray";
                       time_text := "09:30"; location_text := "" |};
         closed_with := Accepted |}
      sample_desktop = (Return (), w').
Proof.
  destruct (dialog_without_name_changes_nothing sample_desktop
              {| browsed := ["/tmp/photo.png"];
                 entered := {| name_text := ""; description_text := "x-ray";
                               time_text := "09:30"; location_text := "" |};
                 closed_with := Accepted |}) as [_ H].
  destruct H as (w' & Hdm & Hfiles & _ & _ & Hadd & _); [reflexivity..|].
  exists w'. split; [exact Hdm|]. split; [exact Hfiles|]. apply Hadd.
Defined.

(** X19: a task added without attachment.  When the dialog is accepted
    with a name and no file, on an open connection with the engine at work,
    exactly one row is appended: the date of the column, the texts of the
    dialog, an empty file path, not completed.  No file is touched and no
    message box raised.  If the date is the text of a column of the week
    shown and sorts between the texts of its Monday and Sunday, the
    refreshed column lists the new task. *)
Theorem add_dialog_stores_the_task :
  ∀ (env : add_environment) (date_str : string) (session : dialog_session)
    (w : desktop) (db : database),
    closed_with session = Accepted →
    name_text (entered session) ≠ "" →
    last (browsed session) = None ∨ last (browsed session) = Some "" →
    conn (data_manager (planner w)) = Some db →
    next_rowid t_id (tasks db) (tasks_seq db) ≤ max_rowid →
    add_insert env = IoOk →
    ∃ rowid w',
      open_add_task_dialog env date_str session w = (Return (), w') ∧
      let row := Task rowid date_str (name_text (entered session))
                      (Some (description_text (entered session)))
                      (Some (time_text (entered session)))
                      (Some (location_text (entered session)))
                      (Some "") false in
      stored_tasks (data_manager (planner w'))
        = (stored_tasks (data_manager (planner w)) ++ [row])%list ∧
      (∀ r, r ∈ stored_tasks (data_manager (planner w)) → t_id r < rowid) ∧
      files w' = files w ∧
      message_boxes (planner w') = message_boxes (planner w) ∧
      ∀ i : nat,
        add_refresh env = IoOk → (i < 7)%nat →
        date_str = toString_yyyy_MM_dd
                     (addDays (monday_of (current_date (planner w)))
                              (Z.of_nat i)) →
        between (toString_yyyy_MM_dd (monday_of (current_date (planner w))))
                (toString_yyyy_MM_dd
                   (addDays (monday_of (current_date (planner w))) 6))
                date_str →
        ∃ tasks_for_this_day,
          week_grid (planner w') !! i = Some (date_str, tasks_for_this_day) ∧
          row ∈ tasks_for_this_day.
Proof.
  intros env date_str session w db Hacc Hname Hlast Hc Hmax Hio.
  set (rowid := next_rowid t_id (tasks db) (tasks_seq db)).
  set (row := Task rowid date_str (name_text (entered session))
                   (Some (description_text (entered session)))
                   (Some (time_text (entered session)))
                   (Some (location_text (entered session))) (Some "") false).
  pose proof (add_task_run (data_manager (planner w)) db date_str
                (name_text (entered session))
                (Some (description_text (entered session)))
                (Some (time_text (entered session)))
                (Some (location_text (entered session))) (Some "") Hc Hmax)
    as Hadd. cbv zeta in Hadd. fold rowid row in Hadd.
  set (dm1 := set_conn _ _) in Hadd.
  set (w1 := set_data_manager w dm1).
  assert (Hrows : stored_tasks dm1
                  = (stored_tasks (data_manager (planner w)) ++ [row])%list).
  { unfold stored_tasks. by rewrite Hc. }
  assert (Hopen : open_add_task_dialog env date_str session w
                  = update_week_display (add_refresh env) w1).
  { unfold open_add_task_dialog. rewrite Hacc.
    pose proof (add_dialog_source session) as Hsrc.
    set (data := get_task_data _ _) in *.
    assert (if_true (td_file_path data) = None) as Hnone.
    { rewrite Hsrc. by destruct Hlast as [-> | ->]. }
    change (td_name data) with (name_text (entered session)).
    rewrite decide_False by done. rewrite Hnone, Hio.
    unfold mbind, action_bind, bind, mret, action_ret, ret. cbv beta iota.
    by erewrite on_data_manager_run by exact Hadd. }
  destruct (update_week_display_returns (add_refresh env) w1)
    as (w' & Hrun & Hdm' & Hfiles' & Hboxes' & _).
  exists rowid, w'. rewrite Hopen. split; [exact Hrun|]. cbv zeta.
  rewrite Hdm'. split; [exact Hrows|]. split.
  { intros r. unfold stored_tasks. rewrite Hc. apply next_rowid_fresh. }
  split; [done|]. split; [done|].
  intros i Hrefresh Hi Hdate Hbetween.
  rewrite Hrefresh in Hrun.
  destruct (week_grid_columns w1)
    as (w'' & Hrun'' & _ & _ & _ & _ & Hcols).
  rewrite Hrun in Hrun''. injection Hrun'' as <-.
  destruct (Hcols i Hi) as (tasks_for_this_day & Hcol & Hiff & _).
  change (current_date (planner w1)) with (current_date (planner w))
    in Hcol, Hiff.
  rewrite <- Hdate in Hcol, Hiff.
  exists tasks_for_this_day. split; [exact Hcol|].
  apply Hiff. split; [|done].
  change (data_manager (planner w1)) with dm1. rewrite Hrows.
  apply elem_of_app. right. by apply list_elem_of_singleton.
Qed.

Lemma add_dialog_stores_the_task_witness :
  ∃ rowid w',
    open_add_task_dialog
      {| add_first_copy := OsOk; add_first_clock := sample_clock;
         add_insert := IoOk; add_second_copy := OsOk;
         add_second_clock := sample_clock; add_update := IoOk;
         add_refresh := IoOk |}
      "2024-06-12"
      {| browsed := [];
         entered := {| name_text := "Dentist"; description_text := "";
                       time_text := "09:30"; location_text := "" |};
         closed_with := Accepted |}
      sample_desktop = (Return (), w') ∧
    stored_tasks (data_manager (planner w'))
      = [Task rowid "2024-06-12" "Dentist" (Some "") (Some "09:30") (Some "")
              (Some "") false] ∧
    ∃ tasks_for_this_day,
      week_grid (planner w') !! 2%nat = Some ("2024-06-12", tasks_for_this_day) ∧
      Task rowid "2024-06-12" "Dentist" (Some "") (Some "09:30") (Some "")
           (Some "") false ∈ tasks_for_this_day.
Proof.
  destruct (add_dialog_stores_the_task
      {| add_first_copy := OsOk; add_first_clock := sample_clock;
         add_insert := IoOk; add_second_copy := OsOk;
         add_second_clock := sample_clock; add_update := IoOk;
         add_refresh := IoOk |}
      "2024-06-12"
      {| browsed := [];
         entered := {| name_text := "Dentist"; description_text := "";
                       time_text := "09:30"; location_text := "" |};
         closed_with := Accepted |}
      sample_desktop empty_database)
    as (rowid & w' & Hrun & Hrows & _ & _ & _ & Hgrid).
  - reflexivity.
  - discriminate.
  - by left.
  - reflexivity.
  - vm_compute. discriminate.
  - reflexivity.
  - exists rowid, w'. split; [exact Hrun|]. split; [exact Hrows|].
    apply (Hgrid 2%nat).
    + reflexivity.
    + lia.
    + vm_compute. reflexivity.
    + vm_compute. split; exact I.
Defined.

Section attachments.

Context (env : add_environment) (date_str : string) (session : dialog_session)
        (w : desktop) (source : string) (f : file).
Hypothesis Hacc : closed_with session = Accepted.
Hypothesis Hname : name_text (entered session) ≠ "".
Hypothesis Hlast : last (browsed session) = Some source.
Hypothesis Hsource : source ≠ "".
Hypothesis Hfile : files w !! source = Some f.
Hypothesis Hfirst : add_first_copy env = OsOk.

(** The add dialog with an attachment, up to the insertion: the file is
    copied under the timestamp name, then [add_task] is called with that
    path. *)
Lemma open_add_task_dialog_first_copy :
  let ts_path := destination_path (add_first_clock env)
                   (data_manager (planner w)) source None in
  let w1 := {| planner := planner w; files := <[ts_path := f]> (files w) |} in
  open_add_task_dialog env date_str session w =
    (task_id ←
       on_data_manager
         (add_task (add_insert env) (Some date_str)
                   (Some (name_text (entered session)))
                   (Some (description_text (entered session)))
                   (Some (time_text (entered session)))
                   (Some (location_text (entered session)))
                   (Some ts_path));
     match task_id with
     | Some rowid =>
         (final_uploaded_path ←
            on_files (add_second_copy env) (add_second_clock env) source
                     (Some rowid);
          if decide (final_uploaded_path ≠ ts_path) then
            on_data_manager
              (update_task (add_update env) rowid
                           (Some (name_text (entered session)))
                           (Some (description_text (entered session)))
                           (Some (time_text (entered session)))
                           (Some (location_text (entered session)))
                           (Some final_uploaded_path));;
            show (information "File Upload"
                    ("File saved as: " ++ basename final_uploaded_path))
          else mret ());;
         update_week_display (add_refresh env)
     | None =>
         show (critical "Database Error" "Failed to add task to database.")
     end) w1.
Proof.
  intros ts_path w1. unfold open_add_task_dialog. rewrite Hacc.
  pose proof (add_dialog_source session) as Hsrc.
  set (data := get_task_data _ _) in *.
  assert (if_true (td_file_path data) = Some source) as Hsome.
  { rewrite Hsrc, Hlast. simpl. by rewrite decide_False. }
  change (td_name data) with (name_text (entered session)).
  change (td_description data) with (description_text (entered session)).
  change (td_time data) with (time_text (entered session)).
  change (td_location data) with (location_text (entered session)).
  rewrite decide_False by done. rewrite Hsome, Hfirst.
  unfold mbind at 1, action_bind at 1, bind at 1.
  erewrite on_files_run
    by (apply (upload_file_copy _ _ _ _ _ f); [exact Hsource|exact Hfile]).
  done.
Qed.

End attachments.

(** X20: a task added with an attachment, everything at work.  The file is
    copied twice, under the timestamp name and under the name with the new
    identity; the stored row carries the path with the identity; the copy
    under the timestamp name is left in the upload directory; the source is
    as it was. *)
Theorem add_dialog_with_attachment :
  ∀ (env : add_environment) (date_str : string) (session : dialog_session)
    (w : desktop) (source : string) (f : file) (db : database),
    closed_with session = Accepted →
    name_text (entered session) ≠ "" →
    last (browsed session) = Some source → source ≠ "" →
    files w !! source = Some f →
    conn (data_manager (planner w)) = Some db →
    next_rowid t_id (tasks db) (tasks_seq db) ≤ max_rowid →
    add_first_copy env = OsOk → add_insert env = IoOk →
    add_second_copy env = OsOk → add_update env = IoOk →
    ∃ rowid w',
      open_add_task_dialog env date_str session w = (Return (), w') ∧
      let ts_path := destination_path (add_first_clock env)
                       (data_manager (planner w)) source None in
      let id_path := destination_path (add_second_clock env)
                       (data_manager (planner w)) source (Some rowid) in
      stored_tasks (data_manager (planner w'))
        = (stored_tasks (data_manager (planner w)) ++
           [Task rowid date_str (name_text (entered session))
                 (Some (description_text (entered session)))
                 (Some (time_text (entered session)))
                 (Some (location_text (entered session)))
                 (Some id_path) false])%list ∧
      files w' = <[id_path := f]> (<[ts_path := f]> (files w)) ∧
      files w' !! id_path = Some f ∧
      files w' !! ts_path = Some f ∧
      files w' !! source = Some f ∧
      message_boxes (planner w')
        = (message_boxes (planner w) ++
           if decide (id_path = ts_path) then []
           else [information "File Upload"
                   ("File saved as: " ++ basename id_path)])%list.
Proof.
  intros env date_str session w source f db Hacc Hname Hlast Hsource Hfile Hc
    Hmax Hfirst Hinsert Hsecond Hupdate.
  set (rowid := next_rowid t_id (tasks db) (tasks_seq db)).
  set (ts_path := destination_path (add_first_clock env)
                    (data_manager (planner w)) source None).
  set (id_path := destination_path (add_second_clock env)
                    (data_manager (planner w)) source (Some rowid)).
  set (name := name_text (entered session)).
  set (description := Some (description_text (entered session))).
  set (time := Some (time_text (entered session))).
  set (location := Some (location_text (entered session))).
  pose proof (add_task_run (data_manager (planner w)) db date_str name
                description time location (Some ts_path) Hc Hmax) as Hadd.
  cbv zeta in Hadd. fold rowid in Hadd.
  set (row_ts := Task rowid date_str name description time location
                      (Some ts_path) false) in Hadd.
  set (dm1 := set_conn _ _) in Hadd.
  assert (Hrows1 : stored_tasks dm1
                   = (stored_tasks (data_manager (planner w)) ++ [row_ts])%list).
  { unfold stored_tasks. by rewrite Hc. }
  assert (Hfresh : ∀ r, r ∈ stored_tasks (data_manager (planner w)) →
                        t_id r ≠ rowid).
  { intros r. unfold stored_tasks. rewrite Hc. intros Hr.
    apply (next_rowid_fresh t_id _ (tasks_seq db)) in Hr. fold rowid in Hr. lia. }
  set (fs1 := <[ts_path := f]> (files w)).
  assert (Hsrc1 : fs1 !! source = Some f).
  { unfold fs1. rewrite lookup_insert_ne; [done|].
    intros E. symmetry in E. by apply destination_path_fresh in E. }
  assert (Hcopy2 : upload_file OsOk (add_second_clock env) dm1 source
                     (Some rowid) fs1
                   = (Return id_path, <[id_path := f]> fs1)).
  { rewrite (upload_file_copy _ _ _ _ _ f) by done. cbv zeta.
    by rewrite (destination_path_same_dir _ dm1 (data_manager (planner w))). }
  assert (Hsrc2 : <[id_path := f]> fs1 !! source = Some f).
  { rewrite lookup_insert_ne; [done|].
    intros E. symmetry in E. by apply destination_path_fresh in E. }
  assert (Hts2 : <[id_path := f]> fs1 !! ts_path = Some f).
  { destruct (decide (id_path = ts_path)) as [->|Hne].
    - by rewrite lookup_insert_eq.
    - rewrite lookup_insert_ne by done. unfold fs1. by rewrite lookup_insert_eq. }
  rewrite (open_add_task_dialog_first_copy env date_str session w source f)
    by done.
  cbv zeta. fold ts_path fs1 name description time location.
  rewrite Hinsert, Hsecond, Hupdate.
  unfold mbind at 1, action_bind at 1, bind at 1.
  erewrite on_data_manager_run by exact Hadd. cbv beta iota.
  unfold mbind at 1, action_bind at 1, bind at 1.
  unfold mbind at 1, action_bind at 1, bind at 1.
  erewrite on_files_run by exact Hcopy2. cbv beta iota.
  destruct (decide (id_path ≠ ts_path)) as [Hne|Heq].
  - destruct (update_task_rows dm1 rowid name description time location
                (Some id_path)) as (dm2 & Hupd & _ & Hrows2);
      [by apply next_rowid_int64|].
    unfold mbind at 1, action_bind at 1, bind at 1.
    erewrite on_data_manager_run by exact Hupd. unfold show. cbv beta iota.
    match goal with
    | |- context [update_week_display ?io ?w3] =>
        destruct (update_week_display_returns io w3)
          as (w' & Hrun & Hdm' & Hfiles' & Hboxes' & _)
    end.
    exists rowid, w'. rewrite Hrun. split; [done|].
    rewrite Hdm', Hfiles', Hboxes'. simpl.
    split.
    { rewrite Hrows2, Hrows1, fmap_app. simpl.
      rewrite decide_True by done. f_equal.
      fold (update_rows t_id
              (λ r, with_details r name description time location (Some id_path))
              rowid (stored_tasks (data_manager (planner w)))).
      by rewrite update_rows_unknown. }
    split; [done|]. split; [by rewrite lookup_insert_eq|].
    split; [done|]. split; [done|].
    by rewrite decide_False.
  - apply dec_stable in Heq.
    unfold mret, action_ret, ret. cbv beta iota.
    match goal with
    | |- context [update_week_display ?io ?w3] =>
        destruct (update_week_display_returns io w3)
          as (w' & Hrun & Hdm' & Hfiles' & Hboxes' & _)
    end.
    exists rowid, w'. rewrite Hrun. split; [done|].
    rewrite Hdm', Hfiles', Hboxes'. simpl. fold ts_path id_path.
    split; [by rewrite Hrows1; unfold row_ts; rewrite Heq|].
    split; [done|]. split; [by rewrite lookup_insert_eq|].
    split; [done|]. split; [done|].
    by rewrite decide_True, app_nil_r.
Qed.

Lemma add_dialog_with_attachment_witness :
  ∃ rowid w',
    open_add_task_dialog
      {| add_first_copy := OsOk; add_first_clock := sample_clock;
         add_insert := IoOk; add_second_copy := OsOk;
         add_second_clock := sample_clock; add_update := IoOk;
         add_refresh := IoOk |}
      "2024-06-12"
      {| browsed := ["/tmp/photo.png"];
         entered := {| name_text := "Dentist"; description_text := "x-ray";
                       time_text := "09:30"; location_text := "" |};
         closed_with := Accepted |}
      sample_desktop = (Return (), w') ∧
    files w' !! destination_path sample_clock new_manager "/tmp/photo.png"
                                 (Some rowid) = Some sample_file ∧
    files w' !! destination_path sample_clock new_manager "/tmp/photo.png" None
      = Some sample_file.
Proof.
  destruct (add_dialog_with_attachment
      {| add_first_copy := OsOk; add_first_clock := sample_clock;
         add_insert := IoOk; add_second_copy := OsOk;
         add_second_clock := sample_clock; add_update := IoOk;
         add_refresh := IoOk |}
      "2024-06-12"
      {| browsed := ["/tmp/photo.png"];
         entered := {| name_text := "Dentist"; description_text := "x-ray";
                       time_text := "09:30"; location_text := "" |};
         closed_with := Accepted |}
      sample_desktop "/tmp/photo.png" sample_file empty_database)
    as (rowid & w' & Hrun & _ & _ & Hid & Hts & _).
  - reflexivity.
  - discriminate.
  - reflexivity.
  - discriminate.
  - vm_compute. reflexivity.
  - reflexivity.
  - vm_compute. discriminate.
  - reflexivity.
  - reflexivity.
  - reflexivity.
  - reflexivity.
  - exists rowid, w'. split; [exact Hrun|]. split; [exact Hid|exact Hts].
Defined.

(** X21: when the insertion fails.  If [add_task] gives no identity after
    a file was picked, the box "Failed to add task to database." is raised
    and the grid is not refreshed, while the copy made under the timestamp
    name stays in the upload directory.  The store is unchanged when the
    statement failed or there is no connection; when it is the commit that
    failed, the task is in the table all the same, with the path of that
    copy. *)
Theorem add_dialog_insert_fails :
  ∀ (env : add_environment) (date_str : string) (session : dialog_session)
    (w : desktop) (source : string) (f : file),
    closed_with session = Accepted →
    name_text (entered session) ≠ "" →
    last (browsed session) = Some source → source ≠ "" →
    files w !! source = Some f →
    add_first_copy env = OsOk →
    add_insert env ≠ IoOk ∨ conn (data_manager (planner w)) = None →
    ∃ w',
      let ts_path := destination_path (add_first_clock env)
                       (data_manager (planner w)) source None in
      open_add_task_dialog env date_str session w = (Return (), w') ∧
      week_grid (planner w') = week_grid (planner w) ∧
      message_boxes (planner w')
        = (message_boxes (planner w) ++
           [critical "Database Error" "Failed to add task to database."])%list ∧
      files w' = <[ts_path := f]> (files w) ∧
      (add_insert env = IoFault ∨ conn (data_manager (planner w)) = None →
       data_manager (planner w') = data_manager (planner w)) ∧
      (∀ db, add_insert env = CommitFault →
             conn (data_manager (planner w)) = Some db →
             next_rowid t_id (tasks db) (tasks_seq db) ≤ max_rowid →
             stored_tasks (data_manager (planner w'))
               = (stored_tasks (data_manager (planner w)) ++
                  [Task (next_rowid t_id (tasks db) (tasks_seq db)) date_str
                        (name_text (entered session))
                        (Some (description_text (entered session)))
                        (Some (time_text (entered session)))
                        (Some (location_text (entered session)))
                        (Some ts_path) false])%list).
Proof.
  intros env date_str session w source f Hacc Hname Hlast Hsource Hfile Hfirst
    Hfail.
  set (ts_path := destination_path (add_first_clock env)
                    (data_manager (planner w)) source None).
  set (name := name_text (entered session)).
  set (description := Some (description_text (entered session))).
  set (time := Some (time_text (entered session))).
  set (location := Some (location_text (entered session))).
  assert (Hadd : ∃ dm,
            add_task (add_insert env) (Some date_str) (Some name) description
                     time location (Some ts_path) (data_manager (planner w))
              = (Return None, dm) ∧
            (add_insert env = IoFault ∨ conn (data_manager (planner w)) = None →
             dm = data_manager (planner w)) ∧
            (∀ db, add_insert env = CommitFault →
                   conn (data_manager (planner w)) = Some db →
                   next_rowid t_id (tasks db) (tasks_seq db) ≤ max_rowid →
                   stored_tasks dm
                     = (stored_tasks (data_manager (planner w)) ++
                        [Task (next_rowid t_id (tasks db) (tasks_seq db))
                              date_str name description time location
                              (Some ts_path) false])%list)).
  { destruct (add_task_cases (add_insert env) (Some date_str) (Some name)
                description time location (Some ts_path)
                (data_manager (planner w)))
      as [Hnone|(db & d & n & Hc & [= <-] & [= <-] & Hio & Hmax & Hrun)].
    - exists (data_manager (planner w)). split; [done|]. split; [done|].
      intros db Hcommit Hc Hmax.
      rewrite Hcommit, (add_task_commit_fault _ db) in Hnone by done.
      injection Hnone as Hnone. exfalso.
      apply (f_equal stored_tasks) in Hnone. unfold stored_tasks in Hnone.
      rewrite Hc in Hnone. simpl in Hnone.
      apply (f_equal length) in Hnone. rewrite length_app in Hnone.
      simpl in Hnone. lia.
    - cbv zeta in Hrun.
      destruct Hfail as [Hfail|Hfail]; [|congruence].
      destruct (add_insert env) eqn:Hinsert; [done|done|].
      eexists. split; [exact Hrun|]. split.
      + intros [?|?]; congruence.
      + intros db' _ Hc' _. rewrite Hc in Hc'. injection Hc' as <-.
        unfold stored_tasks. by rewrite Hc. }
  destruct Hadd as (dm & Hadd & Hsame & Hcommit).
  exists (show (critical "Database Error" "Failed to add task to database.")
               (set_data_manager
                  {| planner := planner w;
                     files := <[ts_path := f]> (files w) |} dm)).2.
  cbv zeta.
  rewrite (open_add_task_dialog_first_copy env date_str session w source f)
    by done.
  cbv zeta. fold ts_path name description time location.
  unfold mbind at 1, action_bind at 1, bind at 1.
  erewrite on_data_manager_run by exact Hadd.
  cbv beta iota. split; [done|]. split; [done|]. split; [done|].
  split; [done|]. split; [exact Hsame|exact Hcommit].
Qed.

Lemma add_dialog_insert_fails_witness :
  ∃ w',
    open_add_task_dialog
      {| add_first_copy := OsOk; add_first_clock := sample_clock;
         add_insert := CommitFault; add_second_copy := OsOk;
         add_second_clock := sample_clock; add_update := IoOk;
         add_refresh := IoOk |}
      "2024-06-12"
      {| browsed := ["/tmp/photo.png"];
         entered := {| name_text := "Dentist"; description_text := "x-ray";
                       time_text := "09:30"; location_text := "" |};
         closed_with := Accepted |}
      sample_desktop = (Return (), w') ∧
    message_boxes (planner w')
      = [critical "Database Error" "Failed to add task to database."] ∧
    stored_tasks (data_manager (planner w'))
      = [Task 1 "2024-06-12" "Dentist" (Some "x-ray") (Some "09:30") (Some "")
              (Some "/app/uploads/photo_20240610090500.png") false].
Proof.
  destruct (add_dialog_insert_fails
      {| add_first_copy := OsOk; add_first_clock := sample_clock;
         add_insert := CommitFault; add_second_copy := OsOk;
         add_second_clock := sample_clock; add_update := IoOk;
         add_refresh := IoOk |}
      "2024-06-12"
      {| browsed := ["/tmp/photo.png"];
         entered := {| name_text := "Dentist"; description_text := "x-ray";
                       time_text := "09:30"; location_text := "" |};
         closed_with := Accepted |}
      sample_desktop "/tmp/photo.png" sample_file)
    as (w' & Hrun & _ & Hboxes & _ & _ & Hrows).
  - reflexivity.
  - discriminate.
  - reflexivity.
  - discriminate.
  - vm_compute. reflexivity.
  - reflexivity.
  - left. discriminate.
  - exists w'. split; [exact Hrun|]. split; [exact Hboxes|].
    apply (Hrows empty_database); [reflexivity|reflexivity|].
    vm_compute. discriminate.
Defined.

(** X22: when the second copy fails.  If the copy under the name with the
    identity fails after the task was stored with the timestamp copy, the
    handler overwrites the stored file path with the empty string and
    raises "File saved as: " with no name: the task is left without its
    attachment although the timestamp copy is in the upload directory, and
    a copy that failed midway leaves what it wrote under the name with the
    identity. *)
Theorem add_dialog_second_copy_fails :
  ∀ (env : add_environment) (date_str : string) (session : dialog_session)
    (w : desktop) (source : string) (f : file) (db : database),
    closed_with session = Accepted →
    name_text (entered session) ≠ "" →
    last (browsed session) = Some source → source ≠ "" →
    files w !! source = Some f →
    conn (data_manager (planner w)) = Some db →
    next_rowid t_id (tasks db) (tasks_seq db) ≤ max_rowid →
    add_first_copy env = OsOk → add_insert env = IoOk →
    add_second_copy env ≠ OsOk → add_update env = IoOk →
    ∃ rowid w',
      open_add_task_dialog env date_str session w = (Return (), w') ∧
      let ts_path := destination_path (add_first_clock env)
                       (data_manager (planner w)) source None in
      let id_path := destination_path (add_second_clock env)
                       (data_manager (planner w)) source (Some rowid) in
      stored_tasks (data_manager (planner w'))
        = (stored_tasks (data_manager (planner w)) ++
           [Task rowid date_str (name_text (entered session))
                 (Some (description_text (entered session)))
                 (Some (time_text (entered session)))
                 (Some (location_text (entered session)))
                 (Some "") false])%list ∧
      files w'
        = match add_second_copy env with
          | OsFaultMidway written written_at =>
              <[id_path := {| content := take written (content f);
                              mtime := written_at |}]>
                (<[ts_path := f]> (files w))
          | _ => <[ts_path := f]> (files w)
          end ∧
      files w' !! source = Some f ∧
      message_boxes (planner w')
        = (message_boxes (planner w) ++
           [information "File Upload" "File saved as: "])%list.
Proof.
  intros env date_str session w source f db Hacc Hname Hlast Hsource Hfile Hc
    Hmax Hfirst Hinsert Hsecond Hupdate.
  set (rowid := next_rowid t_id (tasks db) (tasks_seq db)).
  set (ts_path := destination_path (add_first_clock env)
                    (data_manager (planner w)) source None).
  set (id_path := destination_path (add_second_clock env)
                    (data_manager (planner w)) source (Some rowid)).
  set (name := name_text (entered session)).
  set (description := Some (description_text (entered session))).
  set (time := Some (time_text (entered session))).
  set (location := Some (location_text (entered session))).
  pose proof (add_task_run (data_manager (planner w)) db date_str name
                description time location (Some ts_path) Hc Hmax) as Hadd.
  cbv zeta in Hadd. fold rowid in Hadd.
  set (row_ts := Task rowid date_str name description time location
                      (Some ts_path) false) in Hadd.
  set (dm1 := set_conn _ _) in Hadd.
  assert (Hrows1 : stored_tasks dm1
                   = (stored_tasks (data_manager (planner w)) ++ [row_ts])%list).
  { unfold stored_tasks. by rewrite Hc. }
  assert (Hfresh : ∀ r, r ∈ stored_tasks (data_manager (planner w)) →
                        t_id r ≠ rowid).
  { intros r. unfold stored_tasks. rewrite Hc. intros Hr.
    apply (next_rowid_fresh t_id _ (tasks_seq db)) in Hr. fold rowid in Hr. lia. }
  set (fs1 := <[ts_path := f]> (files w)).
  assert (Hsrc1 : fs1 !! source = Some f).
  { unfold fs1. rewrite lookup_insert_ne; [done|].
    intros E. symmetry in E. by apply destination_path_fresh in E. }
  set (fs2 := match add_second_copy env with
              | OsFaultMidway written written_at =>
                  <[id_path := {| content := take written (content f);
                                  mtime := written_at |}]> fs1
              | _ => fs1
              end).
  assert (Hcopy2 : upload_file (add_second_copy env) (add_second_clock env)
                     dm1 source (Some rowid) fs1 = (Return "", fs2)).
  { unfold fs2. destruct (add_second_copy env) as [| |written written_at];
      [done|apply upload_file_os_fault|].
    rewrite (upload_file_midway _ _ _ _ _ _ _ f) by done. cbv zeta.
    by rewrite (destination_path_same_dir _ dm1 (data_manager (planner w))). }
  assert (Hsrc2 : fs2 !! source = Some f).
  { unfold fs2. destruct (add_second_copy env); try done.
    rewrite lookup_insert_ne; [done|].
    intros E. symmetry in E. by apply destination_path_fresh in E. }
  rewrite (open_add_task_dialog_first_copy env date_str session w source f)
    by done.
  cbv zeta. fold ts_path fs1 name description time location.
  rewrite Hinsert, Hupdate.
  unfold mbind at 1, action_bind at 1, bind at 1.
  erewrite on_data_manager_run by exact Hadd. cbv beta iota.
  unfold mbind at 1, action_bind at 1, bind at 1.
  unfold mbind at 1, action_bind at 1, bind at 1.
  erewrite on_files_run by exact Hcopy2. cbv beta iota.
  rewrite decide_True
    by (intros E; symmetry in E; by apply destination_path_nonempty in E).
  destruct (update_task_rows dm1 rowid name description time location
              (Some "")) as (dm2 & Hupd & _ & Hrows2);
    [by apply next_rowid_int64|].
  unfold mbind at 1, action_bind at 1, bind at 1.
  erewrite on_data_manager_run by exact Hupd. unfold show. cbv beta iota.
  match goal with
  | |- context [update_week_display ?io ?w3] =>
      destruct (update_week_display_returns io w3)
        as (w' & Hrun & Hdm' & Hfiles' & Hboxes' & _)
  end.
  exists rowid, w'. rewrite Hrun. split; [done|].
  rewrite Hdm', Hfiles', Hboxes'. simpl. fold ts_path id_path fs1.
  split; [|done].
  rewrite Hrows2, Hrows1, fmap_app. simpl.
  rewrite decide_True by done. f_equal.
  fold (update_rows t_id
          (λ r, with_details r name description time location (Some ""))
          rowid (stored_tasks (data_manager (planner w)))).
  by rewrite update_rows_unknown.
Qed.

Lemma add_dialog_second_copy_fails_witness :
  ∃ rowid w',
    open_add_task_dialog
      {| add_first_copy := OsOk; add_first_clock := sample_clock;
         add_insert := IoOk; add_second_copy := OsFaultMidway 2 1718010400;
         add_second_clock := sample_clock; add_update := IoOk;
         add_refresh := IoOk |}
      "2024-06-12"
      {| browsed := ["/tmp/photo.png"];
         entered := {| name_text := "Dentist"; description_text := "x-ray";
                       time_text := "09:30"; location_text := "" |};
         closed_with := Accepted |}
      sample_desktop = (Return (), w') ∧
    stored_tasks (data_manager (planner w'))
      = [Task rowid "2024-06-12" "Dentist" (Some "x-ray") (Some "09:30")
              (Some "") (Some "") false] ∧
    files w' !! "/tmp/photo.png" = Some sample_file.
Proof.
  destruct (add_dialog_second_copy_fails
      {| add_first_copy := OsOk; add_first_clock := sample_clock;
         add_insert := IoOk; add_second_copy := OsFaultMidway 2 1718010400;
         add_second_clock := sample_clock; add_update := IoOk;
         add_refresh := IoOk |}
      "2024-06-12"
      {| browsed := ["/tmp/photo.png"];
         entered := {| name_text := "Dentist"; description_text := "x-ray";
                       time_text := "09:30"; location_text := "" |};
         closed_with := Accepted |}
      sample_desktop "/tmp/photo.png" sample_file empty_database)
    as (rowid & w' & Hrun & Hrows & _ & Hsource & _).
  - reflexivity.
  - discriminate.
  - reflexivity.
  - discriminate.
  - vm_compute. reflexivity.
  - reflexivity.
  - vm_compute. discriminate.
  - reflexivity.
  - reflexivity.
  - discriminate.
  - reflexivity.
  - exists rowid, w'. split; [exact Hrun|]. split; [exact Hrows|exact Hsource].
Defined.

Section edit_dialog.

(** The end of the edit dialog: the update with the path settled on and
    the refresh. *)
Lemma edit_dialog_update refresh task_id name description time location
    final_file_path w :
  int64 task_id →
  ∃ w',
    (on_data_manager
       (update_task IoOk task_id (Some name) description time location
                    final_file_path);;
     update_week_display refresh) w = (Return (), w') ∧
    stored_tasks (data_manager (planner w'))
      = (λ r, if decide (t_id r = task_id)
              then with_details r name description time location
                                final_file_path
              else r) <$> stored_tasks (data_manager (planner w)) ∧
    files w' = files w ∧
    message_boxes (planner w') = message_boxes (planner w).
Proof.
  intros Hid.
  destruct (update_task_rows (data_manager (planner w)) task_id name
              description time location final_file_path)
    as (dm & Hupd & _ & Hrows); [done|].
  unfold mbind at 1, action_bind at 1, bind at 1.
  erewrite on_data_manager_run by exact Hupd. cbv beta iota.
  match goal with
  | |- context [update_week_display ?io ?w3] =>
      destruct (update_week_display_returns io w3)
        as (w' & Hrun & Hdm' & Hfiles' & Hboxes' & _)
  end.
  exists w'. rewrite Hrun, Hdm', Hfiles', Hboxes'. simpl.
  by rewrite Hrows.
Qed.

(** What the edit dialog knows of the attachment when no file is picked at
    the end. *)
Lemma edit_dialog_no_upload current session :
  (∀ file_path, last (browsed session) = Some file_path → file_path = "") →
  let dialog := dialog_after (TaskDialog_init (Some current)) session in
  if_true (file_to_upload_path dialog) = None ∧
  file_path_label dialog
    = match last (browsed session), if_true (t_file_path current) with
      | None, Some path => basename path
      | _, _ => "No file selected."
      end.
Proof.
  intros Hlast dialog. subst dialog.
  destruct (last (browsed session)) as [file_path|] eqn:Hl.
  - rewrite (Hlast file_path eq_refl) in Hl.
    destruct (dialog_after_last (TaskDialog_init (Some current)) session ""
                Hl) as [-> ->]. done.
  - apply last_None in Hl. unfold dialog_after. rewrite Hl. by simpl.
Qed.

End edit_dialog.

(** X23: an edit without a new file.  When the edit dialog of a task, its
    identity in the range of SQLite's integers, is accepted with a name and
    no file picked at the end, the row of [task_id] takes the texts of the
    form; its date, identity and completion flag stay, the
    other rows and the files stay, and no box is raised.  The stored path
    stays as the widget had it, except that it becomes the empty string
    when the task had an attachment and the last Browse was cancelled, or
    when the attachment's file name is the very text "No file selected.". *)
Theorem edit_dialog_without_new_file :
  ∀ (env : edit_environment) (task_id : Z) (current : task)
    (session : dialog_session) (w : desktop),
    int64 task_id →
    closed_with session = Accepted →
    name_text (entered session) ≠ "" →
    (∀ file_path, last (browsed session) = Some file_path → file_path = "") →
    edit_update env = IoOk →
    let final_file_path :=
      match last (browsed session), if_true (t_file_path current) with
      | Some _, Some _ => Some ""
      | None, Some path =>
          if decide (basename path = "No file selected.") then Some ""
          else Some path
      | _, None => t_file_path current
      end in
    ∃ w',
      open_edit_task_dialog env task_id current session w = (Return (), w') ∧
      stored_tasks (data_manager (planner w'))
        = (λ r, if decide (t_id r = task_id)
                then Task (t_id r) (t_date r) (name_text (entered session))
                          (Some (description_text (entered session)))
                          (Some (time_text (entered session)))
                          (Some (location_text (entered session)))
                          final_file_path (t_is_completed r)
                else r) <$> stored_tasks (data_manager (planner w)) ∧
      files w' = files w ∧
      message_boxes (planner w') = message_boxes (planner w).
Proof.
  intros env task_id current session w Hid Hacc Hname Hlast Hio
    final_file_path.
  destruct (edit_dialog_no_upload current session Hlast) as [Hup Hlabel].
  unfold open_edit_task_dialog. rewrite Hacc.
  change (td_name (get_task_data _ _)) with (name_text (entered session)).
  change (td_description (get_task_data _ _))
    with (description_text (entered session)).
  change (td_time (get_task_data _ _)) with (time_text (entered session)).
  change (td_location (get_task_data _ _))
    with (location_text (entered session)).
  cbv zeta. rewrite decide_False by done. rewrite Hup, Hlabel, Hio.
  assert (Hfinal :
    (if bool_decide
          (match last (browsed session), if_true (t_file_path current) with
           | None, Some path => basename path
           | _, _ => "No file selected."
           end = "No file selected.")
        && bool_decide (is_Some (if_true (t_file_path current)))
     then mret (Some "") else mret (t_file_path current))
    = (mret final_file_path : action desktop (option string))).
  { subst final_file_path.
    destruct (last (browsed session)) as [c|];
      destruct (if_true (t_file_path current)) as [path|] eqn:Hpath.
    - rewrite bool_decide_eq_true_2 by done.
      by rewrite bool_decide_eq_true_2 by eauto.
    - rewrite (bool_decide_eq_false_2 (is_Some None)) by (by intros [? ?]).
      by rewrite andb_false_r.
    - apply if_true_Some in Hpath as [Hcur _].
      case_decide as Hb.
      + rewrite bool_decide_eq_true_2 by done.
        by rewrite bool_decide_eq_true_2 by eauto.
      + rewrite bool_decide_eq_false_2 by done. simpl. by rewrite Hcur.
    - rewrite (bool_decide_eq_false_2 (is_Some None)) by (by intros [? ?]).
      by rewrite andb_false_r. }
  rewrite Hfinal.
  unfold mbind at 1, action_bind at 1, bind at 1.
  unfold mret at 1, action_ret at 1, ret at 1. cbv beta iota.
  by apply edit_dialog_update.
Qed.

Lemma edit_dialog_without_new_file_witness :
  ∃ w',
    open_edit_task_dialog
      {| edit_copy := OsOk; edit_clock := sample_clock; edit_update := IoOk;
         edit_refresh := IoOk |}
      1
      (Task 1 "2024-06-10" "Dentist" (Some "") (Some "09:30") (Some "")
            (Some "/app/uploads/xray_1.png") false)
      {| browsed := ["/tmp/photo.png"; ""];
         entered := {| name_text := "Dentist at 10"; description_text := "";
                       time_text := "10:00"; location_text := "" |};
         closed_with := Accepted |}
      sample_desktop = (Return (), w') ∧
    files w' = files sample_desktop.
Proof.
  destruct (edit_dialog_without_new_file
      {| edit_copy := OsOk; edit_clock := sample_clock; edit_update := IoOk;
         edit_refresh := IoOk |}
      1
      (Task 1 "2024-06-10" "Dentist" (Some "") (Some "09:30") (Some "")
            (Some "/app/uploads/xray_1.png") false)
      {| browsed := ["/tmp/photo.png"; ""];
         entered := {| name_text := "Dentist at 10"; description_text := "";
                       time_text := "10:00"; location_text := "" |};
         closed_with := Accepted |}
      sample_desktop)
    as (w' & Hrun & _ & Hfiles & _).
  - split; vm_compute; discriminate.
  - reflexivity.
  - discriminate.
  - intros file_path [= <-]. reflexivity.
  - reflexivity.
  - exists w'. split; [exact Hrun|exact Hfiles].
Defined.

(** X24: an edit with a new file.  When the last Browse of an accepted edit
    dialog gave a file, that file is copied under the name with the task's
    identity and the row of [task_id] takes the texts of the form and the
    path of the copy; if the file is not there or the copy fails, the row
    takes the empty string as its path, so that the attachment the task had
    is no longer referred to, and a copy that failed midway leaves what it
    wrote under that name.  The identity is in the range of SQLite's
    integers. *)
Theorem edit_dialog_with_new_file :
  ∀ (env : edit_environment) (task_id : Z) (current : task)
    (session : dialog_session) (w : desktop) (source : string),
    int64 task_id →
    closed_with session = Accepted →
    name_text (entered session) ≠ "" →
    last (browsed session) = Some source → source ≠ "" →
    edit_update env = IoOk →
    let dest := destination_path (edit_clock env) (data_manager (planner w))
                                 source (Some task_id) in
    let copied := match edit_copy env, files w !! source with
                  | OsOk, Some f => Some f
                  | _, _ => None
                  end in
    ∃ w',
      open_edit_task_dialog env task_id current session w = (Return (), w') ∧
      stored_tasks (data_manager (planner w'))
        = (λ r, if decide (t_id r = task_id)
                then Task (t_id r) (t_date r) (name_text (entered session))
                          (Some (description_text (entered session)))
                          (Some (time_text (entered session)))
                          (Some (location_text (entered session)))
                          (Some (match copied with Some _ => dest | None => "" end))
                          (t_is_completed r)
                else r) <$> stored_tasks (data_manager (planner w)) ∧
      files w' = match edit_copy env, files w !! source with
                 | OsOk, Some f => <[dest := f]> (files w)
                 | OsFaultMidway written written_at, Some f =>
                     <[dest := {| content := take written (content f);
                                  mtime := written_at |}]> (files w)
                 | _, _ => files w
                 end ∧
      files w' !! source = files w !! source ∧
      message_boxes (planner w') = message_boxes (planner w).
Proof.
  intros env task_id current session w source Hid Hacc Hname Hlast Hsource Hio
    dest copied.
  destruct (dialog_after_last (TaskDialog_init (Some current)) session source
              Hlast) as [Hup _].
  unfold open_edit_task_dialog. rewrite Hacc.
  change (td_name (get_task_data _ _)) with (name_text (entered session)).
  change (td_description (get_task_data _ _))
    with (description_text (entered session)).
  change (td_time (get_task_data _ _)) with (time_text (entered session)).
  change (td_location (get_task_data _ _))
    with (location_text (entered session)).
  cbv zeta. rewrite decide_False by done. rewrite Hup, Hio.
  replace (if_true (Some source)) with (Some source)
    by (simpl; by rewrite decide_False).
  set (fs' := match edit_copy env, files w !! source with
              | OsOk, Some f => <[dest := f]> (files w)
              | OsFaultMidway written written_at, Some f =>
                  <[dest := {| content := take written (content f);
                               mtime := written_at |}]> (files w)
              | _, _ => files w
              end).
  assert (Hcopy :
    upload_file (edit_copy env) (edit_clock env) (data_manager (planner w))
                source (Some task_id) (files w)
    = (Return (match copied with Some _ => dest | None => "" end), fs')).
  { subst copied fs'. destruct (files w !! source) as [f|] eqn:Hf.
    - destruct (edit_copy env) as [| |written written_at].
      + by rewrite (upload_file_copy _ _ _ _ _ f).
      + apply upload_file_os_fault.
      + by rewrite (upload_file_midway _ _ _ _ _ _ _ f).
    - rewrite upload_file_missing by (by right). by destruct (edit_copy env). }
  assert (Hsrc : fs' !! source = files w !! source).
  { assert (dest ≠ source) as Hne
      by (intros E; symmetry in E; by apply destination_path_fresh in E).
    subst fs'.
    destruct (edit_copy env), (files w !! source) as [f|] eqn:Hf; try done;
      by rewrite lookup_insert_ne. }
  unfold mbind at 1, action_bind at 1, bind at 1.
  unfold mbind at 1, action_bind at 1, bind at 1.
  erewrite on_files_run by exact Hcopy. cbv beta iota.
  unfold mret at 1, action_ret at 1, ret at 1. cbv beta iota.
  match goal with
  | |- context [(_ ;; _) ?w1] =>
      destruct (edit_dialog_update (edit_refresh env) task_id
                  (name_text (entered session))
                  (Some (description_text (entered session)))
                  (Some (time_text (entered session)))
                  (Some (location_text (entered session)))
                  (Some (match copied with Some _ => dest | None => "" end))
                  w1 Hid)
        as (w' & Hrun & Hrows & Hfiles & Hboxes)
  end.
  exists w'. split; [exact Hrun|]. by rewrite Hrows, Hfiles, Hboxes.
Qed.

Lemma edit_dialog_with_new_file_witness :
  ∃ w',
    open_edit_task_dialog
      {| edit_copy := OsOk; edit_clock := sample_clock; edit_update := IoOk;
         edit_refresh := IoOk |}
      1
      (Task 1 "2024-06-10" "Dentist" (Some "") (Some "09:30") (Some "")
            (Some "") false)
      {| browsed := ["/tmp/photo.png"];
         entered := {| name_text := "Dentist"; description_text := "x-ray";
                       time_text := "09:30"; location_text := "" |};
         closed_with := Accepted |}
      (set_data_manager sample_desktop planner_with_two_tasks)
      = (Return (), w') ∧
    stored_tasks (data_manager (planner w'))
      = [Task 1 "2024-06-10" "Dentist" (Some "x-ray") (Some "09:30") (Some "")
              (Some "/app/uploads/photo_1.png") false;
         Task 2 "2024-06-10" "Standup" (Some "") (Some "08:00") (Some "")
              (Some "") false] ∧
    files w' !! "/tmp/photo.png" = Some sample_file.
Proof.
  destruct (edit_dialog_with_new_file
      {| edit_copy := OsOk; edit_clock := sample_clock; edit_update := IoOk;
         edit_refresh := IoOk |}
      1
      (Task 1 "2024-06-10" "Dentist" (Some "") (Some "09:30") (Some "")
            (Some "") false)
      {| browsed := ["/tmp/photo.png"];
         entered := {| name_text := "Dentist"; description_text := "x-ray";
                       time_text := "09:30"; location_text := "" |};
         closed_with := Accepted |}
      (set_data_manager sample_desktop planner_with_two_tasks)
      "/tmp/photo.png")
    as (w' & Hrun & Hrows & _ & Hsource & _).
  - split; vm_compute; discriminate.
  - reflexivity.
  - discriminate.
  - reflexivity.
  - discriminate.
  - reflexivity.
  - exists w'. split; [exact Hrun|]. split.
    + rewrite Hrows. vm_compute. reflexivity.
    + rewrite Hsource. vm_compute. reflexivity.
Defined.

Section buttons.

(** The tasks in the columns after a refresh are stored ones. *)
Lemma week_grid_rows_stored w :
  ∃ w',
    update_week_display IoOk w = (Return (), w') ∧
    data_manager (planner w') = data_manager (planner w) ∧
    files w' = files w ∧
    message_boxes (planner w') = message_boxes (planner w) ∧
    ∀ column r, column ∈ week_grid (planner w') → r ∈ column.2 →
                r ∈ stored_tasks (data_manager (planner w)) ∧
                t_date r = column.1.
Proof.
  destruct (week_grid_columns w)
    as (w' & Hrun & Hdm & Hfiles & Hboxes & Hlen & Hcols).
  exists w'. split; [exact Hrun|]. split; [done|]. split; [done|].
  split; [done|].
  intros column r [i Hi]%list_elem_of_lookup Hr.
  assert (i < 7)%nat as Hlt by (rewrite <- Hlen; by eapply lookup_lt_Some).
  destruct (Hcols i Hlt) as (rs & Hi' & Hiff & _).
  rewrite Hi in Hi'. injection Hi' as ->. simpl in *.
  apply Hiff in Hr as (Hr & Hdate & _). done.
Qed.

Lemma delete_task_rows self task_id :
  int64 task_id →
  ∃ self',
    delete_task IoOk task_id self = (Return (), self') ∧
    stored_tasks self' = filter (λ r, t_id r ≠ task_id) (stored_tasks self).
Proof.
  intros Hid. destruct (conn self) as [db|] eqn:Hc.
  - eexists. split; [by apply delete_task_run|].
    unfold stored_tasks. by rewrite Hc.
  - exists self. unfold delete_task, stored_tasks. by rewrite Hc.
Qed.

Lemma update_task_status_rows self task_id is_completed :
  int64 task_id →
  ∃ self',
    update_task_status IoOk task_id is_completed self = (Return (), self') ∧
    stored_tasks self' =
      (λ r, if decide (t_id r = task_id) then with_is_completed r is_completed
            else r) <$> stored_tasks self.
Proof.
  intros Hid. destruct (conn self) as [db|] eqn:Hc.
  - eexists. split; [by apply update_task_status_run|].
    unfold stored_tasks. by rewrite Hc.
  - exists self. unfold update_task_status, stored_tasks. by rewrite Hc.
Qed.

End buttons.

(** X25: the Delete button.  Answering No to the confirmation changes
    nothing at all.  Answering Yes, for an identity in the range of
    SQLite's integers, removes the rows of that identity from the store and
    no column of the refreshed grid lists the task, while the files, the
    attachment of the task among them, stay as they were; that is so too
    when the commit of the deletion fails, of which no box tells the user.
    When the statement of the deletion fails the task stays stored and no
    box tells the user either. *)
Theorem delete_button_asks_first :
  ∀ (refresh : io_status) (task_id : Z) (w : desktop),
    (∀ io, confirm_delete_task io refresh task_id false w = (Return (), w)) ∧
    (int64 task_id →
     ∀ io, io ≠ IoFault →
       ∃ w',
         confirm_delete_task io IoOk task_id true w = (Return (), w') ∧
         stored_tasks (data_manager (planner w'))
           = filter (λ r, t_id r ≠ task_id)
                    (stored_tasks (data_manager (planner w))) ∧
         files w' = files w ∧
         message_boxes (planner w') = message_boxes (planner w) ∧
         ∀ column r, column ∈ week_grid (planner w') → r ∈ column.2 →
                     t_id r ≠ task_id) ∧
    (int64 task_id →
     ∃ w',
       confirm_delete_task IoFault refresh task_id true w = (Return (), w') ∧
       data_manager (planner w') = data_manager (planner w) ∧
       files w' = files w ∧
       message_boxes (planner w') = message_boxes (planner w)).
Proof.
  intros refresh task_id w. split; [done|]. split.
  - intros Hid io Hio.
    destruct (delete_task_rows (data_manager (planner w)) task_id Hid)
      as (dm & Hdel & Hrows).
    assert (delete_task io task_id (data_manager (planner w))
            = (Return (), dm)) as Hdel'.
    { destruct io; [done|done|by rewrite delete_task_commit_fault]. }
    unfold confirm_delete_task.
    unfold mbind at 1, action_bind at 1, bind at 1.
    erewrite on_data_manager_run by exact Hdel'. cbv beta iota.
    destruct (week_grid_rows_stored (set_data_manager w dm))
      as (w' & Hrun & Hdm & Hfiles & Hboxes & Hgrid).
    exists w'. split; [exact Hrun|]. rewrite Hdm, Hfiles, Hboxes. simpl.
    split; [done|]. split; [done|]. split; [done|].
    intros column r Hcolumn Hr.
    destruct (Hgrid column r Hcolumn Hr) as [Hstored _].
    simpl in Hstored. rewrite Hrows in Hstored.
    by apply list_elem_of_filter in Hstored as [? _].
  - intros Hid. unfold confirm_delete_task.
    unfold mbind at 1, action_bind at 1, bind at 1.
    erewrite on_data_manager_run by (by apply delete_task_fault).
    cbv beta iota.
    destruct (update_week_display_returns refresh
                (set_data_manager w (data_manager (planner w))))
      as (w' & Hrun & Hdm & Hfiles & Hboxes & _).
    exists w'. split; [exact Hrun|]. by rewrite Hdm, Hfiles, Hboxes.
Qed.

Lemma delete_button_asks_first_witness :
  ∃ w',
    confirm_delete_task CommitFault IoOk 1 true
      (set_data_manager sample_desktop planner_with_two_tasks)
      = (Return (), w') ∧
    stored_tasks (data_manager (planner w'))
      = [Task 2 "2024-06-10" "Standup" (Some "") (Some "08:00") (Some "")
              (Some "") false] ∧
    message_boxes (planner w') = [].
Proof.
  destruct (delete_button_asks_first IoOk 1
              (set_data_manager sample_desktop planner_with_two_tasks))
    as (_ & H & _).
  destruct (H ltac:(split; vm_compute; discriminate) CommitFault
              ltac:(discriminate))
    as (w' & Hrun & Hrows & _ & Hboxes & _).
  exists w'. split; [exact Hrun|]. split.
  - rewrite Hrows. vm_compute. reflexivity.
  - exact Hboxes.
Defined.

(** X26: the checkbox.  For an identity in the range of SQLite's integers,
    [_toggle_task_completion] sets the flag of the rows of that identity
    and of no other row, and every task of that identity the refreshed grid
    lists carries the new flag. *)
Theorem checkbox_shows_in_the_grid :
  ∀ (task_id : Z) (is_completed : bool) (w : desktop),
    int64 task_id →
    ∃ w',
      toggle_task_completion IoOk IoOk task_id is_completed w
        = (Return (), w') ∧
      stored_tasks (data_manager (planner w'))
        = (λ r, if decide (t_id r = task_id)
                then with_is_completed r is_completed else r)
            <$> stored_tasks (data_manager (planner w)) ∧
      files w' = files w ∧
      message_boxes (planner w') = message_boxes (planner w) ∧
      ∀ column r, column ∈ week_grid (planner w') → r ∈ column.2 →
                  t_id r = task_id → t_is_completed r = is_completed.
Proof.
  intros task_id is_completed w Hid.
  destruct (update_task_status_rows (data_manager (planner w)) task_id
              is_completed Hid) as (dm & Hupd & Hrows).
  unfold toggle_task_completion.
  unfold mbind at 1, action_bind at 1, bind at 1.
  erewrite on_data_manager_run by exact Hupd. cbv beta iota.
  destruct (week_grid_rows_stored (set_data_manager w dm))
    as (w' & Hrun & Hdm & Hfiles & Hboxes & Hgrid).
  exists w'. split; [exact Hrun|]. rewrite Hdm, Hfiles, Hboxes. simpl.
  split; [done|]. split; [done|]. split; [done|].
  intros column r Hcolumn Hr Hid'.
  destruct (Hgrid column r Hcolumn Hr) as [Hstored _].
  simpl in Hstored. rewrite Hrows in Hstored.
  apply list_elem_of_fmap in Hstored as (r0 & -> & _).
  case_decide as Hr0; [done|]. done.
Qed.

Lemma checkbox_shows_in_the_grid_witness :
  ∃ w',
    toggle_task_completion IoOk IoOk 1 true
      (set_data_manager sample_desktop planner_with_two_tasks)
      = (Return (), w') ∧
    files w' = sample_fs.
Proof.
  destruct (checkbox_shows_in_the_grid 1 true
              (set_data_manager sample_desktop planner_with_two_tasks))
    as (w' & Hrun & _ & Hfiles & _).
  - split; vm_compute; discriminate.
  - exists w'. split; [exact Hrun|exact Hfiles].
Defined.
